(** * AP2 vacation demo: envelope, mandate integrity and the three agents

    A shallow embedding of
    - [lib/a2a-protocol.ts]   (the A2A envelope: builder and readers),
    - [lib/jwt-utils.ts]      (digest, signing and verification of mandates),
    - [pages/api/agents/merchant.ts], [pages/api/agents/credentials-provider.ts]
      and [pages/api/shopping-agent.ts] (the three request handlers),
    followed by the properties of the specification that concern them.

    JavaScript values are a tree type [value]; numbers are IEEE binary64
    ([PrimFloat.float]), strings are sequences of bytes, objects are association
    lists in insertion order.  What the program takes from its runtime and from
    third-party packages (SHA-256, the HS256 MAC of [jose], number and date
    formatting) is a [Variable] of the section that uses it. *)

From Stdlib Require Import Floats ZArith Ascii String List.
From Stdlib Require Import DecimalString.
From Stdlib Require DecimalPos DecimalZ.
From stdpp Require Import base tactics option list strings sorting.

Set Warnings "-inexact-float,-register-all".

Local Open Scope string_scope.
Local Open Scope list_scope.

(** ** JavaScript values *)

Inductive value : Type :=
| VUndefined
| VNull
| VBool (b : bool)
| VNum (x : float)
| VStr (s : string)
| VArr (items : list value)
| VObj (fields : list (string * value)).

(** Structural induction that reaches the elements of arrays and the values
    of object fields. *)
Section value_induction.
Variable P : value -> Prop.
Hypothesis Hundef : P VUndefined.
Hypothesis Hnull : P VNull.
Hypothesis Hbool : forall b, P (VBool b).
Hypothesis Hnum : forall x, P (VNum x).
Hypothesis Hstr : forall s, P (VStr s).
Hypothesis Harr : forall items, Forall P items -> P (VArr items).
Hypothesis Hobj : forall fields, Forall (fun kv => P (snd kv)) fields -> P (VObj fields).

Fixpoint value_nested_ind (v : value) : P v :=
  match v with
  | VUndefined => Hundef
  | VNull => Hnull
  | VBool b => Hbool b
  | VNum x => Hnum x
  | VStr s => Hstr s
  | VArr items =>
      Harr items
        ((fix go (l : list value) : Forall P l :=
            match l with
            | [] => @List.Forall_nil _ P
            | x :: l' => @List.Forall_cons _ P x l' (value_nested_ind x) (go l')
            end) items)
  | VObj fields =>
      Hobj fields
        ((fix go (l : list (string * value)) : Forall (fun kv => P (snd kv)) l :=
            match l with
            | [] => @List.Forall_nil _ _
            | kv :: l' =>
                @List.Forall_cons _ (fun kv => P (snd kv)) kv l'
                  (value_nested_ind (snd kv)) (go l')
            end) fields)
  end.
End value_induction.

(** [ToBoolean]: the values an [if], [!x] or [a || b] treats as false are
    [undefined], [null], [false], [0], [-0], [NaN] and the empty string. *)
Definition ToBoolean (v : value) : bool :=
  match v with
  | VUndefined | VNull => false
  | VBool b => b
  | VNum x => negb (PrimFloat.eqb x 0%float || PrimFloat.is_nan x)
  | VStr s => negb (String.eqb s "")
  | VArr _ | VObj _ => true
  end.

(** [v === "lit"] against a string literal: true exactly for that string. *)
Definition strict_eq_str (v : value) (lit : string) : bool :=
  match v with
  | VStr s => String.eqb s lit
  | _ => false
  end.

(** [a || b] on values. *)
Definition js_or (a b : value) : value := if ToBoolean a then a else b.

(** Own-property lookup in an object's field list: the first binding of the
    key (a JavaScript object has one binding per key). *)
Fixpoint assoc {A} (k : string) (fs : list (string * A)) : option A :=
  match fs with
  | [] => None
  | (k', v) :: fs' => if String.eqb k' k then Some v else assoc k fs'
  end.

(** [o[k]] on the fields of an object: [undefined] when the key is absent.
    (The members an object inherits from [Object.prototype] are not values
    of this model: a statement about every key [k] leaves their names out.) *)
Definition obj_get (fs : list (string * value)) (k : string) : value :=
  match assoc k fs with
  | Some v => v
  | None => VUndefined
  end.

(** ** Exceptions *)

Record Exception : Type := mkException { exn_name : string; exn_message : string }.

Inductive Result (A : Type) : Type :=
| Ok (a : A)
| Throw (e : Exception).
Arguments Ok {A} a.
Arguments Throw {A} e.

Definition TypeError (msg : string) : Exception := mkException "TypeError" msg.
Definition Error (msg : string) : Exception := mkException "Error" msg.

(** [`${error}`] is [Error.prototype.toString]: name, colon, message. *)
Definition Exception_toString (e : Exception) : string :=
  if String.eqb (exn_message e) "" then exn_name e
  else if String.eqb (exn_name e) "" then exn_message e
  else exn_name e +:+ ": " +:+ exn_message e.

(** [v.p]: reading a property of [undefined] or [null] throws; a primitive
    has none of the property names this program reads. *)
Definition get_prop (v : value) (p : string) : Result value :=
  match v with
  | VUndefined =>
      Throw (TypeError ("Cannot read properties of undefined (reading '" +:+ p +:+ "')"))
  | VNull =>
      Throw (TypeError ("Cannot read properties of null (reading '" +:+ p +:+ "')"))
  | VObj fs => Ok (obj_get fs p)
  | _ => Ok VUndefined
  end.

(** ** Strings of the runtime *)

(** The double quote, which a literal of this file cannot hold. *)
Definition dquote : string := String (ascii_of_nat 34) EmptyString.
Definition backslash : string := String (ascii_of_nat 92) EmptyString.

(** Decimal digits of an integer, as [String(n)] gives them for an integral
    Number below 1e21 ([Date.now()], an array index, a length). *)
Definition Z_to_string (n : Z) : string := NilZero.string_of_int (Z.to_int n).
Definition nat_to_string (n : nat) : string := NilZero.string_of_uint (Nat.to_uint n).

(** [s.toLowerCase()] on the letters A-Z; every other byte is kept.  (The
    Unicode mapping sends no character outside ASCII to a letter of
    "payment method", the only text this program searches for.) *)
Definition lower_ascii (c : ascii) : ascii :=
  let n := nat_of_ascii c in
  if Nat.leb 65 n && Nat.leb n 90 then ascii_of_nat (n + 32) else c.

Fixpoint toLowerCase (s : string) : string :=
  match s with
  | EmptyString => EmptyString
  | String c s' => String (lower_ascii c) (toLowerCase s')
  end.

(** [s.includes(t)]: [t] occurs in [s] at some position. *)
Fixpoint includes (s t : string) : bool :=
  String.prefix t s ||
  match s with
  | EmptyString => false
  | String _ s' => includes s' t
  end.

(** [s.slice(a, b)] for [0 <= a <= b]: the characters at positions [a] to
    [b - 1] that exist. *)
Fixpoint string_drop (n : nat) (s : string) : string :=
  match n, s with
  | O, _ => s
  | S n', String _ s' => string_drop n' s'
  | S _, EmptyString => EmptyString
  end.

Fixpoint string_take (n : nat) (s : string) : string :=
  match n, s with
  | S n', String c s' => String c (string_take n' s')
  | _, _ => EmptyString
  end.

Definition slice (s : string) (a b : nat) : string := string_take (b - a) (string_drop a s).

(** ** [JSON.stringify]: quoting, property lists *)

Definition hex_digit (n : nat) : ascii :=
  if Nat.ltb n 10 then ascii_of_nat (48 + n) else ascii_of_nat (87 + n).

(** The escape of one byte in [QuoteJSONString]. *)
Definition QuoteJSONChar (c : ascii) : string :=
  let n := nat_of_ascii c in
  if Nat.eqb n 8 then backslash +:+ "b"
  else if Nat.eqb n 9 then backslash +:+ "t"
  else if Nat.eqb n 10 then backslash +:+ "n"
  else if Nat.eqb n 12 then backslash +:+ "f"
  else if Nat.eqb n 13 then backslash +:+ "r"
  else if Nat.eqb n 34 then backslash +:+ dquote
  else if Nat.eqb n 92 then backslash +:+ backslash
  else if Nat.ltb n 32 then
    backslash +:+ "u00" +:+ String (hex_digit (n / 16)) (String (hex_digit (n mod 16)) EmptyString)
  else String c EmptyString.

Fixpoint QuoteJSONString_chars (s : string) : string :=
  match s with
  | EmptyString => EmptyString
  | String c s' => QuoteJSONChar c +:+ QuoteJSONString_chars s'
  end.

Definition QuoteJSONString (s : string) : string :=
  dquote +:+ QuoteJSONString_chars s +:+ dquote.

(** The property list an array replacer denotes: its strings, each kept at
    its first occurrence. *)
Fixpoint PropertyList (replacer : list string) : list string :=
  match replacer with
  | [] => []
  | k :: ks => k :: filter (fun k' => negb (String.eqb k' k)) (PropertyList ks)
  end.

Definition is_finite (x : float) : bool := negb (PrimFloat.is_nan x || PrimFloat.is_infinity x).

(** [Object.keys(v)]: the own enumerable string keys.  (For an object with
    integer-like keys the engine lists those first; every use below sorts the
    result, so the order of this list is immaterial.) *)
Definition Object_keys (v : value) : Result (list string) :=
  match v with
  | VUndefined | VNull => Throw (TypeError "Cannot convert undefined or null to object")
  | VBool _ | VNum _ => Ok []
  | VStr s => Ok (map nat_to_string (seq 0 (String.length s)))
  | VArr items => Ok (map nat_to_string (seq 0 (length items)))
  | VObj fields => Ok (map fst fields)
  end.

(** [keys.sort()] with the default comparison: ascending order of the
    strings, compared unit by unit. *)
Definition Array_sort (keys : list string) : list string := merge_sort String.le keys.

(** What a value is on the other side of [JSON.stringify] / [JSON.parse] (the
    body of a [fetch], the [json()] of its response): fields holding
    [undefined] are gone, [undefined] elements and non-finite numbers are
    [null], and [-0] is [0]. *)
Fixpoint over_the_wire (v : value) : value :=
  match v with
  | VUndefined => VNull
  | VNum x => if is_finite x then (if PrimFloat.eqb x 0%float then VNum 0%float else VNum x) else VNull
  | VArr items => VArr (map over_the_wire items)
  | VObj fields =>
      VObj (flat_map (fun kv => match snd kv with
                                | VUndefined => []
                                | _ => [(fst kv, over_the_wire (snd kv))]
                                end) fields)
  | _ => v
  end.

(** ** The surroundings of the program *)

(** lib/vacation-catalog.ts is not among the files embedded here; its entries
    have the type [VacationPackage] of types/ap2.ts (the fields the handlers
    read). *)
Record VacationPackage : Type := mkVacationPackage {
  pkg_id : string;
  pkg_name : string;
  pkg_destination : string;
  pkg_region : string;
  pkg_activities : list string;
  pkg_price : float;
  pkg_currency : string;
  pkg_image_url : option string;
}.

(** The protected header and the claims of a signed token (types/ap2.ts:
    [CartMandateJWTPayload], [PaymentMandateJWTPayload]).  [cart_id] and
    [payment_mandate_id] are whatever the signed object holds under [id]. *)
Record JWSHeader : Type := mkHeader { alg : string; kid : string }.

Record CartMandateJWTPayload : Type := mkCartPayload {
  c_iss : string;
  c_sub : string;
  c_aud : string;
  cart_id : value;
  cart_hash : string;
  c_iat : option Z;
  c_exp : option Z;
  c_jti : option string;
}.

Record PaymentMandateJWTPayload : Type := mkPaymentPayload {
  p_iss : string;
  p_sub : string;
  p_aud : string;
  payment_mandate_id : value;
  mandate_hash : string;
  transaction_data : list string;
  p_iat : option Z;
  p_exp : option Z;
  p_jti : option string;
}.

Inductive JWTPayload : Type :=
| CartPayload (p : CartMandateJWTPayload)
| PaymentPayload (p : PaymentMandateJWTPayload).

Definition payload_exp (p : JWTPayload) : option Z :=
  match p with
  | CartPayload c => c_exp c
  | PaymentPayload q => p_exp q
  end.

(** A JWS before its compact serialization: the three segments. *)
Record JWS : Type := mkJWS {
  jws_header : JWSHeader;
  jws_payload : JWTPayload;
  jws_signature : string;
}.

(** What the handlers take from the engine, from Node and from the packages
    [jose] and the catalog module. *)
Class Platform : Type := {
  (** [Number::toString], radix 10, of a finite Number. *)
  Number_toString : float -> string;
  (** [x.toString(36)]. *)
  Number_toString36 : float -> string;
  (** [new Date(ms).toISOString()]. *)
  Date_toISOString : Z -> string;
  (** [crypto.createHash("sha256").update(s).digest("hex")]. *)
  sha256_hex : string -> string;
  (** The HS256 signature segment [jose] computes with a secret key over a
      header and claims. *)
  HS256 : string -> JWSHeader -> JWTPayload -> string;
  (** The same for another algorithm name; [None] for a name [jose] does not
      support with such a key. *)
  jose_other_mac : string -> string -> JWSHeader -> JWTPayload -> option string;
  (** The message [jose] gives an error of a class of its own. *)
  jose_message : string -> string;
  (** [jose]'s compact serialization of a JWS, and its reading of a token. *)
  JWS_compact : JWS -> string;
  JWS_parse : string -> option JWS;
  (** [process.env.JWT_SECRET], which lib/jwt-utils.ts requires at load. *)
  JWT_SECRET : string;
  (** [VACATION_PACKAGES] of lib/vacation-catalog.ts. *)
  VACATION_PACKAGES : list VacationPackage;
}.

(** The envelope of lib/a2a-protocol.ts: [Part] and [A2AMessage]. *)
Inductive Part : Type :=
| TextPart (text : string)
| DataPart (data : list (string * value)).

Record A2AMessage : Type := mkA2AMessage {
  message_id : string;
  context_id : value;
  task_id : value;
  role : string;
  parts : list Part;
  timestamp : string;
}.

(** The state the handlers read and advance: the clock ([Date.now()],
    [new Date()]), the generator behind [Math.random()], the replies of the
    remote models, the environment variable the handlers test, the
    envelopes posted to the peer agents so far (oldest first), and what the
    network returns for them. *)
Record World : Type := mkWorld {
  clock : nat -> Z;
  clock_reads : nat;
  random : nat -> float;
  random_draws : nat;
  (** the n-th call of a model, when it is the chat model: its reply, or the
      error it throws *)
  chat_model : nat -> Result string;
  (** the n-th call of a model, when it is the selection model, after the
      handler's own extraction and [JSON.parse]: the value of
      [result.package_ids], or the error of the call or of the parse *)
  selection_model : nat -> Result (list string);
  model_calls : nat;
  OPENROUTER_API_KEY : option string;
  sent : list (string * A2AMessage);
  (** what comes back for the n-th envelope posted, given its route and the
      envelope: the parsed JSON body of the response, whoever answers at the
      URL and with whatever status, or the error with which [fetch] or
      [json()] rejects *)
  network : nat -> string -> A2AMessage -> Result value;
}.

(** Computations on the world that may throw. *)
Definition M (A : Type) : Type := World -> Result A * World.

Definition ret {A} (a : A) : M A := fun w => (Ok a, w).

Definition bind {A B} (m : M A) (k : A -> M B) : M B :=
  fun w => match m w with
           | (Ok a, w') => k a w'
           | (Throw e, w') => (Throw e, w')
           end.

Definition throw {A} (e : Exception) : M A := fun w => (Throw e, w).

Definition lift {A} (r : Result A) : M A := fun w => (r, w).

(** [try { m } catch (error) { handler(error) }]. *)
Definition try_catch {A} (m : M A) (handler : Exception -> M A) : M A :=
  fun w => match m w with
           | (Ok a, w') => (Ok a, w')
           | (Throw e, w') => handler e w'
           end.

Notation "x <- m ;; k" := (bind m (fun x => k))
  (at level 100, m at next level, right associativity).

Definition Date_now : M Z :=
  fun w => (Ok (clock w (clock_reads w)),
            mkWorld (clock w) (S (clock_reads w)) (random w) (random_draws w)
                    (chat_model w) (selection_model w) (model_calls w)
                    (OPENROUTER_API_KEY w) (sent w) (network w)).

Definition Math_random : M float :=
  fun w => (Ok (random w (random_draws w)),
            mkWorld (clock w) (clock_reads w) (random w) (S (random_draws w))
                    (chat_model w) (selection_model w) (model_calls w)
                    (OPENROUTER_API_KEY w) (sent w) (network w)).

Definition next_model_call : M nat :=
  fun w => (Ok (model_calls w),
            mkWorld (clock w) (clock_reads w) (random w) (random_draws w)
                    (chat_model w) (selection_model w) (S (model_calls w))
                    (OPENROUTER_API_KEY w) (sent w) (network w)).

Definition invoke_chat_model : M string :=
  n <- next_model_call ;; fun w => (chat_model w n, w).

Definition invoke_selection_model : M (list string) :=
  n <- next_model_call ;; fun w => (selection_model w n, w).

Definition getenv_OPENROUTER_API_KEY : M (option string) :=
  fun w => (Ok (OPENROUTER_API_KEY w), w).

(** The request body of a [fetch] leaves for a route. *)
Definition post (route : string) (envelope : A2AMessage) : M unit :=
  fun w => (Ok tt,
            mkWorld (clock w) (clock_reads w) (random w) (random_draws w)
                    (chat_model w) (selection_model w) (model_calls w)
                    (OPENROUTER_API_KEY w) (sent w ++ [(route, envelope)])
                    (network w)).

(** ** A platform and worlds for examples

    The statements below hold for every platform.  To run the program on
    concrete inputs, this one prints a number exactly (mantissa and binary
    exponent), gives the text it is applied to for a digest or a signature,
    and reads back the tokens of a small table. *)

Definition exact_number_text (x : float) : string :=
  match Prim2SF x with
  | S754_zero _ => "0"
  | S754_infinity false => "Infinity"
  | S754_infinity true => "-Infinity"
  | S754_nan => "NaN"
  | S754_finite sign m e =>
      (if sign then "-" else EmptyString) +:+ Z_to_string (Zpos m) +:+ "*2^" +:+ Z_to_string e
  end.

Definition option_text {A} (f : A -> string) (o : option A) : string :=
  match o with
  | Some a => f a
  | None => "-"
  end.

Definition claims_text (claims : JWTPayload) : string :=
  match claims with
  | CartPayload c =>
      c_iss c +:+ "," +:+ cart_hash c +:+ "," +:+ option_text Z_to_string (c_iat c)
      +:+ "," +:+ option_text Z_to_string (c_exp c) +:+ "," +:+ option_text id (c_jti c)
  | PaymentPayload q =>
      p_iss q +:+ "," +:+ mandate_hash q +:+ "," +:+ option_text Z_to_string (p_iat q)
      +:+ "," +:+ option_text Z_to_string (p_exp q) +:+ "," +:+ option_text id (p_jti q)
  end.

Definition example_HS256 (key : string) (h : JWSHeader) (claims : JWTPayload) : string :=
  "HS256(" +:+ key +:+ "," +:+ kid h +:+ "," +:+ claims_text claims +:+ ")".

Definition example_compact (jws : JWS) : string :=
  alg (jws_header jws) +:+ "/" +:+ kid (jws_header jws) +:+ "." +:+ claims_text (jws_payload jws)
  +:+ "." +:+ jws_signature jws.

Definition example_header : JWSHeader := mkHeader "HS256" "merchant-key-2024".

(** Claims for a cart, issued at second 1762077600 with the given expiry. *)
Definition example_claims (exp : Z) : JWTPayload :=
  CartPayload
    (mkCartPayload "tropical-paradise-vacations" "merchant-agent-001" "payment-processor"
       (VStr "cart-1") "sha256({})" (Some 1762077600%Z) (Some exp) (Some "jwt-cart-1")).

(** A token whose signature is not the key's, and a token signed with the
    key whose expiry is in the past of the example clock. *)
Definition forged_jws : JWS :=
  mkJWS example_header (example_claims 1762078500) "forged".

Definition expired_jws : JWS :=
  mkJWS example_header (example_claims 1000)
    (example_HS256 "example-secret" example_header (example_claims 1000)).

Definition example_parse (token : string) : option JWS :=
  List.find (fun jws => String.eqb (example_compact jws) token) [forged_jws; expired_jws].

Definition example_catalog : list VacationPackage :=
  [ mkVacationPackage "vac-001" "Island Retreat" "Maldives" "Asia" ["diving"; "spa"]
      4999%float "USD" None;
    mkVacationPackage "vac-002" "Alpine Week" "Zermatt" "Europe" ["skiing"]
      2199%float "USD" (Some "/images/alps.jpg") ].

Definition example_platform : Platform :=
  {| Number_toString := exact_number_text;
     Number_toString36 := fun x => "0." +:+ exact_number_text x;
     Date_toISOString := Z_to_string;
     sha256_hex := fun text => "sha256(" +:+ text +:+ ")";
     HS256 := example_HS256;
     jose_other_mac := fun _ _ _ _ => None;
     jose_message := fun class => "verification step failed";
     JWS_compact := example_compact;
     JWS_parse := example_parse;
     JWT_SECRET := "example-secret";
     VACATION_PACKAGES := example_catalog |}.

(** A network on which no peer is reached: every [fetch] rejects. *)
Definition unreachable : nat -> string -> A2AMessage -> Result value :=
  fun _ _ _ => Throw (TypeError "fetch failed").

(** A world whose clock advances by one millisecond at each reading and
    whose generator gives a new number at each draw; and a world in which
    neither moves.  No peer is reached from either. *)
Definition ticking_world : World :=
  mkWorld (fun n => 1762077600000 + Z.of_nat n)%Z 0
          (fun n => nth n [0.25; 0.75; 0.125; 0.625; 0.375; 0.875]%float 0.5%float) 0
          (fun _ => Ok "Here are some ideas.") (fun _ => Ok ["vac-002"; "vac-001"]) 0
          (Some "sk-or-example") [] unreachable.

Definition frozen_world : World :=
  mkWorld (fun _ => 1762077600000%Z) 0 (fun _ => 0.5%float) 0
          (fun _ => Ok "Here are some ideas.") (fun _ => Ok ["vac-002"; "vac-001"]) 0
          (Some "sk-or-example") [] unreachable.

(** The example platform with a reader of tokens that knows the given
    ones: a token is read back as the first of them that serializes to it. *)
Definition platform_with_tokens (tokens : list JWS) : Platform :=
  {| Number_toString := exact_number_text;
     Number_toString36 := fun x => "0." +:+ exact_number_text x;
     Date_toISOString := Z_to_string;
     sha256_hex := fun text => "sha256(" +:+ text +:+ ")";
     HS256 := example_HS256;
     jose_other_mac := fun _ _ _ _ => None;
     jose_message := fun class => "verification step failed";
     JWS_compact := example_compact;
     JWS_parse := fun token =>
                    List.find (fun jws => String.eqb (example_compact jws) token) tokens;
     JWT_SECRET := "example-secret";
     VACATION_PACKAGES := example_catalog |}.

(** * The program *)

Section Program.
Context {pf : Platform}.

(** [String(v)], as a template literal or [Array.prototype.join] applies it. *)
Fixpoint ToString (v : value) : string :=
  match v with
  | VUndefined => "undefined"
  | VNull => "null"
  | VBool true => "true"
  | VBool false => "false"
  | VNum x => Number_toString x
  | VStr s => s
  | VArr items =>
      String.concat ","
        (map (fun x => match x with
                       | VUndefined | VNull => EmptyString
                       | _ => ToString x
                       end) items)
  | VObj _ => "[object Object]"
  end.

(** [items.join(sep)]: [undefined] and [null] elements give the empty string. *)
Definition Array_join (items : list value) (sep : string) : string :=
  String.concat sep
    (map (fun x => match x with
                   | VUndefined | VNull => EmptyString
                   | _ => ToString x
                   end) items).

(** Whether an object parsed from JSON has a member named [toString] of its
    own, which hides the method that converts it to a primitive. *)
Definition own_toString (fields : list (string * value)) : bool :=
  match assoc "toString" fields with
  | Some _ => true
  | None => false
  end.

Definition not_primitive : Exception := TypeError "Cannot convert object to primitive value".

(** [String(v)] for a value parsed from JSON, where it can throw: an object
    whose own [toString] member hides the inherited method has no primitive
    value; an array joins the strings of its elements. *)
Fixpoint ToString_checked (v : value) : Result string :=
  match v with
  | VObj fields => if own_toString fields then Throw not_primitive else Ok "[object Object]"
  | VArr items =>
      match
        (fix elements (l : list value) : Result (list string) :=
           match l with
           | [] => Ok []
           | x :: l' =>
               match match x with
                     | VUndefined | VNull => Ok EmptyString
                     | _ => ToString_checked x
                     end
               with
               | Throw e => Throw e
               | Ok s =>
                   match elements l' with
                   | Throw e => Throw e
                   | Ok ss => Ok (s :: ss)
                   end
               end
           end) items
      with
      | Throw e => Throw e
      | Ok pieces => Ok (String.concat "," pieces)
      end
  | _ => Ok (ToString v)
  end.

(** ** [JSON.stringify(value, arrayReplacer)]: the serializer *)

(** [SerializeJSONProperty] with a property list [K] and no gap: [None] is
    the [undefined] result that makes an object omit the member.  The same
    list [K] selects and orders the members of every object, at any depth;
    array elements are all kept, [undefined] ones as [null].  (The values
    of an object's fields are serialized before [K] picks among them.) *)
Fixpoint SerializeJSONProperty (K : list string) (v : value) : option string :=
  match v with
  | VUndefined => None
  | VNull => Some "null"
  | VBool true => Some "true"
  | VBool false => Some "false"
  | VNum x => Some (if is_finite x then Number_toString x else "null")
  | VStr s => Some (QuoteJSONString s)
  | VArr items =>
      Some ("[" +:+
            String.concat ","
              (map (fun x => match SerializeJSONProperty K x with
                             | Some str => str
                             | None => "null"
                             end) items)
            +:+ "]")
  | VObj fields =>
      let serialized := map (fun kv => (fst kv, SerializeJSONProperty K (snd kv))) fields in
      Some ("{" +:+
            String.concat ","
              (omap (fun P => match assoc P serialized with
                              | Some (Some str) => Some (QuoteJSONString P +:+ ":" +:+ str)
                              | _ => None
                              end) K)
            +:+ "}")
  end.

Definition JSON_stringify (v : value) (replacer : list string) : option string :=
  SerializeJSONProperty (PropertyList replacer) v.

(** ** lib/jwt-utils.ts: the digest *)

(** [hashObject]: the sorted top-level keys are passed to [JSON.stringify]
    as its replacer. *)
Definition hashObject (obj : value) : Result string :=
  match Object_keys obj with
  | Throw e => Throw e
  | Ok keys =>
      match JSON_stringify obj (Array_sort keys) with
      | Some canonicalJson => Ok (sha256_hex canonicalJson)
      | None => Throw (TypeError "The data argument must be of type string")
      end
  end.

(** ** lib/jwt-utils.ts: signing and verification *)

(** [jose]'s [epoch]: whole seconds of a time in milliseconds. *)
Definition epoch (ms : Z) : Z := (ms / 1000)%Z.

(** An error of one of [jose]'s classes. *)
Definition JoseError (class : string) : Exception := mkException class (jose_message class).

(** [new SignJWT(claims).setProtectedHeader(h)...sign(SECRET_KEY)] before the
    compact serialization. *)
Definition jose_mac (h : JWSHeader) (claims : JWTPayload) : option string :=
  if String.eqb (alg h) "HS256" then Some (HS256 JWT_SECRET h claims)
  else jose_other_mac (alg h) JWT_SECRET h claims.

Definition SignJWT_sign (h : JWSHeader) (claims : JWTPayload) : Result JWS :=
  match jose_mac h claims with
  | Some signature => Ok (mkJWS h claims signature)
  | None => Throw (JoseError "JOSENotSupported")
  end.

(** [signCartMandate], up to the serialization: the digest is taken first,
    then [setIssuedAt] and [setExpirationTime("15m")] each read the clock. *)
Definition signCartMandate_jws (cartContents : value) : M JWS :=
  cartHash <- lift (hashObject cartContents) ;;
  id <- lift (get_prop cartContents "id") ;;
  issued <- Date_now ;;
  expires <- Date_now ;;
  lift (SignJWT_sign
          (mkHeader "HS256" "merchant-key-2024")
          (CartPayload
             (mkCartPayload "tropical-paradise-vacations" "merchant-agent-001" "payment-processor"
                id cartHash
                (Some (epoch issued)) (Some (epoch expires + 15 * 60)%Z)
                (Some ("jwt-" +:+ ToString id))))).

Definition signCartMandate (cartContents : value) : M string :=
  jws <- signCartMandate_jws cartContents ;; ret (JWS_compact jws).

(** [signPaymentMandate], up to the serialization. *)
Definition signPaymentMandate_jws (paymentMandateContents : value) : M JWS :=
  mandateHash <- lift (hashObject paymentMandateContents) ;;
  id <- lift (get_prop paymentMandateContents "payment_mandate_id") ;;
  issued <- Date_now ;;
  expires <- Date_now ;;
  lift (SignJWT_sign
          (mkHeader "HS256" "user-key-2024")
          (PaymentPayload
             (mkPaymentPayload "did:example:user123" "user-credential" "merchant"
                id mandateHash [mandateHash]
                (Some (epoch issued)) (Some (epoch expires + 60 * 60)%Z)
                (Some ("user-sig-" +:+ ToString id))))).

Definition signPaymentMandate (paymentMandateContents : value) : M string :=
  jws <- signPaymentMandate_jws paymentMandateContents ;; ret (JWS_compact jws).

(** [jwtVerify(token, SECRET_KEY)] of [jose], with no options: the token is
    read, its signature is checked against the key, and only then is the
    expiry compared with the clock. *)
Definition jwtVerify (token : string) : M JWTPayload :=
  match JWS_parse token with
  | None => throw (JoseError "JWSInvalid")
  | Some jws =>
      match jose_mac (jws_header jws) (jws_payload jws) with
      | None => throw (JoseError "JOSENotSupported")
      | Some expected =>
          if negb (String.eqb (jws_signature jws) expected)
          then throw (JoseError "JWSSignatureVerificationFailed")
          else
            now <- Date_now ;;
            match payload_exp (jws_payload jws) with
            | Some exp =>
                if (exp <=? epoch now)%Z then throw (JoseError "JWTExpired")
                else ret (jws_payload jws)
            | None => ret (jws_payload jws)
            end
      end
  end.

(** [verifyJWT]: whatever [jwtVerify] throws is caught and replaced by one
    [Error] whose message quotes it. *)
Definition verifyJWT (token : string) : M JWTPayload :=
  try_catch (jwtVerify token)
    (fun error => throw (Error ("JWT verification failed: " +:+ Exception_toString error))).

(** ** lib/a2a-protocol.ts: the envelope *)

(** [A2AMessageBuilder.generateId]. *)
Definition generateId : M string :=
  now <- Date_now ;;
  r <- Math_random ;;
  ret ("msg-" +:+ Z_to_string now +:+ "-" +:+ slice (Number_toString36 r) 2 11).

(** [new A2AMessageBuilder()]: the id first, then the timestamp. *)
Definition A2AMessageBuilder : M A2AMessage :=
  id <- generateId ;;
  now <- Date_now ;;
  ret (mkA2AMessage id VUndefined VUndefined "agent" [] (Date_toISOString now)).

Definition addText (text : string) (m : A2AMessage) : A2AMessage :=
  mkA2AMessage (message_id m) (context_id m) (task_id m) (role m)
    (parts m ++ [TextPart text]) (timestamp m).

(** [addData]: [dataObj[key] = data] on a fresh object gives it the member
    [key].  (Under the one key "__proto__" the assignment sets the prototype
    of the object instead: a statement about every key leaves it out.) *)
Definition addData (key : string) (data : value) (m : A2AMessage) : A2AMessage :=
  mkA2AMessage (message_id m) (context_id m) (task_id m) (role m)
    (parts m ++ [DataPart [(key, data)]]) (timestamp m).

Definition setContextId (contextId : value) (m : A2AMessage) : A2AMessage :=
  mkA2AMessage (message_id m) contextId (task_id m) (role m) (parts m) (timestamp m).

Definition setTaskId (taskId : value) (m : A2AMessage) : A2AMessage :=
  mkA2AMessage (message_id m) (context_id m) taskId (role m) (parts m) (timestamp m).

Definition build (m : A2AMessage) : A2AMessage := m.

(** [extractDataFromMessage]: the loop over the parts returns at the first
    data part whose [data[key]] is truthy. *)
Fixpoint extractData (ps : list Part) (key : string) : value :=
  match ps with
  | [] => VNull
  | TextPart _ :: ps' => extractData ps' key
  | DataPart data :: ps' =>
      if ToBoolean (obj_get data key) then obj_get data key else extractData ps' key
  end.

Definition extractDataFromMessage (message : A2AMessage) (key : string) : value :=
  extractData (parts message) key.

(** [extractTextFromMessage]. *)
Definition extractTextFromMessage (message : A2AMessage) : string :=
  String.concat " "
    (omap (fun part => match part with
                       | TextPart text => Some text
                       | DataPart _ => None
                       end) (parts message)).

(** The JSON object an envelope is in a response body. *)
Definition Part_to_value (p : Part) : value :=
  match p with
  | TextPart text => VObj [("type", VStr "text"); ("text", VStr text)]
  | DataPart data => VObj [("type", VStr "data"); ("data", VObj data)]
  end.

Definition A2AMessage_to_value (m : A2AMessage) : value :=
  VObj [("message_id", VStr (message_id m));
        ("role", VStr (role m));
        ("parts", VArr (map Part_to_value (parts m)));
        ("timestamp", VStr (timestamp m));
        ("context_id", context_id m);
        ("task_id", task_id m)].

(** ** HTTP *)

Record Response : Type := mkResponse { status : Z; json : value }.

(** [xs.map(async f)] under [Promise.all]: each call runs up to its result
    before the next starts; the first rejection rejects the whole. *)
Fixpoint mapM {A B} (f : A -> M B) (xs : list A) : M (list B) :=
  match xs with
  | [] => ret []
  | x :: xs' => y <- f x ;; ys <- mapM f xs' ;; ret (y :: ys)
  end.

(** [v?.p]. *)
Definition optional_get (v : value) (p : string) : value :=
  match v with
  | VObj fs => obj_get fs p
  | _ => VUndefined
  end.

(** ** pages/api/agents/credentials-provider.ts *)

Definition USER_PAYMENT_METHODS : value :=
  VArr [ VObj [("id", VStr "pm-001"); ("alias", VStr "Primary Visa"); ("type", VStr "card");
               ("last4", VStr "4242"); ("brand", VStr "Visa")];
         VObj [("id", VStr "pm-002"); ("alias", VStr "Mastercard Rewards"); ("type", VStr "card");
               ("last4", VStr "5555"); ("brand", VStr "Mastercard")];
         VObj [("id", VStr "pm-003"); ("alias", VStr "Digital Wallet"); ("type", VStr "wallet")] ].

(** The body every handler ends a successful request with. *)
Definition completed_task (responseMessage : A2AMessage) : M Response :=
  now <- Date_now ;;
  ret (mkResponse 200
         (VObj [("task", VObj [("id", VStr ("task-" +:+ Z_to_string now));
                               ("status", VStr "completed");
                               ("result", A2AMessage_to_value responseMessage)])])).

Definition credentials_provider_handler (method : string) (a2aMessage : A2AMessage) : M Response :=
  if negb (String.eqb method "POST")
  then ret (mkResponse 405 (VObj [("error", VStr "Method not allowed")]))
  else
    try_catch
      (let shoppingAgentId := extractDataFromMessage a2aMessage "shopping_agent_id" in
       if negb (strict_eq_str shoppingAgentId "trusted_shopping_agent")
       then ret (mkResponse 401 (VObj [("error", VStr "Unauthorized shopping agent")]))
       else
         let text := extractTextFromMessage a2aMessage in
         let action := extractDataFromMessage a2aMessage "action" in
         responseMessage <-
           (if strict_eq_str action "get_payment_methods"
               || includes (toLowerCase text) "payment method"
            then
              b <- A2AMessageBuilder ;;
              ret (build
                     (addData "payment_methods" USER_PAYMENT_METHODS
                        (addText "Here are your available payment methods from your wallet."
                           (setContextId (context_id a2aMessage) b))))
            else if strict_eq_str action "initiate_payment"
            then
              let paymentMandate :=
                extractDataFromMessage a2aMessage "ap2.mandates.PaymentMandate" in
              if negb (ToBoolean paymentMandate)
              then throw (Error "Payment mandate required for payment initiation")
              else
                b <- A2AMessageBuilder ;;
                ret (build
                       (addData "payment_status" (VStr "ready")
                          (addText "Payment mandate received and verified."
                             (setContextId (context_id a2aMessage) b))))
            else
              b <- A2AMessageBuilder ;;
              ret (build
                     (addText "Unknown action requested."
                        (setContextId (context_id a2aMessage) b)))) ;;
         completed_task responseMessage)
      (fun error =>
         ret (mkResponse 500
                (VObj [("error", VStr "Failed to process credentials provider request");
                       ("details", VStr (exn_message error))]))).

(** ** pages/api/agents/merchant.ts *)

(** [findMatchingProducts]: without an API key, or when the call or the
    reading of its reply fails, the first three catalog entries.  The prompt
    is put together before the [try] block: the template literal converts
    [userIntent] to a string, and the error of that conversion leaves the
    function. *)
Definition findMatchingProducts (userIntent : value) : M (list VacationPackage) :=
  apiKey <- getenv_OPENROUTER_API_KEY ;;
  match apiKey with
  | None => ret (take 3 VACATION_PACKAGES)
  | Some key =>
      if String.eqb key EmptyString then ret (take 3 VACATION_PACKAGES)
      else
        _ <- lift (ToString_checked userIntent) ;;
        try_catch
          (selectedIds <- invoke_selection_model ;;
           let selectedPackages :=
             omap (fun id => List.find (fun pkg => String.eqb (pkg_id pkg) id) VACATION_PACKAGES)
                  selectedIds in
           ret (take 3 selectedPackages))
          (fun _ => ret (take 3 VACATION_PACKAGES))
  end.

(** The [cartContents] literal for one product, given the three strings it
    computes from the clock and the random generator. *)
Definition cartContents_of (product : VacationPackage) (id cart_expiry details_id : string)
  : value :=
  VObj
    [ ("id", VStr id);
      ("user_cart_confirmation_required", VBool true);
      ("merchant_name", VStr "Tropical Paradise Vacations");
      ("cart_expiry", VStr cart_expiry);
      ("image_url", match pkg_image_url product with
                    | Some url => VStr url
                    | None => VUndefined
                    end);
      ("payment_request", VObj
        [ ("method_data", VArr
            [ VObj [ ("supported_methods", VStr "https://www.example.com/card");
                     ("data", VObj [("supported_networks",
                                     VArr [VStr "visa"; VStr "mastercard"; VStr "amex"])]) ] ]);
          ("details", VObj
            [ ("id", VStr details_id);
              ("display_items", VArr
                [ VObj [ ("label", VStr (pkg_name product));
                         ("amount", VObj [ ("currency", VStr (pkg_currency product));
                                           ("value", VNum (pkg_price product * 0.85)%float) ]);
                         ("refund_period", VNum 30%float) ];
                  VObj [ ("label", VStr "Travel Insurance");
                         ("amount", VObj [ ("currency", VStr (pkg_currency product));
                                           ("value", VNum (pkg_price product * 0.05)%float) ]) ];
                  VObj [ ("label", VStr "Service Fee");
                         ("amount", VObj [ ("currency", VStr (pkg_currency product));
                                           ("value", VNum (pkg_price product * 0.10)%float) ]) ] ]);
              ("total", VObj
                [ ("label", VStr "Total Amount");
                  ("amount", VObj [ ("currency", VStr (pkg_currency product));
                                    ("value", VNum (pkg_price product)) ]);
                  ("refund_period", VNum 30%float) ]) ]);
          ("options", VObj [ ("request_payer_email", VBool true);
                             ("request_payer_name", VBool true);
                             ("request_shipping", VBool false) ]) ]) ].

(** The fields of the literal are evaluated in the order written, so the
    clock is read for [id], for [cart_expiry] and for the details' [id]. *)
Definition cartContents_for (product : VacationPackage) : M value :=
  now_id <- Date_now ;;
  r <- Math_random ;;
  now_expiry <- Date_now ;;
  now_details <- Date_now ;;
  ret (cartContents_of product
         ("cart-" +:+ Z_to_string now_id +:+ "-" +:+ slice (Number_toString36 r) 2 11)
         (Date_toISOString (now_expiry + 2 * 60 * 60 * 1000)%Z)
         ("payment-" +:+ Z_to_string now_details)).

(** One cart mandate: the contents and the merchant's signature over them. *)
Definition cartMandate_for (product : VacationPackage) : M value :=
  cartContents <- cartContents_for product ;;
  merchantAuthorization <- signCartMandate cartContents ;;
  ret (VObj [("contents", cartContents);
             ("merchant_authorization", VStr merchantAuthorization)]).

Definition merchant_handler (method : string) (a2aMessage : A2AMessage) : M Response :=
  if negb (String.eqb method "POST")
  then ret (mkResponse 405 (VObj [("error", VStr "Method not allowed")]))
  else
    try_catch
      (let shoppingAgentId := extractDataFromMessage a2aMessage "shopping_agent_id" in
       if negb (strict_eq_str shoppingAgentId "trusted_shopping_agent")
       then ret (mkResponse 401 (VObj [("error", VStr "Unauthorized shopping agent")]))
       else
         let intentMandate := extractDataFromMessage a2aMessage "ap2.mandates.IntentMandate" in
         matchingProducts <-
           findMatchingProducts
             (js_or (optional_get intentMandate "natural_language_description") (VStr EmptyString)) ;;
         cartMandates <- mapM cartMandate_for matchingProducts ;;
         b <- A2AMessageBuilder ;;
         let responseMessage :=
           build
             (addData "cart_mandates" (VArr cartMandates)
                (addText ("Found " +:+ nat_to_string (length cartMandates)
                          +:+ " vacation packages matching your request.")
                   (setContextId (context_id a2aMessage) b))) in
         completed_task responseMessage)
      (fun error =>
         ret (mkResponse 500
                (VObj [("error", VStr "Failed to process merchant request");
                       ("details", VStr (exn_message error))]))).

(** ** lib/ai-agent.ts *)

(** A LangChain message: what [_getType()] returns, and the content.  The
    constructors are those of a package that is not part of this program;
    given a string they make a message with that content, which is the case
    the statements below are about. *)
Record ChatMessage : Type := mkChatMessage { msg_type : string; msg_content : value }.

Definition SystemMessage (content : value) : ChatMessage := mkChatMessage "system" content.
Definition HumanMessage (content : value) : ChatMessage := mkChatMessage "human" content.
Definition AIMessage (content : value) : ChatMessage := mkChatMessage "ai" content.

Definition newline : string := String (ascii_of_nat 10) EmptyString.

Definition system_prompt : string :=
  "You are an AI vacation booking assistant using the Agent Payments Protocol (AP2).

Your role:
- Help users find their perfect vacation through conversation
- Ask clarifying questions about their preferences (budget, destination type, activities, dates)
- Describe our available packages in a helpful, conversational way
- Guide them through the AP2 payment flow

IMPORTANT: You can ONLY recommend destinations that exist in our catalog. Do NOT suggest or mention destinations we don't offer.

Available packages:
" +:+
  String.concat newline
    (map (fun pkg =>
            "- " +:+ pkg_name pkg +:+ ": " +:+ pkg_destination pkg +:+ " (" +:+ pkg_region pkg
            +:+ ", " +:+ String.concat ", " (pkg_activities pkg) +:+ ") - $"
            +:+ Number_toString (pkg_price pkg))
         VACATION_PACKAGES)
  +:+ "

When users ask about a region or activities, ONLY describe matching destinations from our catalog.
The Merchant Agent will select and present 1-3 matching packages based on the conversation.

Be friendly, helpful, and concise. Always prioritize user control and transparency.".

(** [new VacationBookingAgent(existingHistory)]: the conversation history
    the agent starts from. *)
Definition VacationBookingAgent (existingHistory : option (list ChatMessage))
  : M (list ChatMessage) :=
  apiKey <- getenv_OPENROUTER_API_KEY ;;
  match apiKey with
  | Some (String _ _) =>
      match existingHistory with
      | Some (m :: ms) => ret (m :: ms)
      | _ => ret [SystemMessage (VStr system_prompt)]
      end
  | _ =>
      throw (Error ("OPENROUTER_API_KEY is not set. Please add it to your .env.local file. "
                    +:+ "Get your API key from https://openrouter.ai/keys"))
  end.

(** [s.replace(/pat/g, "")] for a literal, non-empty [pat]. *)
Fixpoint remove_all_from (pat : string) (skip : nat) (s : string) : string :=
  match s with
  | EmptyString => EmptyString
  | String c s' =>
      match skip with
      | S k => remove_all_from pat k s'
      | O =>
          if String.prefix pat s then remove_all_from pat (String.length pat - 1) s'
          else String c (remove_all_from pat 0 s')
      end
  end.

Definition remove_all (pat s : string) : string := remove_all_from pat 0 s.

(** [s.trim()], on the white space of ASCII. *)
Definition is_white_space (c : ascii) : bool :=
  let n := nat_of_ascii c in (Nat.leb 9 n && Nat.leb n 13) || Nat.eqb n 32.

Fixpoint trimStart (s : string) : string :=
  match s with
  | String c s' => if is_white_space c then trimStart s' else s
  | EmptyString => EmptyString
  end.

Definition trim (s : string) : string :=
  String.rev (trimStart (String.rev (trimStart s))).

(** The last [n] elements: [xs.slice(-n)]. *)
Definition last_n {A} (n : nat) (xs : list A) : list A := drop (length xs - n) xs.

(** [extractIntentFromConversation]: the clock is read for [intent_expiry]. *)
Definition extractIntentFromConversation (history : list ChatMessage) : M value :=
  let recentMessages := last_n 5 history in
  let conversationText :=
    Array_join
      (map (fun m => if String.eqb (msg_type m) "human" then msg_content m else VStr EmptyString)
           recentMessages) " " in
  now <- Date_now ;;
  ret (VObj [("natural_language_description", VStr conversationText);
             ("user_cart_confirmation_required", VBool true);
             ("requires_refundability", VBool true);
             ("intent_expiry", VStr (Date_toISOString (now + 24 * 60 * 60 * 1000)%Z))]).

(** [chat]: the reply with the marker removed, and the history after the call. *)
Definition chat (history : list ChatMessage) (userMessage : value)
  : M (string * list ChatMessage) :=
  let history1 := history ++ [HumanMessage userMessage] in
  aiMessage <- invoke_chat_model ;;
  let history2 := history1 ++ [AIMessage (VStr aiMessage)] in
  _ <- (if includes aiMessage "CREATE_INTENT_MANDATE"
        then extractIntentFromConversation history2
        else ret VUndefined) ;;
  ret (trim (remove_all "CREATE_INTENT_MANDATE" aiMessage), history2).

Definition serializeHistory (history : list ChatMessage) : value :=
  VArr (map (fun msg => VObj [("type", VStr (msg_type msg)); ("content", msg_content msg)])
            history).

(** [deserializeHistory]: [serialized.map(...)], which needs an array, and
    throws at the first message of an unknown type. *)
Fixpoint deserializeMessages (msgs : list value) : Result (list ChatMessage) :=
  match msgs with
  | [] => Ok []
  | msg :: rest =>
      match get_prop msg "type" with
      | Throw e => Throw e
      | Ok ty =>
          if strict_eq_str ty "system" || strict_eq_str ty "human" || strict_eq_str ty "ai"
          then
            match deserializeMessages rest with
            | Throw e => Throw e
            | Ok ms => Ok (mkChatMessage (ToString ty) (optional_get msg "content") :: ms)
            end
          else
            match ToString_checked ty with
            | Throw e => Throw e
            | Ok text => Throw (Error ("Unknown message type: " +:+ text))
            end
      end
  end.

Definition deserializeHistory (serialized : value) : Result (list ChatMessage) :=
  match serialized with
  | VArr msgs => deserializeMessages msgs
  | _ => Throw (TypeError "serialized.map is not a function")
  end.

(** ** pages/api/shopping-agent.ts *)

(** The fields the handler destructures from [req.body]; an absent field
    is [undefined]. *)
Record ShoppingRequest : Type := mkShoppingRequest {
  req_message : value;
  req_action : value;
  req_contextId : value;
  req_data : value;
  req_conversationHistory : value;
}.

(** An envelope as the peer reads it from the request body. *)
Definition field_over_the_wire (v : value) : value :=
  match v with
  | VUndefined => VUndefined
  | _ => over_the_wire v
  end.

Definition Part_over_the_wire (p : Part) : Part :=
  match p with
  | TextPart text => TextPart text
  | DataPart data =>
      match over_the_wire (VObj data) with
      | VObj data' => DataPart data'
      | _ => DataPart data
      end
  end.

Definition A2AMessage_over_the_wire (m : A2AMessage) : A2AMessage :=
  mkA2AMessage (message_id m) (field_over_the_wire (context_id m))
    (field_over_the_wire (task_id m)) (role m) (map Part_over_the_wire (parts m)) (timestamp m).

(** The number of envelopes posted so far, and what the network returns for
    the [n]-th of them. *)
Definition posted : M nat := fun w => (Ok (length (sent w)), w).

Definition receive (n : nat) (route : string) (envelope : A2AMessage) : M value :=
  fun w => (network w n route envelope, w).

(** [await (await fetch(url, {method: "POST", body: JSON.stringify(envelope)})).json()]:
    the envelope leaves for the route, and the network decides what comes
    back.  (The URL is the route under [getBaseUrl(req)], which the handler
    takes from the Host header of its own request: who answers there is not
    in the handler's hands.) *)
Definition fetch_json (route : string) (envelope : A2AMessage) : M value :=
  n <- posted ;;
  _ <- post route envelope ;;
  receive n route envelope.

(** [parts.find((p) => p.type === "data" && p.data[key])]. *)
Fixpoint find_data_part (ps : list value) (key : string) : Result value :=
  match ps with
  | [] => Ok VUndefined
  | p :: ps' =>
      match get_prop p "type" with
      | Throw e => Throw e
      | Ok ty =>
          if strict_eq_str ty "data"
          then
            match get_prop p "data" with
            | Throw e => Throw e
            | Ok d =>
                match get_prop d key with
                | Throw e => Throw e
                | Ok x => if ToBoolean x then Ok p else find_data_part ps' key
                end
            end
          else find_data_part ps' key
      end
  end.

(** [result.parts.find(...)?.data[key] || []]. *)
Definition data_of_response (result : value) (key : string) : Result value :=
  match get_prop result "parts" with
  | Throw e => Throw e
  | Ok (VArr ps) =>
      match find_data_part ps key with
      | Throw e => Throw e
      | Ok VUndefined => Ok (VArr [])
      | Ok p =>
          match get_prop p "data" with
          | Throw e => Throw e
          | Ok d =>
              match get_prop d key with
              | Throw e => Throw e
              | Ok x => Ok (js_or x (VArr []))
              end
          end
      end
  | Ok VUndefined =>
      Throw (TypeError "Cannot read properties of undefined (reading 'find')")
  | Ok VNull =>
      Throw (TypeError "Cannot read properties of null (reading 'find')")
  | Ok _ => Throw (TypeError "merchantA2AResponse.parts.find is not a function")
  end.

(** [v.p1.p2...]. *)
Fixpoint get_path (v : value) (path : list string) : Result value :=
  match path with
  | [] => Ok v
  | p :: path' =>
      match get_prop v p with
      | Throw e => Throw e
      | Ok v' => get_path v' path'
      end
  end.

(** The branch [action === "create_payment_mandate"]. *)
Definition create_payment_mandate (data context_id : value) : M Response :=
  cartMandate <- lift (get_prop data "cartMandate") ;;
  paymentMethod <- lift (get_prop data "paymentMethod") ;;
  if negb (ToBoolean cartMandate) || negb (ToBoolean paymentMethod)
  then ret (mkResponse 400 (VObj [("error", VStr "Cart mandate and payment method required")]))
  else
    now <- Date_now ;;
    r <- Math_random ;;
    details_id <- lift (get_path cartMandate ["contents"; "payment_request"; "details"; "id"]) ;;
    details_total <-
      lift (get_path cartMandate ["contents"; "payment_request"; "details"; "total"]) ;;
    request_id <- lift (get_path cartMandate ["contents"; "payment_request"; "details"; "id"]) ;;
    method_name <- lift (get_prop paymentMethod "type") ;;
    payment_method_id <- lift (get_prop paymentMethod "id") ;;
    merchant_agent <- lift (get_path cartMandate ["contents"; "merchant_name"]) ;;
    stamp <- Date_now ;;
    let paymentMandateContents :=
      VObj [ ("payment_mandate_id",
              VStr ("pm-" +:+ Z_to_string now +:+ "-" +:+ slice (Number_toString36 r) 2 11));
             ("payment_details_id", details_id);
             ("payment_details_total", details_total);
             ("payment_response",
              VObj [ ("request_id", request_id);
                     ("method_name", method_name);
                     ("details", VObj [("payment_method_id", payment_method_id)]);
                     ("payer_email", VStr "user@example.com");
                     ("payer_name", VStr "Demo User") ]);
             ("merchant_agent", merchant_agent);
             ("timestamp", VStr (Date_toISOString stamp)) ] in
    userAuthorization <- signPaymentMandate paymentMandateContents ;;
    let paymentMandate :=
      VObj [ ("payment_mandate_contents", paymentMandateContents);
             ("user_authorization", VStr userAuthorization) ] in
    ret (mkResponse 200 (VObj [("payment_mandate", paymentMandate); ("context_id", context_id)])).

(** The agent the two chat branches start: from the history of the request
    when there is one. *)
Definition agent_of_request (conversationHistory : value) : M (list ChatMessage) :=
  history <- (if ToBoolean conversationHistory
              then h <- lift (deserializeHistory conversationHistory) ;; ret (Some h)
              else ret None) ;;
  VacationBookingAgent history.

(** The branch [action === "search_vacations"]. *)
Definition search_vacations (message conversationHistory context_id : value) : M Response :=
  agent <- agent_of_request conversationHistory ;;
  aiResult <- chat agent message ;;
  let agentHistory := snd aiResult in
  let conversationContext :=
    Array_join
      (map msg_content (filter (fun msg => msg_type msg = "human") agentHistory)) " | " in
  now <- Date_now ;;
  let intentMandate :=
    VObj [ ("user_cart_confirmation_required", VBool true);
           ("natural_language_description", js_or (VStr conversationContext) message);
           ("requires_refundability", VBool true);
           ("intent_expiry", VStr (Date_toISOString (now + 24 * 60 * 60 * 1000)%Z)) ] in
  b <- A2AMessageBuilder ;;
  let merchantMessage :=
    build
      (addData "shopping_agent_id" (VStr "trusted_shopping_agent")
         (addData "ap2.mandates.IntentMandate" intentMandate
            (addText "Find vacation packages matching user's intent"
               (setContextId context_id b)))) in
  merchantResult <- fetch_json "/api/agents/merchant" merchantMessage ;;
  merchantA2AResponse <- lift (get_path merchantResult ["task"; "result"]) ;;
  cartMandates <- lift (data_of_response merchantA2AResponse "cart_mandates") ;;
  ret (mkResponse 200
         (VObj [ ("response", VStr (fst aiResult));
                 ("intent_mandate", intentMandate);
                 ("cart_mandates", cartMandates);
                 ("context_id", context_id);
                 ("conversationHistory", serializeHistory agentHistory) ])).

(** The branch [action === "get_payment_methods"]. *)
Definition get_payment_methods (context_id : value) : M Response :=
  b <- A2AMessageBuilder ;;
  let cpMessage :=
    build
      (addData "shopping_agent_id" (VStr "trusted_shopping_agent")
         (addData "action" (VStr "get_payment_methods")
            (addText "Get available payment methods for user"
               (setContextId context_id b)))) in
  cpResult <- fetch_json "/api/agents/credentials-provider" cpMessage ;;
  cpA2AResponse <- lift (get_path cpResult ["task"; "result"]) ;;
  paymentMethods <- lift (data_of_response cpA2AResponse "payment_methods") ;;
  ret (mkResponse 200 (VObj [("payment_methods", paymentMethods); ("context_id", context_id)])).

(** The last branch: the chat model's reply alone. *)
Definition chat_only (message conversationHistory context_id : value) : M Response :=
  agent <- agent_of_request conversationHistory ;;
  result <- chat agent message ;;
  ret (mkResponse 200
         (VObj [ ("response", VStr (fst result));
                 ("context_id", context_id);
                 ("conversationHistory", serializeHistory (snd result)) ])).

(** [contextId || `ctx-${Date.now()}`]: the clock is read only when the
    request brings no (truthy) context id. *)
Definition assign_context_id (contextId : value) : M value :=
  if ToBoolean contextId then ret contextId
  else now <- Date_now ;; ret (VStr ("ctx-" +:+ Z_to_string now)).

Definition shopping_agent_handler (method : string) (body : ShoppingRequest) : M Response :=
  if negb (String.eqb method "POST")
  then ret (mkResponse 405 (VObj [("error", VStr "Method not allowed")]))
  else
    try_catch
      (apiKey <- getenv_OPENROUTER_API_KEY ;;
       match apiKey with
       | Some (String _ _) =>
           if negb (ToBoolean (req_message body)) && negb (ToBoolean (req_action body))
           then ret (mkResponse 400 (VObj [("error", VStr "Message or action is required")]))
           else
             context_id <- assign_context_id (req_contextId body) ;;
             if strict_eq_str (req_action body) "search_vacations"
             then search_vacations (req_message body) (req_conversationHistory body) context_id
             else if strict_eq_str (req_action body) "get_payment_methods"
             then get_payment_methods context_id
             else if strict_eq_str (req_action body) "create_payment_mandate"
             then create_payment_mandate (req_data body) context_id
             else chat_only (req_message body) (req_conversationHistory body) context_id
       | _ =>
           ret (mkResponse 500
                  (VObj [ ("error", VStr "OPENROUTER_API_KEY not configured. Please set up your .env.local file.");
                          ("details", VStr "Get your API key from https://openrouter.ai/keys") ]))
       end)
      (fun error =>
         ret (mkResponse 500
                (VObj [("error", VStr "Failed to process request");
                       ("details", VStr (exn_message error))]))).

(** ** lib/jwt-utils.ts: inspection without verification *)

(** [s.split(sep)] for a separator of one character: the pieces between its
    occurrences, empty pieces included; one piece when there is none. *)
Fixpoint String_split (sep : ascii) (s : string) : list string :=
  match s with
  | EmptyString => [EmptyString]
  | String c s' =>
      if Ascii.eqb c sep then EmptyString :: String_split sep s'
      else match String_split sep s' with
           | piece :: pieces => String c piece :: pieces
           | [] => [String c EmptyString]
           end
  end.

Section jwt_inspection.

(** [JSON.parse(Buffer.from(segment, "base64url").toString())]: the value a
    segment of a token decodes to, or the error of the parse. *)
Variable parse_segment : string -> Result value.

(** [decodeJWT]: the header is decoded before the payload; the third
    segment is not read. *)
Definition decodeJWT (token : string) : Result value :=
  let parts := String_split "." token in
  if negb (Nat.eqb (length parts) 3) then Throw (Error "Invalid JWT format")
  else
    match parse_segment (nth 0 parts EmptyString) with
    | Throw e => Throw e
    | Ok header =>
        match parse_segment (nth 1 parts EmptyString) with
        | Throw e => Throw e
        | Ok payload => Ok (VObj [("header", header); ("payload", payload)])
        end
    end.

End jwt_inspection.

(** ** pages/api/create-payment-intent.ts and pages/api/confirm-payment.ts *)

(** Both modules throw at load when STRIPE_SECRET_KEY is not set; the
    handlers below are those of a module that has loaded. *)

(** The Stripe API as the two handlers reach it through the SDK: what it
    answers to the n-th request (the object of the API, or the error the SDK
    throws), and the requests made so far, oldest first. *)
Record Stripe : Type := mkStripe {
  stripe_answers : nat -> string -> value -> Result value;
  stripe_requests : list (string * value);
}.

Definition stripe_request (operation : string) (argument : value) (stripe : Stripe)
  : Result value * Stripe :=
  (stripe_answers stripe (length (stripe_requests stripe)) operation argument,
   mkStripe (stripe_answers stripe) (stripe_requests stripe ++ [(operation, argument)])).

(** An integer of magnitude below 2^63 as a double. *)
Definition Z_to_float (z : Z) : float :=
  match z with
  | Z0 => 0%float
  | Zpos _ => PrimFloat.of_uint63 (Uint63.of_Z z)
  | Zneg p => PrimFloat.opp (PrimFloat.of_uint63 (Uint63.of_Z (Zpos p)))
  end.

(** [Math.round(x)]: a Number that is not finite, or is integral, is
    returned as it is; otherwise the integral Number closest to [x], the one
    toward +Infinity at a tie, a zero result keeping the sign of [x].  With
    [x = +-m * 2^e] and [e < 0], that integer is the floor of
    [(+-2m + 2^(-e)) / 2^(1-e)]: a shift to the right by [1-e] bits. *)
Definition Math_round (x : float) : float :=
  match Prim2SF x with
  | S754_finite sign m e =>
      if (0 <=? e)%Z then x
      else
        let q := Z.shiftr ((if sign then Zneg m else Zpos m) * 2 + 2 ^ (- e)) (1 - e) in
        if (q =? 0)%Z then (if sign then PrimFloat.neg_zero else PrimFloat.zero)
        else Z_to_float q
  | _ => x
  end.

Definition is_ascii (c : ascii) : bool := Nat.ltb (nat_of_ascii c) 128.

Fixpoint all_ascii (s : string) : bool :=
  match s with
  | EmptyString => true
  | String c s' => is_ascii c && all_ascii s'
  end.

Section engine.

(** [Number(s)] for a string: the engine's reading of a numeric literal. *)
Variable StringToNumber : string -> float.
(** [s.toLowerCase()] for a string with characters outside ASCII. *)
Variable toLowerCase_beyond_ascii : string -> string.

(** [ToNumber(v)], as [v * 100] and [v / 100] apply it. *)
Definition ToNumber (v : value) : Result float :=
  match v with
  | VUndefined => Ok PrimFloat.nan
  | VNull => Ok 0%float
  | VBool b => Ok (if b then 1%float else 0%float)
  | VNum x => Ok x
  | VStr s => Ok (StringToNumber s)
  | VArr _ =>
      match ToString_checked v with
      | Throw e => Throw e
      | Ok s => Ok (StringToNumber s)
      end
  | VObj fields => if own_toString fields then Throw not_primitive else Ok PrimFloat.nan
  end.

(** [currency.toLowerCase()]: only a string has the method. *)
Definition call_toLowerCase (name : string) (v : value) : Result string :=
  match v with
  | VStr s => Ok (if all_ascii s then toLowerCase s else toLowerCase_beyond_ascii s)
  | VUndefined =>
      Throw (TypeError ("Cannot read properties of undefined (reading 'toLowerCase')"))
  | VNull => Throw (TypeError ("Cannot read properties of null (reading 'toLowerCase')"))
  | _ => Throw (TypeError (name +:+ ".toLowerCase is not a function"))
  end.

(** [const { name, ... } = req.body]: [undefined] and [null] cannot be
    destructured; a member that is absent is [undefined]. *)
Definition destructure (body : value) (name : string) : Result value :=
  match body with
  | VUndefined =>
      Throw (TypeError ("Cannot destructure property '" +:+ name
                        +:+ "' of 'req.body' as it is undefined."))
  | VNull =>
      Throw (TypeError ("Cannot destructure property '" +:+ name
                        +:+ "' of 'req.body' as it is null."))
  | VObj fields => Ok (obj_get fields name)
  | _ => Ok VUndefined
  end.

(** The fields the handler destructures from [req.body]. *)
Record PaymentIntentRequest : Type := mkPaymentIntentRequest {
  req_amount : value;
  req_currency : value;
  req_packageName : value;
  req_cartId : value;
}.

Definition PaymentIntentRequest_of (body : value) : Result PaymentIntentRequest :=
  match destructure body "amount" with
  | Throw e => Throw e
  | Ok amount =>
      Ok (mkPaymentIntentRequest amount (optional_get body "currency")
            (optional_get body "packageName") (optional_get body "cartId"))
  end.

(** The argument of [stripe.paymentIntents.create]: its members are
    evaluated in the order written. *)
Definition payment_intent_params (body : PaymentIntentRequest) : Result value :=
  match ToNumber (req_amount body) with
  | Throw e => Throw e
  | Ok amount =>
      match call_toLowerCase "currency" (req_currency body) with
      | Throw e => Throw e
      | Ok currency =>
          match ToString_checked (js_or (req_packageName body) (VStr "Package")) with
          | Throw e => Throw e
          | Ok name =>
              Ok (VObj
                    [ ("amount", VNum (Math_round (amount * 100)%float));
                      ("currency", VStr currency);
                      ("automatic_payment_methods", VObj [("enabled", VBool true)]);
                      ("metadata",
                       VObj [ ("package_name",
                               js_or (req_packageName body) (VStr "Vacation Package"));
                              ("cart_id", js_or (req_cartId body) (VStr "unknown"));
                              ("ap2_transaction", VStr "true") ]);
                      ("description", VStr ("AP2 Vacation Booking: " +:+ name)) ])
          end
      end
  end.

Definition create_payment_intent_failed (error : Exception) : Response :=
  mkResponse 500 (VObj [ ("error", VStr "Failed to create payment intent");
                         ("details", VStr (exn_message error)) ]).

Definition create_payment_intent_handler (method : string) (body : value) (stripe : Stripe)
  : Response * Stripe :=
  if negb (String.eqb method "POST")
  then (mkResponse 405 (VObj [("error", VStr "Method not allowed")]), stripe)
  else
    match PaymentIntentRequest_of body with
    | Throw error => (create_payment_intent_failed error, stripe)
    | Ok request =>
        if negb (ToBoolean (req_amount request)) || negb (ToBoolean (req_currency request))
        then (mkResponse 400 (VObj [("error", VStr "Amount and currency are required")]),
              stripe)
        else
          match payment_intent_params request with
          | Throw error => (create_payment_intent_failed error, stripe)
          | Ok params =>
              match stripe_request "paymentIntents.create" params stripe with
              | (Throw error, stripe') => (create_payment_intent_failed error, stripe')
              | (Ok paymentIntent, stripe') =>
                  match get_prop paymentIntent "client_secret" with
                  | Throw error => (create_payment_intent_failed error, stripe')
                  | Ok clientSecret =>
                      match get_prop paymentIntent "id" with
                      | Throw error => (create_payment_intent_failed error, stripe')
                      | Ok id =>
                          (mkResponse 200 (VObj [ ("clientSecret", clientSecret);
                                                  ("paymentIntentId", id) ]), stripe')
                      end
                  end
              end
          end
    end.

Definition confirm_payment_failed (error : Exception) : Response :=
  mkResponse 500 (VObj [ ("error", VStr "Failed to confirm payment");
                         ("details", VStr (exn_message error)) ]).

(** pages/api/confirm-payment.ts. *)
Definition confirm_payment_handler (method : string) (body : value) (stripe : Stripe)
  : Response * Stripe :=
  if negb (String.eqb method "POST")
  then (mkResponse 405 (VObj [("error", VStr "Method not allowed")]), stripe)
  else
    match destructure body "paymentIntentId" with
    | Throw error => (confirm_payment_failed error, stripe)
    | Ok paymentIntentId =>
        if negb (ToBoolean paymentIntentId)
        then (mkResponse 400 (VObj [("error", VStr "Payment intent ID is required")]), stripe)
        else
          match stripe_request "paymentIntents.retrieve" paymentIntentId stripe with
          | (Throw error, stripe') => (confirm_payment_failed error, stripe')
          | (Ok paymentIntent, stripe') =>
              match get_prop paymentIntent "status" with
              | Throw error => (confirm_payment_failed error, stripe')
              | Ok intent_status =>
                  if strict_eq_str intent_status "succeeded"
                  then
                    match get_prop paymentIntent "amount" with
                    | Throw error => (confirm_payment_failed error, stripe')
                    | Ok cents =>
                        match ToNumber cents with
                        | Throw error => (confirm_payment_failed error, stripe')
                        | Ok amount =>
                            match get_prop paymentIntent "currency" with
                            | Throw error => (confirm_payment_failed error, stripe')
                            | Ok currency =>
                                (mkResponse 200
                                   (VObj [ ("success", VBool true);
                                           ("status", intent_status);
                                           ("amount", VNum (amount / 100)%float);
                                           ("currency", currency) ]), stripe')
                            end
                        end
                    end
                  else
                    (mkResponse 200
                       (VObj [ ("success", VBool false);
                               ("status", intent_status);
                               ("error", VStr "Payment not yet completed") ]), stripe')
              end
          end
    end.

End engine.

(** * Notions the statements use *)

Definition unauthorized : Response :=
  mkResponse 401 (VObj [("error", VStr "Unauthorized shopping agent")]).

Definition task_body (id : string) (result : A2AMessage) : value :=
  VObj [("task", VObj [("id", VStr id); ("status", VStr "completed");
                       ("result", A2AMessage_to_value result)])].

(** The lookup of a data part in the words of the specification, "first
    match wins": the value of the first data part that has the key, whatever
    that value is.  ([extractDataFromMessage] above is the lookup the code
    makes.) *)
Fixpoint spec_first_match (ps : list Part) (key : string) : option value :=
  match ps with
  | [] => None
  | TextPart _ :: ps' => spec_first_match ps' key
  | DataPart data :: ps' =>
      match assoc key data with
      | Some v => Some v
      | None => spec_first_match ps' key
      end
  end.

Definition falsy_count : A2AMessage :=
  mkA2AMessage "msg-1" VUndefined VUndefined "agent" [DataPart [("count", VNum 0%float)]] "t".
Definition falsy_then_truthy : A2AMessage :=
  mkA2AMessage "msg-2" VUndefined VUndefined "agent"
    [DataPart [("flag", VBool false)]; DataPart [("flag", VStr "later")]] "t".
Definition falsy_text : A2AMessage :=
  mkA2AMessage "msg-3" VUndefined VUndefined "agent" [DataPart [("note", VStr EmptyString)]] "t".

(** Every object, at any depth, binds each of its keys once. *)
Fixpoint unique_keys (v : value) : bool :=
  match v with
  | VArr items => forallb unique_keys items
  | VObj fields =>
      bool_decide (NoDup (map fst fields)) && forallb (fun kv => unique_keys (snd kv)) fields
  | _ => true
  end.

(** [same_up_to_key_order v1 v2]: the two values are the same tree, except
    that the fields of an object may come in another order, at any depth.
    The elements of an array keep their positions. *)
Inductive same_up_to_key_order : value -> value -> Prop :=
| same_value v : same_up_to_key_order v v
| same_array xs ys :
    Forall2 same_up_to_key_order xs ys ->
    same_up_to_key_order (VArr xs) (VArr ys)
| same_object fs gs hs :
    Permutation fs gs ->
    Forall2 (fun f h => fst f = fst h /\ same_up_to_key_order (snd f) (snd h)) gs hs ->
    same_up_to_key_order (VObj fs) (VObj hs).

(** The text [hashObject] digests for an object. *)
Definition canonicalJson (fs : list (string * value)) : string :=
  match JSON_stringify (VObj fs) (Array_sort (map fst fs)) with
  | Some text => text
  | None => EmptyString
  end.

(** [o.p1.p2...pn = x] on a tree of objects: the assignment a caller makes
    to tamper with a signed object. *)
Fixpoint set_field (fs : list (string * value)) (k : string) (x : value)
  : list (string * value) :=
  match fs with
  | [] => [(k, x)]
  | (k', v) :: fs' => if String.eqb k' k then (k', x) :: fs' else (k', v) :: set_field fs' k x
  end.

Fixpoint set_path (v : value) (path : list string) (x : value) : value :=
  match path, v with
  | [], _ => x
  | p :: path', VObj fs => VObj (set_field fs p (set_path (obj_get fs p) path' x))
  | _ :: _, _ => v
  end.

Definition total_amount_value : list string :=
  ["payment_request"; "details"; "total"; "amount"; "value"].

(** The property list [hashObject] passes for a cart: its six top-level keys. *)
Definition cart_property_list : list string :=
  ["cart_expiry"; "id"; "image_url"; "merchant_name"; "payment_request";
   "user_cart_confirmation_required"].

(** *** Decimal strings *)
Definition is_digit (c : ascii) : bool :=
  let n := nat_of_ascii c in Nat.leb 48 n && Nat.leb n 57.

Fixpoint all_digits (s : string) : bool :=
  match s with
  | EmptyString => true
  | String c s' => is_digit c && all_digits s'
  end.

(** *** The payment-mandate branch, step by step *)
(** The id the branch gives a mandate in a world: the next clock reading and
    the next draw. *)
Definition next_payment_mandate_id (w : World) : string :=
  "pm-" +:+ Z_to_string (clock w (clock_reads w)) +:+ "-"
  +:+ slice (Number_toString36 (random w (random_draws w))) 2 11.

(** The world a successful run of the branch leaves: four clock readings
    and one draw later. *)
Definition after_payment_mandate (w : World) : World :=
  mkWorld (clock w) (4 + clock_reads w) (random w) (S (random_draws w))
          (chat_model w) (selection_model w) (model_calls w) (OPENROUTER_API_KEY w) (sent w)
          (network w).

(** The world in which the branch signs the mandate: two clock readings (for
    the id and the timestamp) and one draw after its start. *)
Definition at_signing (w : World) : World :=
  mkWorld (clock w) (2 + clock_reads w) (random w) (S (random_draws w))
          (chat_model w) (selection_model w) (model_calls w) (OPENROUTER_API_KEY w) (sent w)
          (network w).

Definition payment_mandate_body (contents : value) (authorization : string) (context : value)
  : value :=
  VObj [ ("payment_mandate",
          VObj [ ("payment_mandate_contents", contents);
                 ("user_authorization", VStr authorization) ]);
         ("context_id", context) ].

(** *** Envelopes posted by a computation *)
(** [posts P m]: whatever [m] adds to the log of posted envelopes satisfies
    [P], and it removes nothing from the log. *)
Definition posts {A} (P : A2AMessage -> Prop) (m : M A) : Prop :=
  forall w, exists new, sent (snd (m w)) = sent w ++ new /\ Forall (fun e => P (snd e)) new.

(** [answers c m]: a response of status 200 that [m] returns carries the
    context id [c]. *)
Definition answers (c : value) (m : M Response) : Prop :=
  forall w resp w', m w = (Ok resp, w') -> status resp = 200%Z ->
                    get_prop (json resp) "context_id" = Ok c.

(** The context id a request is handled under: the caller's when it brings
    a (truthy) one, else one made from the clock. *)
Definition session_context_id (contextId : value) (w : World) : value :=
  if ToBoolean contextId then contextId
  else VStr ("ctx-" +:+ Z_to_string (clock w (clock_reads w))).

(** Under a context id, each branch posts envelopes with that id only and
    answers with it. *)
Definition dispatch (body : ShoppingRequest) (c : value) : M Response :=
  if strict_eq_str (req_action body) "search_vacations"
  then search_vacations (req_message body) (req_conversationHistory body) c
  else if strict_eq_str (req_action body) "get_payment_methods"
  then get_payment_methods c
  else if strict_eq_str (req_action body) "create_payment_mandate"
  then create_payment_mandate (req_data body) c
  else chat_only (req_message body) (req_conversationHistory body) c.

(** The handler on a POST: the two early answers, else the branch of the
    action under the session's context id, with a thrown error turned into
    the answer of status 500. *)
Definition request_failed (error : Exception) : Response :=
  mkResponse 500 (VObj [("error", VStr "Failed to process request");
                        ("details", VStr (exn_message error))]).

Definition mandate_total : list string := ["contents"; "payment_request"; "details"; "total"].
Definition mandate_details_id : list string := ["contents"; "payment_request"; "details"; "id"].

(** *** verifyJWT *)
(** The message [verifyJWT] gives the error it throws for an error of a
    class of [jose]. *)
Definition verification_failed (class : string) : Exception :=
  Error ("JWT verification failed: " +:+ Exception_toString (JoseError class)).

(** *** The line items of a cart *)
Definition as_number (r : Result value) : option float :=
  match r with
  | Ok (VNum x) => Some x
  | _ => None
  end.

(** The amounts of the display items of a cart, in their order. *)
Definition display_item_amounts (cart : value) : option (list float) :=
  match get_path cart ["payment_request"; "details"; "display_items"] with
  | Ok (VArr items) =>
      foldr (fun item rest =>
               match as_number (get_path item ["amount"; "value"]), rest with
               | Some x, Some xs => Some (x :: xs)
               | _, _ => None
               end) (Some []) items
  | _ => None
  end.

Definition display_item_labels (cart : value) : option (list value) :=
  match get_path cart ["payment_request"; "details"; "display_items"] with
  | Ok (VArr items) => Some (map (fun item => optional_get item "label") items)
  | _ => None
  end.

Definition total_value (cart : value) : option float :=
  as_number (get_path cart ["payment_request"; "details"; "total"; "amount"; "value"]).

(** [amounts.reduce((sum, x) => sum + x, 0)]. *)
Definition float_sum (amounts : list float) : float := fold_left PrimFloat.add amounts 0%float.

(** The display items of the cart add up to its total, as doubles. *)
Definition amounts_sum_to_total (cart : value) : bool :=
  match display_item_amounts cart, total_value cart with
  | Some amounts, Some total => PrimFloat.eqb (float_sum amounts) total
  | _, _ => false
  end.

(** The same, for the sum taken in some order of the three amounts. *)
Definition amounts_sum_to_total_in_some_order (cart : value) : bool :=
  match display_item_amounts cart, total_value cart with
  | Some [a; b; c], Some total =>
      PrimFloat.eqb ((a + b) + c)%float total
      || PrimFloat.eqb ((a + c) + b)%float total
      || PrimFloat.eqb ((b + c) + a)%float total
  | _, _ => false
  end.

Definition package_priced (price : float) : VacationPackage :=
  mkVacationPackage "vac-001" "Island Retreat" "Maldives" "Asia" ["diving"; "spa"]
    price "USD" None.

Definition cart_priced (price : float) : value :=
  cartContents_of (package_priced price) "cart-1762077600000-k3j2h1g0f"
    "2026-11-02T12:00:00.000Z" "payment-1762077600000".

(** A whole number of currency units as a double. *)
Definition whole_price (n : Z) : float := PrimFloat.of_uint63 (Uint63.of_Z n).

(** How far the sum of the display items is from the total: for a price [p],
    [items_gap p]. *)
Definition items_gap (p : float) : float :=
  PrimFloat.abs ((((0 + p * 0.85) + p * 0.05) + p * 0.10) - p)%float.

(** One unit in the last place of a positive double is at most this. *)
Definition ulp_bound (p : float) : float := (p * 0x1p-52)%float.

Definition whole_prices_checked : list Z := seqZ 1 10000.

Definition rounding_gap (cart : value) : option float :=
  match display_item_amounts cart, total_value cart with
  | Some amounts, Some total => Some (PrimFloat.abs (float_sum amounts - total))
  | _, _ => None
  end.

(** ** Example inputs *)

(** Two copies of one content object, the fields of the second written in
    another order at both levels. *)
Definition contents_written_one_way : value :=
  VObj [ ("id", VStr "cart-1");
         ("merchant_name", VStr "Tropical Paradise Vacations");
         ("payment_request", VObj [("id", VStr "payment-1"); ("merchant_name", VStr "inner")]) ].

Definition contents_written_another_way : value :=
  VObj [ ("payment_request", VObj [("merchant_name", VStr "inner"); ("id", VStr "payment-1")]);
         ("id", VStr "cart-1");
         ("merchant_name", VStr "Tropical Paradise Vacations") ].

Definition selected_cart_mandate : value :=
  VObj [ ("contents", cart_priced 4999%float);
         ("merchant_authorization", VStr "HS256/merchant-key-2024.claims.signature") ].

Definition primary_visa : value :=
  VObj [("id", VStr "pm-001"); ("alias", VStr "Primary Visa"); ("type", VStr "card")].

Definition confirm_payment_request : ShoppingRequest :=
  mkShoppingRequest VUndefined (VStr "create_payment_mandate") (VStr "ctx-1762077000000")
    (VObj [("cartMandate", selected_cart_mandate); ("paymentMethod", primary_visa)])
    VUndefined.

Definition search_request (contextId : value) : ShoppingRequest :=
  mkShoppingRequest (VStr "tropical beach vacation") (VStr "search_vacations") contextId
    VUndefined VUndefined.

(** An envelope with no caller identity, and one with another caller's. *)
Definition anonymous_envelope : A2AMessage :=
  mkA2AMessage "msg-1762077600000-a1b2c3d4e" (VStr "ctx-1") VUndefined "agent"
    [ TextPart "Get available payment methods for user";
      DataPart [("action", VStr "get_payment_methods")] ]
    "2026-11-02T10:00:00.000Z".

Definition impostor_envelope : A2AMessage :=
  mkA2AMessage "msg-1762077600000-a1b2c3d4e" (VStr "ctx-1") VUndefined "agent"
    [ TextPart "Get available payment methods for user";
      DataPart [("action", VStr "get_payment_methods")];
      DataPart [("shopping_agent_id", VStr "another_shopping_agent")] ]
    "2026-11-02T10:00:00.000Z".

(** An envelope whose first caller identity is the empty string, with the
    trusted one in a later part. *)
Definition empty_identity_envelope : A2AMessage :=
  mkA2AMessage "msg-1762077600000-a1b2c3d4e" (VStr "ctx-1") VUndefined "agent"
    [ DataPart [("shopping_agent_id", VStr EmptyString)];
      DataPart [("shopping_agent_id", VStr "trusted_shopping_agent")];
      TextPart "Get available payment methods for user";
      DataPart [("action", VStr "get_payment_methods")] ]
    "2026-11-02T10:00:00.000Z".

(** A payment initiation whose text mentions payment methods. *)
Definition initiate_payment_envelope : A2AMessage :=
  mkA2AMessage "msg-1762077600000-a1b2c3d4e" (VStr "ctx-1") VUndefined "agent"
    [ TextPart "Pay with the chosen Payment Method";
      DataPart [("action", VStr "initiate_payment")];
      DataPart [("ap2.mandates.PaymentMandate",
                 VObj [("payment_mandate_contents", VObj [("payment_mandate_id", VStr "pm-1")])])];
      DataPart [("shopping_agent_id", VStr "trusted_shopping_agent")] ]
    "2026-11-02T10:00:00.000Z".

(** The property names every object inherits from [Object.prototype]: under
    any other name, [o[k]] is the member of [o] itself, or [undefined]. *)
Definition Object_prototype_names : list string :=
  [ "constructor"; "__defineGetter__"; "__defineSetter__"; "hasOwnProperty";
    "__lookupGetter__"; "__lookupSetter__"; "isPrototypeOf"; "propertyIsEnumerable";
    "toString"; "valueOf"; "__proto__"; "toLocaleString" ].

(** The text a part contributes to [extractTextFromMessage]. *)
Definition text_of_part (part : Part) : option string :=
  match part with
  | TextPart text => Some text
  | DataPart _ => None
  end.

(** [mandate] is a cart mandate for [product]: contents of the merchant's
    shape for it, with a token whose claims carry the digest and the id of
    those contents. *)
Definition signed_cart_mandate (product : VacationPackage) (mandate : value) : Prop :=
  exists (id cart_expiry details_id : string) (jws : JWS) (claims : CartMandateJWTPayload),
    mandate = VObj [ ("contents", cartContents_of product id cart_expiry details_id);
                     ("merchant_authorization", VStr (JWS_compact jws)) ] /\
    jws_payload jws = CartPayload claims /\
    hashObject (cartContents_of product id cart_expiry details_id) = Ok (cart_hash claims) /\
    cart_id claims = VStr id.

(** The world after one call of a remote model. *)
Definition after_model_call (w : World) : World :=
  mkWorld (clock w) (clock_reads w) (random w) (random_draws w) (chat_model w)
          (selection_model w) (S (model_calls w)) (OPENROUTER_API_KEY w) (sent w) (network w).

(** Whether the environment holds a (non-empty) API key. *)
Definition api_key_set (w : World) : bool :=
  match OPENROUTER_API_KEY w with
  | Some (String _ _) => true
  | _ => false
  end.



(** The packages [findMatchingProducts] makes of the ids the model named:
    those found in the catalog, in the model's order, three at most. *)
Definition select_packages (selectedIds : list string) : list VacationPackage :=
  take 3 (omap (fun id => List.find (fun pkg => String.eqb (pkg_id pkg) id) VACATION_PACKAGES)
               selectedIds).

(** The envelope the orchestrator posts to ask for the payment methods, and
    the one the credentials provider answers with, built in a world. *)
Definition payment_methods_request (c : value) (w : World) : A2AMessage :=
  mkA2AMessage
    ("msg-" +:+ Z_to_string (clock w (clock_reads w)) +:+ "-"
     +:+ slice (Number_toString36 (random w (random_draws w))) 2 11)
    c VUndefined "agent"
    [ TextPart "Get available payment methods for user";
      DataPart [("action", VStr "get_payment_methods")];
      DataPart [("shopping_agent_id", VStr "trusted_shopping_agent")] ]
    (Date_toISOString (clock w (S (clock_reads w)))).

(** The world after [reads] more readings of the clock and [draws] more
    draws, with [posted] added to the log of envelopes. *)
Definition world_after (reads draws : nat) (posted : list (string * A2AMessage)) (w : World)
  : World :=
  mkWorld (clock w) (reads + clock_reads w) (random w) (draws + random_draws w)
          (chat_model w) (selection_model w) (model_calls w) (OPENROUTER_API_KEY w)
          (sent w ++ posted) (network w).

(** The [n]-th envelope posted, to [route], reaches [peer]: whatever the
    envelope, the network returns the JSON body of what [peer], handling the
    request in some world of its own, answers to the envelope as it reads it
    from the request body. *)
Definition served_by (peer : string -> A2AMessage -> M Response) (route : string)
    (n : nat) (w : World) : Prop :=
  forall envelope,
  exists (peer_world : World) (answer : Response) (peer_world' : World),
    peer "POST" (A2AMessage_over_the_wire envelope) peer_world = (Ok answer, peer_world') /\
    network w n route envelope = Ok (over_the_wire (json answer)).

(** The network of a deployment in which both routes are served by the
    handlers of this program, each request handled in [peer_world]. *)
Definition answer_of (run : Result Response * World) : Result value :=
  match fst run with
  | Ok response => Ok (over_the_wire (json response))
  | Throw e => Throw e
  end.

Definition peers_in (peer_world : World) : nat -> string -> A2AMessage -> Result value :=
  fun _ route envelope =>
    if String.eqb route "/api/agents/merchant"
    then answer_of (merchant_handler "POST" (A2AMessage_over_the_wire envelope) peer_world)
    else if String.eqb route "/api/agents/credentials-provider"
    then answer_of (credentials_provider_handler "POST" (A2AMessage_over_the_wire envelope)
                      peer_world)
    else Throw (TypeError "fetch failed").

Definition with_network (net : nat -> string -> A2AMessage -> Result value) (w : World)
  : World :=
  mkWorld (clock w) (clock_reads w) (random w) (random_draws w) (chat_model w)
          (selection_model w) (model_calls w) (OPENROUTER_API_KEY w) (sent w) net.

(** The world [w] of a deployment whose peers handle their requests in
    [peer_world]. *)
Definition deployed (peer_world w : World) : World := with_network (peers_in peer_world) w.

(** A message of one of the three kinds [deserializeHistory] knows, with a
    string as its content. *)
Definition plain_message (msg : ChatMessage) : Prop :=
  (msg_type msg = "system" \/ msg_type msg = "human" \/ msg_type msg = "ai")
  /\ exists text, msg_content msg = VStr text.

(** The top-level keys of the contents of a payment mandate. *)
Definition payment_mandate_keys : list string :=
  ["payment_mandate_id"; "payment_details_id"; "payment_details_total"; "payment_response";
   "merchant_agent"; "timestamp"].

(** The number of occurrences of a character in a string. *)
Fixpoint occurrences (c : ascii) (s : string) : nat :=
  match s with
  | EmptyString => 0
  | String c' s' => (if Ascii.eqb c' c then 1 else 0) + occurrences c s'
  end.

(** [f] holds of the [count] integers from [n] on. *)
Fixpoint all_from (f : Z -> bool) (n : Z) (count : nat) : bool :=
  match count with
  | O => true
  | S k => f n && all_from f (n + 1) k
  end.

(** An amount of [n] cents as the client sends it, and what the handler
    makes of it: a truthy number, which times 100 rounds to [n]. *)
Definition amount_of_cents (n : Z) : float := (Z_to_float n / 100)%float.

Definition cents_recovered (n : Z) : bool :=
  ToBoolean (VNum (amount_of_cents n))
  && PrimFloat.eqb (Math_round (amount_of_cents n * 100)%float) (Z_to_float n).

(** The same for an amount of [n] whole units of the currency. *)
Definition whole_amount_in_cents (n : Z) : bool :=
  ToBoolean (VNum (Z_to_float n))
  && PrimFloat.eqb (Math_round (Z_to_float n * 100)%float) (Z_to_float (100 * n)).

(** The body the checkout component posts to create a payment intent. *)
Definition payment_intent_body (amount currency packageName cartId : value) : value :=
  VObj [ ("amount", amount); ("currency", currency); ("packageName", packageName);
         ("cartId", cartId) ].

(** ** Further example inputs *)

(** A payment initiation of the trusted caller, and the same without the
    mandate; a request for something the credentials provider does not know. *)
Definition pay_envelope : A2AMessage :=
  mkA2AMessage "msg-1762077600000-a1b2c3d4e" (VStr "ctx-1") VUndefined "agent"
    [ TextPart "Initiate the payment";
      DataPart [("action", VStr "initiate_payment")];
      DataPart [("ap2.mandates.PaymentMandate", VStr "not a mandate at all")];
      DataPart [("shopping_agent_id", VStr "trusted_shopping_agent")] ]
    "2026-11-02T10:00:00.000Z".

Definition pay_envelope_without_mandate : A2AMessage :=
  mkA2AMessage "msg-1762077600000-a1b2c3d4e" (VStr "ctx-1") VUndefined "agent"
    [ TextPart "Initiate the payment";
      DataPart [("action", VStr "initiate_payment")];
      DataPart [("shopping_agent_id", VStr "trusted_shopping_agent")] ]
    "2026-11-02T10:00:00.000Z".

Definition refund_envelope : A2AMessage :=
  mkA2AMessage "msg-1762077600000-a1b2c3d4e" (VStr "ctx-1") VUndefined "agent"
    [ TextPart "Refund the last booking";
      DataPart [("action", VStr "refund")];
      DataPart [("shopping_agent_id", VStr "trusted_shopping_agent")] ]
    "2026-11-02T10:00:00.000Z".


(** A network on which every request is answered with the body of a
    rejection. *)
Definition rejecting : nat -> string -> A2AMessage -> Result value :=
  fun _ _ _ => Ok (VObj [("error", VStr "Unauthorized shopping agent")]).

(** Requests to the orchestrator. *)
Definition payment_methods_request_body : ShoppingRequest :=
  mkShoppingRequest VUndefined (VStr "get_payment_methods") (VStr "ctx-1762077000000")
    VUndefined VUndefined.

Definition earlier_conversation : list ChatMessage :=
  [ SystemMessage (VStr "You are a booking assistant.");
    HumanMessage (VStr "somewhere warm");
    AIMessage (VStr "How about the Maldives?") ].

Definition follow_up_request : ShoppingRequest :=
  mkShoppingRequest (VStr "what does it cost?") VUndefined (VStr "ctx-1762077000000")
    VUndefined (serializeHistory earlier_conversation).

Definition request_without_method : ShoppingRequest :=
  mkShoppingRequest VUndefined (VStr "create_payment_mandate") (VStr "ctx-1762077000000")
    (VObj [("cartMandate", selected_cart_mandate)]) VUndefined.

(** A Stripe that answers every request with one intent. *)
Definition example_stripe : Stripe :=
  mkStripe (fun _ _ _ => Ok (VObj [ ("id", VStr "pi_1"); ("client_secret", VStr "pi_1_secret");
                                    ("status", VStr "succeeded"); ("amount", VNum 499900%float);
                                    ("currency", VStr "usd") ])) [].

(** The contents of a payment mandate, as an example to sign. *)
Definition example_payment_mandate_contents : value :=
  VObj [ ("payment_mandate_id", VStr "pm-1762077600000-k3j2h1g0f");
         ("payment_details_id", VStr "payment-1762077600000");
         ("payment_details_total",
          VObj [ ("label", VStr "Total Amount");
                 ("amount", VObj [("currency", VStr "USD"); ("value", VNum 4999%float)]) ]);
         ("merchant_agent", VStr "Tropical Paradise Vacations");
         ("timestamp", VStr "2026-11-02T10:00:00.000Z") ].

(** * Properties *)

Lemma prefix_spec (t s : string) :
  String.prefix t s = true <-> exists post, s = t +:+ post.
Proof.
  revert s. induction t as [|c t IH]; intros s.
  - split; [intros _; exists s; reflexivity | intros _; destruct s; reflexivity].
  - destruct s as [|d s]; simpl.
    + split; [discriminate | intros [post H]; discriminate].
    + destruct (Ascii.ascii_dec c d) as [->|Hne].
      * rewrite IH. split; intros [post H]; exists post; [now rewrite H | now injection H].
      * split; [discriminate | intros [post H]; injection H; congruence].
Qed.

Lemma includes_spec (s t : string) :
  includes s t = true <-> exists pre post, s = pre +:+ t +:+ post.
Proof.
  induction s as [|c s IH].
  - change (includes EmptyString t) with (String.prefix t EmptyString || false).
    rewrite orb_false_r, prefix_spec. split.
    + intros [post H]. exists EmptyString, post. exact H.
    + intros [pre [post H]]. destruct pre; simpl in H; [eauto | discriminate].
  - change (includes (String c s) t) with (String.prefix t (String c s) || includes s t).
    rewrite orb_true_iff, prefix_spec, IH. split.
    + intros [[post H] | [pre [post H]]].
      * exists EmptyString, post. exact H.
      * exists (String c pre), post. simpl. now rewrite H.
    + intros [pre [post H]]. destruct pre as [|d pre]; simpl in H.
      * left. eauto.
      * right. injection H as _ H. eauto.
Qed.

Lemma strict_eq_str_true v lit : strict_eq_str v lit = true <-> v = VStr lit.
Proof.
  destruct v; simpl; try (split; [discriminate | intros H; discriminate]).
  rewrite String.eqb_eq. split; [intros ->; reflexivity | intros H; now injection H].
Qed.

Lemma strict_eq_str_false v lit : strict_eq_str v lit = false <-> v <> VStr lit.
Proof.
  rewrite <- strict_eq_str_true. destruct (strict_eq_str v lit); split; congruence.
Qed.

(** extractData *)
Lemma extractData_app ps qs key :
  extractData (ps ++ qs) key =
  if ToBoolean (extractData ps key) then extractData ps key else extractData qs key.
Proof.
  induction ps as [|[t|d] ps IH]; simpl; [reflexivity | exact IH |].
  destruct (ToBoolean (obj_get d key)) eqn:E; [now rewrite E | exact IH].
Qed.

Lemma extractData_no_such_part ps key :
  (forall data, In (DataPart data) ps -> assoc key data = None) ->
  extractData ps key = VNull.
Proof.
  induction ps as [|[t|d] ps IH]; simpl; intros H; [reflexivity | apply IH; eauto |].
  unfold obj_get. rewrite (H d) by now left. simpl. apply IH. eauto.
Qed.

Lemma extractData_none_equal ps key v :
  v <> VNull ->
  (forall data, In (DataPart data) ps -> obj_get data key <> v) ->
  extractData ps key <> v.
Proof.
  intros Hv. induction ps as [|[t|d] ps IH]; simpl; intros H.
  - congruence.
  - apply IH; eauto.
  - destruct (ToBoolean (obj_get d key)); [apply H; now left | apply IH; eauto].
Qed.

(** An envelope whose shopping_agent_id, as [extractDataFromMessage] finds
    it (null when no data part has a truthy one), is not the string
    "trusted_shopping_agent" is answered by the merchant handler and by the
    credentials provider handler alike with status 401 and the body
    { error: "Unauthorized shopping agent" }, whatever else the envelope
    holds.  The world is the same after as before: nothing is signed, no
    model is called, no id is drawn, so neither a cart mandate nor a payment
    method is produced. *)
Lemma lookup_not_trusted_is_rejected (message : A2AMessage) (w : World) :
  extractDataFromMessage message "shopping_agent_id" <> VStr "trusted_shopping_agent" ->
  merchant_handler "POST" message w = (Ok unauthorized, w) /\
  credentials_provider_handler "POST" message w = (Ok unauthorized, w).
Proof.
  intros H. apply strict_eq_str_false in H.
  unfold merchant_handler, credentials_provider_handler, try_catch, ret. simpl.
  rewrite H. simpl. split; reflexivity.
Qed.

(** What either handler answers an envelope that passes its identity check:
    200, or 500 when something throws on the way. *)
Lemma merchant_answers_trusted (message : A2AMessage) (w : World) :
  extractDataFromMessage message "shopping_agent_id" = VStr "trusted_shopping_agent" ->
  exists resp w',
    merchant_handler "POST" message w = (Ok resp, w') /\
    (status resp = 200 \/ status resp = 500)%Z.
Proof.
  intros H. unfold merchant_handler. change (negb (String.eqb "POST" "POST")) with false.
  cbv iota zeta. rewrite H. change (negb (strict_eq_str _ _)) with false. cbv iota.
  unfold try_catch, bind at 1 2.
  destruct (findMatchingProducts _ w) as [[products|e] w1]; [| eexists _, _; split; [reflexivity | now right]].
  destruct (mapM cartMandate_for products w1) as [[carts|e] w2];
    [| eexists _, _; split; [reflexivity | now right]].
  cbn. eexists _, _. split; [reflexivity | now left].
Qed.

Lemma credentials_provider_answers_trusted (message : A2AMessage) (w : World) :
  extractDataFromMessage message "shopping_agent_id" = VStr "trusted_shopping_agent" ->
  exists resp w',
    credentials_provider_handler "POST" message w = (Ok resp, w') /\
    (status resp = 200 \/ status resp = 500)%Z.
Proof.
  intros H. unfold credentials_provider_handler.
  change (negb (String.eqb "POST" "POST")) with false.
  cbv iota zeta. rewrite H. change (negb (strict_eq_str _ _)) with false. cbv iota.
  unfold try_catch, bind, ret, throw.
  destruct (strict_eq_str _ "get_payment_methods" || includes _ _);
    [| destruct (strict_eq_str _ "initiate_payment");
       [destruct (negb (ToBoolean _)) |]];
    cbn; eexists _, _; (split; [reflexivity | auto]).
Qed.

(** C4. The identity check does not reject every envelope whose caller
    identity is not the trusted constant.  Both handlers compare what
    [extractDataFromMessage] finds, and that lookup passes over a data part
    whose value is falsy.  So an envelope whose first data part with a
    shopping_agent_id holds a falsy one (the empty string, [0], [false],
    [null]), which is the identity of the envelope when the first match wins
    and is not the trusted constant, is not rejected when a later data part
    holds the trusted constant: neither the merchant nor the credentials
    provider answers 401; each goes on to serve the request and answers 200,
    or 500 if serving it fails. *)
Theorem C4_falsy_identity_is_passed_over
    (message : A2AMessage) (v : value) (rest : list Part) (w : World) :
  parts message = DataPart [("shopping_agent_id", v)]
                  :: DataPart [("shopping_agent_id", VStr "trusted_shopping_agent")] :: rest ->
  ToBoolean v = false ->
  spec_first_match (parts message) "shopping_agent_id" = Some v /\
  v <> VStr "trusted_shopping_agent" /\
  (exists resp w',
      merchant_handler "POST" message w = (Ok resp, w') /\
      (status resp = 200 \/ status resp = 500)%Z) /\
  (exists resp w',
      credentials_provider_handler "POST" message w = (Ok resp, w') /\
      (status resp = 200 \/ status resp = 500)%Z).
Proof.
  intros Hparts Hv.
  assert (Hid : extractDataFromMessage message "shopping_agent_id"
                = VStr "trusted_shopping_agent").
  { unfold extractDataFromMessage. rewrite Hparts. cbn [extractData].
    change (obj_get [("shopping_agent_id", v)] "shopping_agent_id") with v.
    rewrite Hv. reflexivity. }
  split; [rewrite Hparts; reflexivity |].
  split; [intros ->; discriminate Hv |].
  split; [now apply merchant_answers_trusted | now apply credentials_provider_answers_trusted].
Qed.

(** C10. The credentials provider looks at the text of an envelope before
    it compares the action with "initiate_payment": an envelope of the
    trusted caller whose action is "initiate_payment" and whose text parts,
    joined and lowercased, contain "payment method" is answered 200 with the
    list of payment methods, not with a payment initiation. *)
Theorem C10_text_dispatch_precedes_initiate_payment (message : A2AMessage) (w : World) :
  extractDataFromMessage message "shopping_agent_id" = VStr "trusted_shopping_agent" ->
  extractDataFromMessage message "action" = VStr "initiate_payment" ->
  (exists pre post,
      toLowerCase (extractTextFromMessage message) = pre +:+ "payment method" +:+ post) ->
  exists id reply w',
    credentials_provider_handler "POST" message w
      = (Ok (mkResponse 200 (task_body id reply)), w') /\
    parts reply = [ TextPart "Here are your available payment methods from your wallet.";
                    DataPart [("payment_methods", USER_PAYMENT_METHODS)] ] /\
    context_id reply = context_id message.
Proof.
  intros Hid Hact Htext. apply includes_spec in Htext.
  unfold credentials_provider_handler.
  rewrite Hid, Hact, Htext.
  cbn. eexists _, _, _. split; [reflexivity |]. split; reflexivity.
Qed.

(** C8. [extractDataFromMessage] takes a data part only if the value under
    the key is truthy, so a stored falsy value is not returned: for the only
    data part { count: 0 } and the key "count" the result is null, likewise
    for a note that is the empty string; and with { flag: false } followed by
    { flag: "later" } the result is the value of the second part, although
    the first part contains the key. *)
Theorem C8_falsy_value_is_not_returned :
  extractDataFromMessage falsy_count "count" = VNull /\
  extractDataFromMessage falsy_text "note" = VNull /\
  extractDataFromMessage falsy_then_truthy "flag" = VStr "later".
Proof. repeat split; reflexivity. Qed.

Lemma assoc_map {A B} (f : A -> B) k (fs : list (string * A)) :
  assoc k (map (fun kv => (fst kv, f (snd kv))) fs) = option_map f (assoc k fs).
Proof.
  induction fs as [|[k' v] fs IH]; simpl; [reflexivity |].
  destruct (String.eqb k' k); [reflexivity | exact IH].
Qed.

Lemma assoc_not_in {A} k (fs : list (string * A)) :
  ~ In k (map fst fs) -> assoc k fs = None.
Proof.
  induction fs as [|[k' v] fs IH]; simpl; [reflexivity |].
  intros H. destruct (String.eqb_spec k' k); [tauto | apply IH; tauto].
Qed.

Lemma assoc_Permutation {A} k (fs gs : list (string * A)) :
  NoDup (map fst fs) -> Permutation fs gs -> assoc k fs = assoc k gs.
Proof.
  intros Hnd Hp. induction Hp as [| [k' v] fs gs Hp IH | [k1 v1] [k2 v2] fs | fs gs hs Hp1 IH1 Hp2 IH2].
  - reflexivity.
  - simpl. apply NoDup_cons in Hnd as [_ Hnd].
    destruct (String.eqb k' k); [reflexivity | auto].
  - simpl in *. apply NoDup_cons in Hnd as [Hnot _].
    destruct (String.eqb_spec k1 k), (String.eqb_spec k2 k); try reflexivity.
    subst. exfalso. apply Hnot. constructor.
  - rewrite IH1 by assumption. apply IH2.
    assert (Hm : map fst fs ≡ₚ map fst gs) by now apply Permutation_map.
    now rewrite <- Hm.
Qed.

Lemma unique_keys_arr xs :
  unique_keys (VArr xs) = true -> Forall (fun x => unique_keys x = true) xs.
Proof. simpl. intros H. apply Forall_forall. intros x Hx. eapply forallb_forall in H; eauto. now apply list_elem_of_In. Qed.

Lemma unique_keys_obj fs :
  unique_keys (VObj fs) = true ->
  NoDup (map fst fs) /\ Forall (fun kv => unique_keys (snd kv) = true) fs.
Proof.
  simpl. intros H. apply andb_true_iff in H as [H1 H2]. split.
  - now apply bool_decide_eq_true in H1.
  - apply Forall_forall. intros x Hx. eapply forallb_forall in H2; eauto. now apply list_elem_of_In.
Qed.

Lemma omap_pointwise {A B} (f g : A -> option B) (l : list A) :
  (forall x, f x = g x) -> omap f l = omap g l.
Proof.
  intros H. induction l as [|x l IH]; [reflexivity |].
  change (omap f (x :: l)) with (match f x with Some y => y :: omap f l | None => omap f l end).
  change (omap g (x :: l)) with (match g x with Some y => y :: omap g l | None => omap g l end).
  now rewrite H, IH.
Qed.

(** The serializer does not see the order of an object's fields. *)
Lemma SerializeJSONProperty_key_order (K : list string) (v1 : value) :
  unique_keys v1 = true ->
  forall v2, same_up_to_key_order v1 v2 ->
  SerializeJSONProperty K v1 = SerializeJSONProperty K v2.
Proof.
  induction v1 as [ | | b | x | s | xs IH | fs IH ] using value_nested_ind;
    intros Hu v2 Hs; inversion Hs; subst; try reflexivity.
  - (* arrays *)
    apply unique_keys_arr in Hu. cbn [SerializeJSONProperty].
    match goal with H : Forall2 _ xs ?ys |- _ =>
      assert (Hmap : forall f : option string -> string,
                 map (fun x => f (SerializeJSONProperty K x)) xs
                 = map (fun x => f (SerializeJSONProperty K x)) ys);
      [ clear Hs; induction H as [|x y xs ys Hxy Hrest IHrest]; intros f; [reflexivity |] | ]
    end.
    + apply Forall_cons in IH as [IHx IHxs]. apply Forall_cons in Hu as [Hux Huxs].
      cbn [map]. rewrite (IHx Hux y Hxy). f_equal. now apply IHrest.
    + now rewrite (Hmap (fun o => match o with Some str => str | None => "null" end)).
  - (* objects *)
    apply unique_keys_obj in Hu as [Hnd Hu]. cbn [SerializeJSONProperty].
    match goal with |- Some (_ +:+ String.concat _ (omap ?f K) +:+ _) = Some (_ +:+ String.concat _ (omap ?g K) +:+ _) =>
      assert (Hfg : forall P, f P = g P); [| now rewrite (omap_pointwise f g K Hfg)] end.
    intros P. cbn beta. rewrite !assoc_map.
    match goal with H : Permutation fs ?gs |- _ =>
      rewrite (assoc_Permutation P fs gs Hnd H); rewrite H in IH, Hu; clear H Hnd Hs end.
    match goal with H : Forall2 _ _ hs |- _ =>
      induction H as [|[k a] [k' b] gs hs [Hk Hab] Hrest IHrest] end; [reflexivity |].
    apply Forall_cons in IH as [IHa IHgs]. apply Forall_cons in Hu as [Hua Hugs].
    simpl in Hk, Hab, IHa, Hua |- *. subst k'.
    destruct (String.eqb k P).
    + simpl. now rewrite (IHa Hua b Hab).
    + now apply IHrest.
Qed.

Lemma Array_sort_Permutation (ks1 ks2 : list string) :
  ks1 ≡ₚ ks2 -> Array_sort ks1 = Array_sort ks2.
Proof.
  intros Hp. unfold Array_sort.
  apply (Sorted_unique String.le).
  - apply Sorted_merge_sort. apply _.
  - apply Sorted_merge_sort. apply _.
  - rewrite !merge_sort_Permutation. exact Hp.
Qed.

Lemma Forall2_same_length xs ys :
  Forall2 same_up_to_key_order xs ys -> length xs = length ys.
Proof. induction 1; simpl; congruence. Qed.

Lemma Object_keys_key_order (v1 v2 : value) :
  same_up_to_key_order v1 v2 ->
  match Object_keys v1, Object_keys v2 with
  | Ok ks1, Ok ks2 => ks1 ≡ₚ ks2
  | Throw e1, Throw e2 => e1 = e2
  | _, _ => False
  end.
Proof.
  intros Hs. inversion Hs; subst.
  - destruct (Object_keys v2); reflexivity.
  - simpl. erewrite Forall2_same_length by eassumption. reflexivity.
  - simpl. match goal with H : Permutation fs ?gs |- _ =>
      transitivity (map fst gs); [now apply Permutation_map |]; clear H Hs end.
    match goal with H : Forall2 _ _ hs |- _ => induction H as [|? ? ? ? [Hk _] _ IH] end;
      [reflexivity |]. simpl. rewrite Hk. now apply Permutation_cons.
Qed.

(** C2. Two content objects that differ only in the order of their fields,
    at the top level or at any depth, have the same digest.  [hashObject]
    reads neither the clock nor any other state: it is a function of its
    argument, so every call on the same input returns the same digest. *)
Theorem C2_digest_ignores_key_order (v1 v2 : value) :
  unique_keys v1 = true ->
  same_up_to_key_order v1 v2 ->
  hashObject v1 = hashObject v2.
Proof.
  intros Hu Hs. unfold hashObject, JSON_stringify.
  pose proof (Object_keys_key_order v1 v2 Hs) as Hk.
  destruct (Object_keys v1) as [ks1|e1], (Object_keys v2) as [ks2|e2]; try contradiction.
  - rewrite (Array_sort_Permutation ks1 ks2 Hk).
    now rewrite (SerializeJSONProperty_key_order _ v1 Hu v2 Hs).
  - now subst.
Qed.

Lemma hashObject_VObj fs : hashObject (VObj fs) = Ok (sha256_hex (canonicalJson fs)).
Proof. reflexivity. Qed.

Lemma get_path_cons v p path :
  get_path v (p :: path) = match get_prop v p with Throw e => Throw e | Ok v' => get_path v' path end.
Proof. reflexivity. Qed.

(** An object none of whose keys is in the property list is serialized
    as the empty object. *)
Lemma SerializeJSONProperty_hidden (K : list string) (fs : list (string * value)) :
  (forall P, In P K -> assoc P fs = None) ->
  SerializeJSONProperty K (VObj fs) = Some "{}".
Proof.
  intros H. cbn [SerializeJSONProperty].
  assert (E : forall (g : value -> option string) (L : list string),
             (forall P, In P L -> assoc P fs = None) ->
             omap (fun P => match assoc P (map (fun kv => (fst kv, g (snd kv))) fs) with
                            | Some (Some str) => Some (QuoteJSONString P +:+ ":" +:+ str)
                            | _ => None
                            end) L = []).
  { intros g L HL. induction L as [|P L IH]; [reflexivity |].
    match goal with |- omap ?f _ = _ =>
      change (match f P with Some y => y :: omap f L | None => omap f L end = []) end.
    cbn beta. rewrite assoc_map, (HL P) by now left. cbn [option_map].
    apply IH. intros Q HQ. apply HL. now right. }
  rewrite (E _ K H). reflexivity.
Qed.

Lemma SerializeJSONProperty_VObj (K : list string) (fs : list (string * value)) :
  SerializeJSONProperty K (VObj fs) =
  Some ("{" +:+
        String.concat ","
          (omap (fun P => match assoc P (map (fun kv => (fst kv, SerializeJSONProperty K (snd kv))) fs) with
                          | Some (Some str) => Some (QuoteJSONString P +:+ ":" +:+ str)
                          | _ => None
                          end) K)
        +:+ "}").
Proof. reflexivity. Qed.

Lemma cart_property_list_eq :
  PropertyList
    (Array_sort ["id"; "user_cart_confirmation_required"; "merchant_name"; "cart_expiry";
                 "image_url"; "payment_request"]) = cart_property_list.
Proof. vm_compute. reflexivity. Qed.

Lemma In_cart_property_list P :
  In P cart_property_list ->
  P = "cart_expiry" \/ P = "id" \/ P = "image_url" \/ P = "merchant_name"
  \/ P = "payment_request" \/ P = "user_cart_confirmation_required".
Proof. simpl. intuition. Qed.

(** C1. The digest of a cart does not cover what is nested in
    payment_request.  [hashObject] gives the sorted top-level keys to
    JSON.stringify as its property list, and the property list selects the
    keys of every nested object as well; none of method_data, details and
    options is a top-level key, so payment_request is digested as the empty
    object.  Hence, for every cart the merchant builds, for every number
    [x]: the cart in which the value of the total amount is replaced by [x]
    after signing has exactly the digest that the signed token carries as
    cart_hash, and recomputing the digest does not detect the change. *)
Theorem C1_tampered_total_keeps_digest
    (product : VacationPackage) (id cart_expiry details_id : string) (x : float) (w : World) :
  let cart := cartContents_of product id cart_expiry details_id in
  let tampered := set_path cart total_amount_value (VNum x) in
  exists jws claims w',
    signCartMandate_jws cart w = (Ok jws, w') /\
    jws_payload jws = CartPayload claims /\
    get_path cart total_amount_value = Ok (VNum (pkg_price product)) /\
    get_path tampered total_amount_value = Ok (VNum x) /\
    hashObject tampered = Ok (cart_hash claims).
Proof.
  intros cart tampered.
  assert (Hsame : hashObject tampered = hashObject cart).
  { unfold hashObject, JSON_stringify, tampered, cart, cartContents_of.
    cbn [set_path set_field total_amount_value obj_get assoc String.eqb Ascii.eqb Bool.eqb
         Object_keys map fst].
    rewrite cart_property_list_eq.
    rewrite !(SerializeJSONProperty_VObj cart_property_list).
    cbn [map fst snd].
    rewrite !SerializeJSONProperty_hidden; [reflexivity | |];
      intros P HP; apply In_cart_property_list in HP;
      repeat (destruct HP as [-> | HP]); try subst P; reflexivity. }
  unfold signCartMandate_jws, bind, lift.
  rewrite Hsame.
  unfold cart at 1, cartContents_of at 1. rewrite hashObject_VObj.
  fold (cartContents_of product id cart_expiry details_id). fold cart.
  eexists _, _, _. split; [reflexivity |]. split; [reflexivity |].
  split; [reflexivity |]. split; reflexivity.
Qed.

Lemma string_of_uint_all_digits d : all_digits (NilEmpty.string_of_uint d) = true.
Proof. induction d; simpl; auto. Qed.

Lemma NilZero_string_of_uint_all_digits d : all_digits (NilZero.string_of_uint d) = true.
Proof. destruct d; try apply (string_of_uint_all_digits (_ _)); reflexivity. Qed.

Lemma NilZero_string_of_uint_nonempty d : NilZero.string_of_uint d <> EmptyString.
Proof. destruct d; discriminate. Qed.

(** A run of digits ends at the first dash. *)
Lemma digits_then_dash d1 d2 s1 s2 :
  all_digits d1 = true -> all_digits d2 = true ->
  d1 +:+ "-" +:+ s1 = d2 +:+ "-" +:+ s2 -> d1 = d2 /\ s1 = s2.
Proof.
  revert d2. induction d1 as [|c d1 IH]; intros [|c2 d2] H1 H2 H; simpl in *.
  - injection H as H. auto.
  - injection H as Hc H. subst c2. discriminate.
  - injection H as Hc H. subst c. discriminate.
  - injection H as Hc H. subst c2.
    apply andb_true_iff in H1 as [_ H1]. apply andb_true_iff in H2 as [_ H2].
    destruct (IH d2 H1 H2 H) as [-> ->]. auto.
Qed.

Lemma Z_to_string_inj a b : Z_to_string a = Z_to_string b -> a = b.
Proof.
  unfold Z_to_string. intros H. apply DecimalZ.to_int_inj.
  assert (Hn : forall z, Z.to_int z <> Decimal.Pos Decimal.Nil /\ Z.to_int z <> Decimal.Neg Decimal.Nil).
  { intros [|p|p]; simpl; split; try discriminate;
      intros E; injection E as E; now apply DecimalPos.Unsigned.to_uint_nonnil in E. }
  pose proof (NilZero.isi (Z.to_int a) (proj1 (Hn a)) (proj2 (Hn a))) as Ha.
  pose proof (NilZero.isi (Z.to_int b) (proj1 (Hn b)) (proj2 (Hn b))) as Hb.
  rewrite H in Ha. congruence.
Qed.

(** [prefix-<clock>-<suffix>] determines the clock reading and the suffix. *)
Lemma dashed_id_inj (n1 n2 : Z) (s1 s2 : string) :
  Z_to_string n1 +:+ "-" +:+ s1 = Z_to_string n2 +:+ "-" +:+ s2 -> n1 = n2 /\ s1 = s2.
Proof.
  intros H.
  assert (Hshape : forall z, exists d, all_digits d = true /\ d <> EmptyString /\
             (Z_to_string z = d \/ Z_to_string z = String "-" d)).
  { intros [|p|p]; unfold Z_to_string.
    - exists "0". repeat split; [discriminate | now left].
    - exists (NilZero.string_of_uint (Pos.to_uint p)).
      split; [apply NilZero_string_of_uint_all_digits |].
      split; [apply NilZero_string_of_uint_nonempty | now left].
    - exists (NilZero.string_of_uint (Pos.to_uint p)).
      split; [apply NilZero_string_of_uint_all_digits |].
      split; [apply NilZero_string_of_uint_nonempty | now right]. }
  destruct (Hshape n1) as (d1 & Hd1 & Hne1 & E1), (Hshape n2) as (d2 & Hd2 & Hne2 & E2).
  assert (Z_to_string n1 = Z_to_string n2 /\ s1 = s2) as [Hz Hs].
  { destruct E1 as [E1|E1], E2 as [E2|E2]; rewrite E1, E2 in *; simpl in H.
    - destruct (digits_then_dash _ _ _ _ Hd1 Hd2 H) as [-> ->]. auto.
    - destruct d1 as [|c d1]; [congruence |]. simpl in H. injection H as Hc _. subst c. discriminate.
    - destruct d2 as [|c d2]; [congruence |]. simpl in H. injection H as Hc _. subst c. discriminate.
    - injection H as H. destruct (digits_then_dash _ _ _ _ Hd1 Hd2 H) as [-> ->]. auto. }
  split; [now apply Z_to_string_inj | exact Hs].
Qed.

Ltac case_result :=
  match goal with
  | H : context [match ?r with Ok _ => _ | Throw _ => _ end] |- _ =>
      let E := fresh "E" in destruct r eqn:E; try discriminate H
  end.

(** What a successful run of the branch returns and how it leaves the world. *)
Lemma create_payment_mandate_200 (data context : value) (w w1 : World) (resp : Response) :
  create_payment_mandate data context w = (Ok resp, w1) ->
  status resp = 200%Z ->
  exists contents jws claims,
    json resp = payment_mandate_body contents (JWS_compact jws) context /\
    get_prop contents "payment_mandate_id" = Ok (VStr (next_payment_mandate_id w)) /\
    jws_payload jws = PaymentPayload claims /\
    payment_mandate_id claims = VStr (next_payment_mandate_id w) /\
    clock w1 = clock w /\ random w1 = random w /\
    clock_reads w1 = (4 + clock_reads w)%nat /\
    random_draws w1 = S (random_draws w).
Proof.
  unfold create_payment_mandate, bind, lift, ret.
  intros H Hs.
  destruct (get_prop data "cartMandate") as [cartMandate|] eqn:E1; [| discriminate].
  destruct (get_prop data "paymentMethod") as [paymentMethod|] eqn:E2; [| discriminate].
  destruct (negb (ToBoolean cartMandate) || negb (ToBoolean paymentMethod)).
  { injection H as <- _. discriminate. }
  unfold Date_now, Math_random in H. cbn [clock clock_reads random random_draws fst snd] in H.
  repeat case_result.
  unfold signPaymentMandate, signPaymentMandate_jws, bind, lift, ret, Date_now in H.
  rewrite hashObject_VObj in H.
  cbn -[canonicalJson Z_to_string Z.div Z.add Z.mul slice] in H.
  injection H as <- <-.
  eexists _, _, _. repeat split; reflexivity.
Qed.

(** The token of a successful run is the serialization of what
    [signPaymentMandate] signs for the contents, in the world the branch has
    reached by then. *)
Lemma create_payment_mandate_signs (data context : value) (w w1 : World) (resp : Response) :
  create_payment_mandate data context w = (Ok resp, w1) ->
  status resp = 200%Z ->
  exists contents jws claims,
    json resp = payment_mandate_body contents (JWS_compact jws) context /\
    get_prop contents "payment_mandate_id" = Ok (VStr (next_payment_mandate_id w)) /\
    jws_payload jws = PaymentPayload claims /\
    payment_mandate_id claims = VStr (next_payment_mandate_id w) /\
    fst (signPaymentMandate_jws contents (at_signing w)) = Ok jws.
Proof.
  unfold create_payment_mandate, bind, lift, ret.
  intros H Hs.
  destruct (get_prop data "cartMandate") as [cartMandate|] eqn:E1; [| discriminate].
  destruct (get_prop data "paymentMethod") as [paymentMethod|] eqn:E2; [| discriminate].
  destruct (negb (ToBoolean cartMandate) || negb (ToBoolean paymentMethod)).
  { injection H as <- _. discriminate. }
  unfold Date_now, Math_random in H. cbn [clock clock_reads random random_draws fst snd] in H.
  repeat case_result.
  unfold signPaymentMandate, bind, ret in H.
  match type of H with
  | context [signPaymentMandate_jws ?c ?u] =>
      change u with (at_signing w) in H;
      destruct (signPaymentMandate_jws c (at_signing w)) as [[jws|e] w'] eqn:Hsign;
      [| discriminate]
  end.
  injection H as <- <-.
  pose proof Hsign as Hrun.
  unfold signPaymentMandate_jws, bind, lift, ret, Date_now in Hsign.
  rewrite hashObject_VObj in Hsign.
  cbn -[canonicalJson Z_to_string Z.div Z.add Z.mul slice at_signing] in Hsign.
  injection Hsign as <- _.
  eexists _, _, _. split; [reflexivity |].
  split; [reflexivity |]. split; [reflexivity |]. split; [reflexivity |].
  rewrite Hrun. reflexivity.
Qed.

(** C6 (as amended). Two consecutive runs of the create_payment_mandate
    branch for the same request give mandates with different
    payment_mandate_id values, signed into different tokens, whenever the two
    runs read different clock values for the id or draw different random
    suffixes.  The two JWS that [signPaymentMandate] signs differ; and the
    user_authorization strings, their compact serializations, differ when
    the reader of tokens reads each of the two back as what was signed. *)
Theorem C6_retry_differs_when_clock_or_draw_differs
    (data context : value) (w w1 w2 : World) (resp1 resp2 : Response) :
  create_payment_mandate data context w = (Ok resp1, w1) ->
  create_payment_mandate data context w1 = (Ok resp2, w2) ->
  status resp1 = 200%Z -> status resp2 = 200%Z ->
  clock w (clock_reads w) <> clock w1 (clock_reads w1)
  \/ slice (Number_toString36 (random w (random_draws w))) 2 11
     <> slice (Number_toString36 (random w1 (random_draws w1))) 2 11 ->
  exists contents1 contents2 jws1 jws2 id1 id2,
    json resp1 = payment_mandate_body contents1 (JWS_compact jws1) context /\
    json resp2 = payment_mandate_body contents2 (JWS_compact jws2) context /\
    get_prop contents1 "payment_mandate_id" = Ok (VStr id1) /\
    get_prop contents2 "payment_mandate_id" = Ok (VStr id2) /\
    id1 <> id2 /\ jws1 <> jws2 /\
    fst (signPaymentMandate_jws contents1 (at_signing w)) = Ok jws1 /\
    fst (signPaymentMandate_jws contents2 (at_signing w1)) = Ok jws2 /\
    (JWS_parse (JWS_compact jws1) = Some jws1 ->
     JWS_parse (JWS_compact jws2) = Some jws2 ->
     JWS_compact jws1 <> JWS_compact jws2).
Proof.
  intros H1 H2 Hs1 Hs2 Hdiff.
  destruct (create_payment_mandate_signs _ _ _ _ _ H1 Hs1)
    as (c1 & j1 & q1 & Hj1 & Hid1 & Hp1 & Hq1 & Hsign1).
  destruct (create_payment_mandate_signs _ _ _ _ _ H2 Hs2)
    as (c2 & j2 & q2 & Hj2 & Hid2 & Hp2 & Hq2 & Hsign2).
  assert (Hne : next_payment_mandate_id w <> next_payment_mandate_id w1).
  { unfold next_payment_mandate_id. intros E.
    change ("pm-" +:+ ?x) with (String "p" (String "m" (String "-" x))) in E.
    injection E as E. apply dashed_id_inj in E as [Hc Hr]. tauto. }
  assert (Hjws : j1 <> j2).
  { intros ->. rewrite Hp1 in Hp2. injection Hp2 as ->. congruence. }
  exists c1, c2, j1, j2, (next_payment_mandate_id w), (next_payment_mandate_id w1).
  split; [exact Hj1 |]. split; [exact Hj2 |]. split; [exact Hid1 |]. split; [exact Hid2 |].
  split; [exact Hne |]. split; [exact Hjws |]. split; [exact Hsign1 |]. split; [exact Hsign2 |].
  intros Hr1 Hr2 E. rewrite E in Hr1. rewrite Hr1 in Hr2. injection Hr2 as Hr2. auto.
Qed.

Lemma posts_nothing {A} P (m : M A) :
  (forall w, sent (snd (m w)) = sent w) -> posts P m.
Proof. intros H w. exists []. rewrite app_nil_r. split; [apply H | constructor]. Qed.

Lemma posts_ret {A} P (a : A) : posts P (ret a).
Proof. now apply posts_nothing. Qed.

Lemma posts_throw {A} P e : posts P (@throw A e).
Proof. now apply posts_nothing. Qed.

Lemma posts_lift {A} P (r : Result A) : posts P (lift r).
Proof. now apply posts_nothing. Qed.

Lemma posts_Date_now P : posts P Date_now.
Proof. now apply posts_nothing. Qed.

Lemma posts_Math_random P : posts P Math_random.
Proof. now apply posts_nothing. Qed.

Lemma posts_getenv P : posts P getenv_OPENROUTER_API_KEY.
Proof. now apply posts_nothing. Qed.

Lemma posts_chat_model P : posts P invoke_chat_model.
Proof. now apply posts_nothing. Qed.

Lemma posts_selection_model P : posts P invoke_selection_model.
Proof. now apply posts_nothing. Qed.

Lemma posts_post P route envelope : P envelope -> posts P (post route envelope).
Proof. intros H w. exists [(route, envelope)]. split; [reflexivity | repeat constructor; exact H]. Qed.

Lemma posts_bind {A B} P (m : M A) (k : A -> M B) :
  posts P m -> (forall a, posts P (k a)) -> posts P (bind m k).
Proof.
  intros Hm Hk w. unfold bind. destruct (Hm w) as (new1 & E1 & F1).
  destruct (m w) as [[a|e] w1]; simpl in *.
  - destruct (Hk a w1) as (new2 & E2 & F2). exists (new1 ++ new2).
    rewrite E2, E1, app_assoc. split; [reflexivity | now apply Forall_app].
  - exists new1. auto.
Qed.

Lemma posts_try_catch {A} P (m : M A) (h : Exception -> M A) :
  posts P m -> (forall e, posts P (h e)) -> posts P (try_catch m h).
Proof.
  intros Hm Hh w. unfold try_catch. destruct (Hm w) as (new1 & E1 & F1).
  destruct (m w) as [[a|e] w1]; simpl in *.
  - exists new1. auto.
  - destruct (Hh e w1) as (new2 & E2 & F2). exists (new1 ++ new2).
    rewrite E2, E1, app_assoc. split; [reflexivity | now apply Forall_app].
Qed.

Lemma posts_mapM {A B} P (f : A -> M B) xs :
  (forall x, posts P (f x)) -> posts P (mapM f xs).
Proof.
  intros Hf. induction xs as [|x xs IH]; simpl.
  - apply posts_ret.
  - apply posts_bind; [apply Hf |]. intros y.
    apply posts_bind; [exact IH |]. intros ys. apply posts_ret.
Qed.

Lemma posts_fetch_json (P : A2AMessage -> Prop) route envelope :
  P envelope -> posts P (fetch_json route envelope).
Proof.
  intros HP. unfold fetch_json.
  apply posts_bind; [now apply posts_nothing |]. intros n.
  apply posts_bind; [now apply posts_post |]. intros _.
  now apply posts_nothing.
Qed.

(** One step of a proof of [posts], chosen by the shape of the computation. *)
Ltac posts_step :=
  lazymatch goal with
  | |- posts _ (ret _) => apply posts_ret
  | |- posts _ (throw _) => apply posts_throw
  | |- posts _ (lift _) => apply posts_lift
  | |- posts _ Date_now => apply posts_Date_now
  | |- posts _ Math_random => apply posts_Math_random
  | |- posts _ getenv_OPENROUTER_API_KEY => apply posts_getenv
  | |- posts _ invoke_chat_model => apply posts_chat_model
  | |- posts _ invoke_selection_model => apply posts_selection_model
  | |- posts _ (bind _ _) => apply posts_bind; [| intros ?]
  | |- posts _ (try_catch _ _) => apply posts_try_catch; [| intros ?]
  | |- posts _ (mapM _ _) => apply posts_mapM; intros ?
  | |- posts _ (if ?b then _ else _) => destruct b
  | |- posts _ (match ?x with _ => _ end) => destruct x
  end.

Lemma posts_A2AMessageBuilder P : posts P A2AMessageBuilder.
Proof. unfold A2AMessageBuilder, generateId. repeat posts_step. Qed.

Lemma posts_completed_task P m : posts P (completed_task m).
Proof. unfold completed_task. repeat posts_step. Qed.

Lemma posts_signCartMandate P c : posts P (signCartMandate c).
Proof. unfold signCartMandate, signCartMandate_jws. repeat posts_step. Qed.

Lemma posts_signPaymentMandate P c : posts P (signPaymentMandate c).
Proof. unfold signPaymentMandate, signPaymentMandate_jws. repeat posts_step. Qed.

(** Neither peer posts an envelope of its own. *)
Lemma posts_credentials_provider_handler P method message :
  posts P (credentials_provider_handler method message).
Proof.
  unfold credentials_provider_handler. cbv zeta.
  repeat first [ posts_step | apply posts_A2AMessageBuilder | apply posts_completed_task ].
Qed.

Lemma posts_merchant_handler P method message :
  posts P (merchant_handler method message).
Proof.
  unfold merchant_handler, findMatchingProducts, cartMandate_for, cartContents_for. cbv zeta.
  repeat first [ posts_step | apply posts_A2AMessageBuilder | apply posts_completed_task
               | apply posts_signCartMandate ].
Qed.

Lemma answers_bind {A} c (m : M A) (k : A -> M Response) :
  (forall a, answers c (k a)) -> answers c (bind m k).
Proof.
  intros Hk w resp w' H. unfold bind in H.
  destruct (m w) as [[a|e] w1]; [eauto using Hk | discriminate].
  eapply Hk; eassumption.
Qed.

Lemma answers_try_catch c (m : M Response) h :
  answers c m -> (forall e, answers c (h e)) -> answers c (try_catch m h).
Proof.
  intros Hm Hh w resp w' H. unfold try_catch in H.
  destruct (m w) as [[a|e] w1] eqn:E.
  - injection H as <- <-. eapply Hm; eassumption.
  - eapply Hh; eassumption.
Qed.

Lemma answers_ret c resp :
  (status resp = 200%Z -> get_prop (json resp) "context_id" = Ok c) -> answers c (ret resp).
Proof. intros H w r w' E. injection E as <- _. exact H. Qed.

Ltac answers_step :=
  lazymatch goal with
  | |- answers _ (ret _) =>
      apply answers_ret;
      first [ intros _; reflexivity | intros H; cbn [status] in H; discriminate H ]
  | |- answers _ (bind _ _) => apply answers_bind; intros ?
  | |- answers _ (try_catch _ _) => apply answers_try_catch; [| intros ?]
  | |- answers _ (if ?b then _ else _) => destruct b
  | |- answers _ (match ?x with _ => _ end) => destruct x
  end.

Lemma session_context_id_truthy contextId w :
  ToBoolean (session_context_id contextId w) = true.
Proof.
  unfold session_context_id. destruct (ToBoolean contextId) eqn:E; [exact E | reflexivity].
Qed.

Lemma branches_thread_context_id (body : ShoppingRequest) (c : value) :
  posts (fun envelope => context_id envelope = c) (dispatch body c) /\ answers c (dispatch body c).
Proof.
  unfold dispatch. split.
  - unfold search_vacations, get_payment_methods, create_payment_mandate, chat_only,
      agent_of_request, VacationBookingAgent, chat, extractIntentFromConversation.
    cbv zeta.
    repeat first
      [ posts_step
      | apply posts_A2AMessageBuilder | apply posts_signPaymentMandate
      | apply posts_fetch_json; reflexivity ].
  - unfold search_vacations, get_payment_methods, create_payment_mandate, chat_only.
    cbv zeta. repeat answers_step.
Qed.

Lemma shopping_agent_handler_POST (body : ShoppingRequest) (w : World) :
  shopping_agent_handler "POST" body w =
  match OPENROUTER_API_KEY w with
  | Some (String _ _) =>
      if negb (ToBoolean (req_message body)) && negb (ToBoolean (req_action body))
      then (Ok (mkResponse 400 (VObj [("error", VStr "Message or action is required")])), w)
      else
        let w0 := if ToBoolean (req_contextId body) then w else snd (Date_now w) in
        match dispatch body (session_context_id (req_contextId body) w) w0 with
        | (Ok resp, w1) => (Ok resp, w1)
        | (Throw error, w1) => (Ok (request_failed error), w1)
        end
  | _ =>
      (Ok (mkResponse 500
             (VObj [ ("error", VStr "OPENROUTER_API_KEY not configured. Please set up your .env.local file.");
                     ("details", VStr "Get your API key from https://openrouter.ai/keys") ])), w)
  end.
Proof.
  unfold shopping_agent_handler. change (negb (String.eqb "POST" "POST")) with false. cbv iota.
  unfold try_catch, bind at 1, getenv_OPENROUTER_API_KEY.
  destruct (OPENROUTER_API_KEY w) as [[|k0 key]|]; try reflexivity.
  destruct (negb (ToBoolean (req_message body)) && negb (ToBoolean (req_action body)));
    [reflexivity |].
  unfold bind, assign_context_id, session_context_id, dispatch.
  destruct (ToBoolean (req_contextId body)); reflexivity.
Qed.

(** The Orchestrator always answers, and threads one context id through
    the envelopes it posts and through its answer. *)
Lemma shopping_agent_threads_context_id (body : ShoppingRequest) (w : World) :
  exists resp w' new,
    shopping_agent_handler "POST" body w = (Ok resp, w') /\
    sent w' = sent w ++ new /\
    Forall (fun e => context_id (snd e) = session_context_id (req_contextId body) w) new /\
    (status resp = 200%Z ->
     get_prop (json resp) "context_id" = Ok (session_context_id (req_contextId body) w)).
Proof.
  rewrite shopping_agent_handler_POST.
  assert (Hnone : forall r : Response, status r <> 200%Z ->
    exists resp w' new, (Ok r, w) = (Ok resp, w') /\ sent w' = sent w ++ new /\
      Forall (fun e => context_id (snd e) = session_context_id (req_contextId body) w) new /\
      (status resp = 200%Z ->
       get_prop (json resp) "context_id" = Ok (session_context_id (req_contextId body) w))).
  { intros r Hr. exists r, w, []. rewrite app_nil_r. repeat split; [constructor | tauto]. }
  destruct (OPENROUTER_API_KEY w) as [[|k0 key]|]; try (apply Hnone; discriminate).
  destruct (negb (ToBoolean (req_message body)) && negb (ToBoolean (req_action body)));
    [apply Hnone; discriminate |].
  cbv zeta.
  set (c := session_context_id (req_contextId body) w).
  set (w0 := if ToBoolean (req_contextId body) then w else snd (Date_now w)).
  assert (Hw0 : sent w0 = sent w) by (unfold w0; destruct (ToBoolean (req_contextId body)); reflexivity).
  destruct (branches_thread_context_id body c) as [Hposts Hanswers].
  specialize (Hposts w0). specialize (Hanswers w0).
  destruct (dispatch body c w0) as [[resp|e] w1]; destruct Hposts as (new & E & F);
    cbn [snd] in E; rewrite Hw0 in E.
  - exists resp, w1, new. eauto.
  - exists (request_failed e), w1, new. repeat split; [exact E | exact F | discriminate].
Qed.

(** Both peers put the context id of the envelope they received on the
    envelope they answer with. *)
Lemma credentials_provider_echoes_context_id (message : A2AMessage) (w w' : World) resp :
  credentials_provider_handler "POST" message w = (Ok resp, w') ->
  status resp = 200%Z ->
  get_path (json resp) ["task"; "result"; "context_id"] = Ok (context_id message).
Proof.
  unfold credentials_provider_handler. change (negb (String.eqb "POST" "POST")) with false.
  cbv iota zeta. unfold try_catch, bind, ret, throw.
  destruct (negb (strict_eq_str _ _)); [intros H; injection H as <- _; discriminate |].
  destruct (strict_eq_str _ "get_payment_methods" || includes _ _);
    [| destruct (strict_eq_str _ "initiate_payment");
       [destruct (negb (ToBoolean _)) |]];
    cbn; intros H; injection H as <- _; try discriminate; reflexivity.
Qed.

Lemma merchant_echoes_context_id (message : A2AMessage) (w w' : World) resp :
  merchant_handler "POST" message w = (Ok resp, w') ->
  status resp = 200%Z ->
  get_path (json resp) ["task"; "result"; "context_id"] = Ok (context_id message).
Proof.
  unfold merchant_handler. change (negb (String.eqb "POST" "POST")) with false.
  cbv iota zeta. unfold try_catch, bind at 1 2.
  destruct (negb (strict_eq_str _ _)); [intros H; injection H as <- _; discriminate |].
  destruct (findMatchingProducts _ w) as [[products|e] w1];
    [| intros H; injection H as <- _; discriminate].
  destruct (mapM cartMandate_for products w1) as [[carts|e] w2];
    [| intros H; injection H as <- _; discriminate].
  cbn. intros H; injection H as <- _. reflexivity.
Qed.

Lemma get_path_app v l1 l2 :
  get_path v (l1 ++ l2) =
  match get_path v l1 with Throw e => Throw e | Ok v' => get_path v' l2 end.
Proof.
  revert v. induction l1 as [|p l1 IH]; intros v; [reflexivity |].
  cbn [app get_path]. destruct (get_prop v p); [apply IH | reflexivity].
Qed.

(** With a cart mandate whose contents hold payment details and a payment
    method, the branch signs a mandate that repeats the details' id and total. *)
Lemma create_payment_mandate_runs
    (data context cartMandate paymentMethod : value) (details : list (string * value))
    (w : World) :
  get_prop data "cartMandate" = Ok cartMandate ->
  get_prop data "paymentMethod" = Ok paymentMethod ->
  ToBoolean cartMandate = true ->
  ToBoolean paymentMethod = true ->
  get_path cartMandate ["contents"; "payment_request"; "details"] = Ok (VObj details) ->
  exists contents jws w',
    create_payment_mandate data context w
      = (Ok (mkResponse 200 (payment_mandate_body contents (JWS_compact jws) context)), w') /\
    get_prop contents "payment_details_total" = get_path cartMandate mandate_total /\
    get_prop contents "payment_details_id" = get_path cartMandate mandate_details_id.
Proof.
  intros Hcart Hmethod Hc Hm Hdetails.
  assert (Hid : get_path cartMandate mandate_details_id = Ok (obj_get details "id")).
  { change mandate_details_id with (["contents"; "payment_request"; "details"] ++ ["id"]).
    rewrite get_path_app, Hdetails. reflexivity. }
  assert (Htotal : get_path cartMandate mandate_total = Ok (obj_get details "total")).
  { change mandate_total with (["contents"; "payment_request"; "details"] ++ ["total"]).
    rewrite get_path_app, Hdetails. reflexivity. }
  assert (Hname : exists name, get_path cartMandate ["contents"; "merchant_name"] = Ok name).
  { destruct cartMandate as [ | | | | | |fs]; try discriminate Hdetails.
    cbn [get_path get_prop] in Hdetails |- *.
    destruct (obj_get fs "contents") as [ | | | | | |cs]; try discriminate Hdetails.
    cbn [get_path get_prop]. eauto. }
  destruct Hname as [name Hname].
  assert (Hpm : exists a b, get_prop paymentMethod "type" = Ok a /\ get_prop paymentMethod "id" = Ok b).
  { destruct paymentMethod; try discriminate Hm; cbn [get_prop]; eauto. }
  destruct Hpm as (ty & pid & Hty & Hpid).
  unfold create_payment_mandate, bind, lift, ret. cbv beta.
  rewrite Hcart. cbv beta iota. rewrite Hmethod. cbv beta iota.
  rewrite Hc, Hm. cbn [negb orb]. cbv beta iota.
  unfold Date_now, Math_random. cbv beta iota.
  fold mandate_details_id. fold mandate_total.
  rewrite Hid, Htotal. cbv beta iota. rewrite Hty. cbv beta iota. rewrite Hpid. cbv beta iota.
  rewrite Hname. cbv beta iota.
  unfold signPaymentMandate, signPaymentMandate_jws, bind, lift, ret, Date_now. cbv beta.
  rewrite hashObject_VObj. cbv beta iota.
  cbn [get_prop obj_get assoc String.eqb Ascii.eqb Bool.eqb].
  unfold SignJWT_sign, jose_mac. cbn [alg String.eqb Ascii.eqb Bool.eqb]. cbv beta iota.
  eexists _, _, _. split; [reflexivity |].
  cbn [get_prop obj_get assoc String.eqb Ascii.eqb Bool.eqb]. split; reflexivity.
Qed.

(** C3. A create_payment_mandate request that brings a payment method and
    a cart mandate with payment details is answered 200 with a payment
    mandate whose payment_details_total is the value found at
    contents.payment_request.details.total of the selected cart mandate and
    whose payment_details_id is the value found at
    contents.payment_request.details.id: both are read from the cart and
    stored as they are, nothing is computed from them. *)
Theorem C3_payment_mandate_copies_cart_total
    (body : ShoppingRequest) (w : World) (key : string)
    (cartMandate paymentMethod : value) (details : list (string * value)) :
  OPENROUTER_API_KEY w = Some key -> key <> EmptyString ->
  req_action body = VStr "create_payment_mandate" ->
  get_prop (req_data body) "cartMandate" = Ok cartMandate ->
  get_prop (req_data body) "paymentMethod" = Ok paymentMethod ->
  ToBoolean cartMandate = true ->
  ToBoolean paymentMethod = true ->
  get_path cartMandate ["contents"; "payment_request"; "details"] = Ok (VObj details) ->
  exists contents authorization context w',
    shopping_agent_handler "POST" body w
      = (Ok (mkResponse 200 (payment_mandate_body contents authorization context)), w') /\
    get_prop contents "payment_details_total" = get_path cartMandate mandate_total /\
    get_prop contents "payment_details_id" = get_path cartMandate mandate_details_id.
Proof.
  intros Hkey Hne Hact Hcart Hmethod Hc Hm Hdetails.
  rewrite shopping_agent_handler_POST, Hkey.
  destruct key as [|k0 key]; [congruence |].
  rewrite Hact. cbn [ToBoolean String.eqb negb]. rewrite andb_false_r. cbv zeta.
  set (c := session_context_id (req_contextId body) w).
  set (w0 := if ToBoolean (req_contextId body) then w else snd (Date_now w)).
  assert (Hd : dispatch body c = create_payment_mandate (req_data body) c).
  { unfold dispatch. rewrite Hact. reflexivity. }
  rewrite Hd.
  destruct (create_payment_mandate_runs _ c _ _ _ w0 Hcart Hmethod Hc Hm Hdetails)
    as (contents & jws & w' & Hrun & Ht & Hi).
  rewrite Hrun. eauto 10.
Qed.

(** C9. One context id runs through a session.  Every envelope the
    orchestrator posts while it handles a request, and its answer, carry the
    context id of the session: the one the caller sent if it is truthy,
    otherwise "ctx-" followed by the clock reading of the first request.
    The merchant and the credentials provider answer an envelope with an
    envelope of the same context id.  So when the caller sends the context
    id of the first answer back with the second request, the envelopes posted
    for both requests carry that one context id. *)
Theorem C9_context_id_is_threaded :
  (* the Orchestrator: every envelope it posts while handling a request, and
     its answer, carry the session's context id *)
  (forall (body : ShoppingRequest) (w : World),
      exists resp w' new,
        shopping_agent_handler "POST" body w = (Ok resp, w') /\
        sent w' = sent w ++ new /\
        Forall (fun e => context_id (snd e) = session_context_id (req_contextId body) w) new /\
        (status resp = 200%Z ->
         get_prop (json resp) "context_id" = Ok (session_context_id (req_contextId body) w))) /\
  (* which is the caller's own when the request brings one, else a fresh one *)
  (forall (contextId : value) (w : World),
      (ToBoolean contextId = true -> session_context_id contextId w = contextId) /\
      (ToBoolean contextId = false ->
       session_context_id contextId w = VStr ("ctx-" +:+ Z_to_string (clock w (clock_reads w))))) /\
  (* the peers echo the context id of the envelope they answer *)
  (forall (message : A2AMessage) (w w' : World) (resp : Response),
      merchant_handler "POST" message w = (Ok resp, w') -> status resp = 200%Z ->
      get_path (json resp) ["task"; "result"; "context_id"] = Ok (context_id message)) /\
  (forall (message : A2AMessage) (w w' : World) (resp : Response),
      credentials_provider_handler "POST" message w = (Ok resp, w') -> status resp = 200%Z ->
      get_path (json resp) ["task"; "result"; "context_id"] = Ok (context_id message)) /\
  (* two requests of one session: the caller sends back the context id of
     the first answer, and the envelopes of both requests carry it *)
  (forall (body1 body2 : ShoppingRequest) (w w1 w2 : World) (resp1 resp2 : Response)
          (c : value) (new1 new2 : list (string * A2AMessage)),
      shopping_agent_handler "POST" body1 w = (Ok resp1, w1) ->
      status resp1 = 200%Z ->
      get_prop (json resp1) "context_id" = Ok c ->
      req_contextId body2 = c ->
      shopping_agent_handler "POST" body2 w1 = (Ok resp2, w2) ->
      sent w1 = sent w ++ new1 ->
      sent w2 = sent w1 ++ new2 ->
      Forall (fun e => context_id (snd e) = c) (new1 ++ new2)).
Proof.
  split; [exact shopping_agent_threads_context_id |].
  split.
  { intros contextId w. unfold session_context_id. split; intros ->; reflexivity. }
  split; [exact merchant_echoes_context_id |].
  split; [exact credentials_provider_echoes_context_id |].
  intros body1 body2 w w1 w2 resp1 resp2 c new1 new2 H1 Hs1 Hc Hreq H2 Hn1 Hn2.
  destruct (shopping_agent_threads_context_id body1 w) as (r1 & v1 & n1 & E1 & S1 & F1 & A1).
  rewrite H1 in E1. injection E1 as <- <-.
  destruct (shopping_agent_threads_context_id body2 w1) as (r2 & v2 & n2 & E2 & S2 & F2 & A2).
  rewrite H2 in E2. injection E2 as <- <-.
  rewrite Hn1 in S1. apply app_inv_head in S1. subst n1.
  rewrite Hn2 in S2. apply app_inv_head in S2. subst n2.
  specialize (A1 Hs1). rewrite Hc in A1. injection A1 as A1.
  assert (Hc2 : session_context_id (req_contextId body2) w1 = c).
  { rewrite Hreq. unfold session_context_id.
    assert (Ht : ToBoolean c = true) by (rewrite A1; apply session_context_id_truthy).
    now rewrite Ht. }
  rewrite Hc2 in F2. rewrite <- A1 in F1.
  apply Forall_app. split; assumption.
Qed.

Lemma verifyJWT_throws_only_Error (token : string) (w : World) (e : Exception) :
  fst (verifyJWT token w) = Throw e -> exn_name e = "Error".
Proof.
  unfold verifyJWT, try_catch, throw.
  destruct (jwtVerify token w) as [[p|e'] w1]; cbn [fst]; [discriminate |].
  intros [= <-]. reflexivity.
Qed.

Lemma Exception_toString_JoseError_head (class : string) :
  class <> EmptyString ->
  exists rest, Exception_toString (JoseError class) = class +:+ rest.
Proof.
  intros Hne. unfold Exception_toString, JoseError. cbn [exn_name exn_message].
  destruct (String.eqb (jose_message class) EmptyString).
  - exists EmptyString. clear. induction class as [|a class IH]; [reflexivity |].
    change (String a class = String a (class +:+ EmptyString)). now rewrite <- IH.
  - destruct (String.eqb_spec class EmptyString); [contradiction |]. eauto.
Qed.

Lemma signature_and_expiry_messages_differ :
  exn_message (verification_failed "JWSSignatureVerificationFailed")
  <> exn_message (verification_failed "JWTExpired").
Proof.
  unfold verification_failed, Error. cbn [exn_message].
  destruct (Exception_toString_JoseError_head "JWSSignatureVerificationFailed") as [r1 ->];
    [discriminate |].
  destruct (Exception_toString_JoseError_head "JWTExpired") as [r2 ->]; [discriminate |].
  cbn. intros H. discriminate H.
Qed.

(** C5 (as amended). [verifyJWT] throws on a token whose signature is not
    the one its header and payload sign to, and it throws on a token with
    the right signature whose exp is not after the current time; the
    signature is checked first.  The two errors are of one and the same
    class, the generic Error into which [verifyJWT] wraps whatever the
    verification throws; they differ in their message only, which repeats
    the text of the jose error (JWSSignatureVerificationFailed in the one,
    JWTExpired in the other). *)
Theorem C5_verifyJWT_failures_differ_in_message_only
    (token : string) (jws : JWS) (expected : string) (w : World) :
  JWS_parse token = Some jws ->
  jose_mac (jws_header jws) (jws_payload jws) = Some expected ->
  (jws_signature jws <> expected ->
   verifyJWT token w = (Throw (verification_failed "JWSSignatureVerificationFailed"), w)) /\
  (forall exp,
      jws_signature jws = expected ->
      payload_exp (jws_payload jws) = Some exp ->
      (exp <= epoch (clock w (clock_reads w)))%Z ->
      verifyJWT token w = (Throw (verification_failed "JWTExpired"), snd (Date_now w))) /\
  exn_name (verification_failed "JWSSignatureVerificationFailed") = "Error" /\
  exn_name (verification_failed "JWTExpired") = "Error" /\
  exn_message (verification_failed "JWSSignatureVerificationFailed")
  <> exn_message (verification_failed "JWTExpired").
Proof.
  intros Hparse Hmac. split; [| split; [| split; [| split]]].
  - intros Hsig. unfold verifyJWT, try_catch, jwtVerify. rewrite Hparse, Hmac.
    apply String.eqb_neq in Hsig. rewrite Hsig. reflexivity.
  - intros exp Hsig Hexp Hle. unfold verifyJWT, try_catch, jwtVerify. rewrite Hparse, Hmac.
    rewrite Hsig, String.eqb_refl. cbn [negb]. unfold bind, Date_now. cbv beta iota.
    rewrite Hexp. apply Z.leb_le in Hle. rewrite Hle. reflexivity.
  - reflexivity.
  - reflexivity.
  - exact signature_and_expiry_messages_differ.
Qed.

Lemma whole_prices_within_one_ulp :
  forallb (fun n => PrimFloat.leb (items_gap (whole_price n)) (ulp_bound (whole_price n)))
          whole_prices_checked = true.
Proof. vm_compute. reflexivity. Qed.

Lemma whole_price_within_one_ulp (n : Z) :
  (1 <= n <= 10000)%Z ->
  PrimFloat.leb (items_gap (whole_price n)) (ulp_bound (whole_price n)) = true.
Proof.
  intros Hn.
  pose proof whole_prices_within_one_ulp as H.
  rewrite forallb_forall in H. apply H.
  unfold whole_prices_checked. apply list_elem_of_In, elem_of_seqZ. lia.
Qed.

(** C7 (as amended). For every catalog item the merchant builds a cart of
    this shape: the value of the total is the price of the item (so it is
    positive when the price is), and there are three display items, the
    package, "Travel Insurance" and "Service Fee", whose values are the
    double-precision products of the price with 0.85, 0.05 and 0.10.  The
    sum of the three need not be the total; for a whole price from 1 to
    10000 it is within one unit in the last place of it. *)
Theorem C7_cart_line_items (product : VacationPackage) (id cart_expiry details_id : string) :
  let cart := cartContents_of product id cart_expiry details_id in
  let price := pkg_price product in
  (forall w, exists id' expiry' details' w',
      cartContents_for product w = (Ok (cartContents_of product id' expiry' details'), w')) /\
  total_value cart = Some price /\
  display_item_labels cart
    = Some [VStr (pkg_name product); VStr "Travel Insurance"; VStr "Service Fee"] /\
  display_item_amounts cart = Some [price * 0.85; price * 0.05; price * 0.10]%float /\
  (PrimFloat.ltb 0 price = true ->
   exists total, total_value cart = Some total /\ PrimFloat.ltb 0 total = true) /\
  (forall n, (1 <= n <= 10000)%Z -> price = whole_price n ->
   exists gap, rounding_gap cart = Some gap /\ PrimFloat.leb gap (ulp_bound price) = true).
Proof.
  cbv zeta. split; [| split; [| split; [| split; [| split]]]].
  - intros w. eexists _, _, _, _. reflexivity.
  - reflexivity.
  - reflexivity.
  - reflexivity.
  - intros Hpos. exists (pkg_price product). split; [reflexivity | exact Hpos].
  - intros n Hn Hprice. exists (items_gap (pkg_price product)). split; [reflexivity |].
    rewrite Hprice. now apply whole_price_within_one_ulp.
Qed.


Lemma create_payment_mandate_world (data context : value) (w w1 : World) (resp : Response) :
  create_payment_mandate data context w = (Ok resp, w1) ->
  status resp = 200%Z ->
  w1 = after_payment_mandate w.
Proof.
  unfold create_payment_mandate, bind, lift, ret.
  intros H Hs.
  destruct (get_prop data "cartMandate") as [cartMandate|] eqn:E1; [| discriminate].
  destruct (get_prop data "paymentMethod") as [paymentMethod|] eqn:E2; [| discriminate].
  destruct (negb (ToBoolean cartMandate) || negb (ToBoolean paymentMethod)).
  { injection H as <- _. discriminate. }
  unfold Date_now, Math_random in H. cbn [clock clock_reads random random_draws fst snd] in H.
  repeat case_result.
  unfold signPaymentMandate, signPaymentMandate_jws, bind, lift, ret, Date_now in H.
  rewrite hashObject_VObj in H.
  cbn -[canonicalJson Z_to_string Z.div Z.add Z.mul slice] in H.
  injection H as _ <-. reflexivity.
Qed.

(** The answer of the branch is a function of the request, of the four
    clock readings it makes and of its one draw. *)
Lemma create_payment_mandate_reads (data context : value) (w w' : World) :
  (forall k, (k < 4)%nat -> clock w (k + clock_reads w) = clock w' (k + clock_reads w')) ->
  random w (random_draws w) = random w' (random_draws w') ->
  fst (create_payment_mandate data context w) = fst (create_payment_mandate data context w').
Proof.
  intros Hc Hr.
  pose proof (Hc 0%nat ltac:(lia)) as H0. pose proof (Hc 1%nat ltac:(lia)) as H1.
  pose proof (Hc 2%nat ltac:(lia)) as H2. pose proof (Hc 3%nat ltac:(lia)) as H3.
  cbn [Nat.add] in H0, H1, H2, H3.
  unfold create_payment_mandate, bind, lift, ret.
  destruct (get_prop data "cartMandate") as [cartMandate|]; [| reflexivity].
  destruct (get_prop data "paymentMethod") as [paymentMethod|]; [| reflexivity].
  destruct (negb (ToBoolean cartMandate) || negb (ToBoolean paymentMethod)); [reflexivity |].
  unfold Date_now, Math_random. cbn [clock clock_reads random random_draws fst snd].
  repeat match goal with
         | |- context [match ?r with Ok _ => _ | Throw _ => _ end] =>
             lazymatch r with
             | get_prop _ _ => destruct r
             | get_path _ _ => destruct r
             end
         end; try reflexivity.
  unfold signPaymentMandate, signPaymentMandate_jws, bind, lift, ret, Date_now.
  rewrite !hashObject_VObj.
  cbn -[canonicalJson Z_to_string Z.div Z.add Z.mul slice].
  rewrite H0, H1, H2, H3, Hr. reflexivity.
Qed.

(** In a world whose clock and generator stand still, the retry of a
    create_payment_mandate request is answered with the same mandate. *)
Lemma retry_repeats_mandate_in_still_world
    (body : ShoppingRequest) (w : World) (key : string)
    (cartMandate paymentMethod : value) (details : list (string * value)) :
  OPENROUTER_API_KEY w = Some key -> key <> EmptyString ->
  req_action body = VStr "create_payment_mandate" ->
  ToBoolean (req_contextId body) = true ->
  get_prop (req_data body) "cartMandate" = Ok cartMandate ->
  get_prop (req_data body) "paymentMethod" = Ok paymentMethod ->
  ToBoolean cartMandate = true ->
  ToBoolean paymentMethod = true ->
  get_path cartMandate ["contents"; "payment_request"; "details"] = Ok (VObj details) ->
  (forall n n', clock w n = clock w n') ->
  (forall n n', random w n = random w n') ->
  exists resp w1 w2,
    shopping_agent_handler "POST" body w = (Ok resp, w1) /\
    shopping_agent_handler "POST" body w1 = (Ok resp, w2) /\
    status resp = 200%Z /\
    get_path (json resp) ["payment_mandate"; "payment_mandate_contents"; "payment_mandate_id"]
      = Ok (VStr (next_payment_mandate_id w)).
Proof.
  intros Hkey Hne Hact Hctx Hcart Hmethod Hc Hm Hdetails Hclock Hrandom.
  destruct key as [|k0 key]; [congruence |].
  assert (Hd : forall c, dispatch body c = create_payment_mandate (req_data body) c).
  { intros c. unfold dispatch. rewrite Hact. reflexivity. }
  assert (Hhandler : forall v, OPENROUTER_API_KEY v = Some (String k0 key) ->
            shopping_agent_handler "POST" body v =
            match create_payment_mandate (req_data body) (req_contextId body) v with
            | (Ok resp, v1) => (Ok resp, v1)
            | (Throw error, v1) => (Ok (request_failed error), v1)
            end).
  { intros v Hv. rewrite shopping_agent_handler_POST, Hv, Hact.
    cbn [ToBoolean String.eqb negb]. rewrite andb_false_r. cbv zeta.
    unfold session_context_id. rewrite Hctx, Hd. reflexivity. }
  destruct (create_payment_mandate_runs _ (req_contextId body) _ _ _ w Hcart Hmethod Hc Hm Hdetails)
    as (contents & jws & w1 & Hrun1 & _ & _).
  pose proof (create_payment_mandate_world _ _ _ _ _ Hrun1 eq_refl) as Hw1.
  destruct (create_payment_mandate_200 _ _ _ _ _ Hrun1 eq_refl)
    as (contents' & jws' & claims & Hjson & Hid & _).
  cbn [json] in Hjson. injection Hjson as <- _.
  destruct (create_payment_mandate_runs _ (req_contextId body) _ _ _ w1 Hcart Hmethod Hc Hm Hdetails)
    as (contents2 & jws2 & w2 & Hrun2 & _ & _).
  assert (Hsame : fst (create_payment_mandate (req_data body) (req_contextId body) w)
                  = fst (create_payment_mandate (req_data body) (req_contextId body) w1)).
  { apply create_payment_mandate_reads; subst w1; cbn [after_payment_mandate clock clock_reads
      random random_draws]; [intros k _; apply Hclock | apply Hrandom]. }
  rewrite Hrun1, Hrun2 in Hsame. cbn [fst] in Hsame.
  eexists _, w1, w2.
  split; [rewrite (Hhandler w Hkey), Hrun1; reflexivity |].
  split.
  - rewrite (Hhandler w1) by (subst w1; exact Hkey). rewrite Hrun2, <- Hsame. reflexivity.
  - split; [reflexivity |]. cbn [json payment_mandate_body get_path get_prop obj_get assoc
      String.eqb Ascii.eqb Bool.eqb]. rewrite Hid. reflexivity.
Qed.

(** ** The envelope: readers and builder *)

Lemma extractData_first_truthy (ps : list Part) (key : string) :
  (extractData ps key = VNull /\
   forall data, In (DataPart data) ps -> ToBoolean (obj_get data key) = false)
  \/
  (exists before data after,
      ps = before ++ DataPart data :: after /\
      (forall d, In (DataPart d) before -> ToBoolean (obj_get d key) = false) /\
      ToBoolean (obj_get data key) = true /\
      extractData ps key = obj_get data key).
Proof.
  induction ps as [|[text|data] ps IH].
  - left. split; [reflexivity | intros data []].
  - destruct IH as [[E H] | (before & data & after & -> & Hb & Ht & E)].
    + left. split; [exact E |]. intros data [Hd | Hd]; [discriminate | auto].
    + right. exists (TextPart text :: before), data, after.
      split; [reflexivity |]. split; [| split; [exact Ht | exact E]].
      intros d [Hd | Hd]; [discriminate | auto].
  - cbn [extractData]. destruct (ToBoolean (obj_get data key)) eqn:Hdata.
    + right. exists [], data, ps. split; [reflexivity |].
      split; [intros d [] | split; [exact Hdata | reflexivity]].
    + destruct IH as [[E H] | (before & data' & after & -> & Hb & Ht & E)].
      * left. split; [exact E |]. intros d [Hd | Hd]; [| auto].
        injection Hd as <-. exact Hdata.
      * right. exists (DataPart data :: before), data', after.
        split; [reflexivity |]. split; [| split; [exact Ht | exact E]].
        intros d [Hd | Hd]; [| auto]. injection Hd as <-. exact Hdata.
Qed.

Lemma extractData_null_or_truthy (ps : list Part) (key : string) :
  extractData ps key = VNull \/ ToBoolean (extractData ps key) = true.
Proof.
  destruct (extractData_first_truthy ps key) as [[E _] | (before & data & after & _ & _ & Ht & E)].
  - now left.
  - right. now rewrite E.
Qed.

(** X1. For a key that is not the name of an inherited property,
    [extractDataFromMessage] returns the value that the first data part with
    a truthy value under the key holds there; it returns null exactly when
    no data part holds a truthy value under the key.  The result is therefore
    null or truthy, never [undefined], [0], [false] or the empty string. *)
Theorem extractDataFromMessage_first_truthy_part (message : A2AMessage) (key : string) :
  ~ In key Object_prototype_names ->
  ((extractDataFromMessage message key = VNull /\
    forall data, In (DataPart data) (parts message) -> ToBoolean (obj_get data key) = false)
   \/
   (exists before data after,
       parts message = before ++ DataPart data :: after /\
       (forall d, In (DataPart d) before -> ToBoolean (obj_get d key) = false) /\
       ToBoolean (obj_get data key) = true /\
       extractDataFromMessage message key = obj_get data key))
  /\ (extractDataFromMessage message key = VNull
      \/ ToBoolean (extractDataFromMessage message key) = true).
Proof.
  intros _. unfold extractDataFromMessage.
  pose proof (extractData_first_truthy (parts message) key) as H.
  split; [exact H | apply extractData_null_or_truthy].
Qed.

(** X2. What [addData] and [addText] do to a later lookup, for data added
    under a key other than "__proto__" and a lookup under a key that is not
    the name of an inherited property: an entry that an earlier part already
    gives for the key stays the answer (the first truthy match wins);
    otherwise a value added under that very key is read back if it is
    truthy, and the answer is null if it is falsy or was added under another
    key.  A text part changes no lookup. *)
Theorem extractDataFromMessage_after_addData
    (message : A2AMessage) (key key' : string) (data : value) (text : string) :
  key <> "__proto__" ->
  ~ In key' Object_prototype_names ->
  extractDataFromMessage (build (addData key data message)) key' =
    (if ToBoolean (extractDataFromMessage message key')
     then extractDataFromMessage message key'
     else if String.eqb key key' && ToBoolean data then data else VNull)
  /\ extractDataFromMessage (build (addText text message)) key'
     = extractDataFromMessage message key'.
Proof.
  intros _ _. unfold extractDataFromMessage, build, addData, addText. cbn [parts].
  rewrite !extractData_app. split.
  - destruct (ToBoolean (extractData (parts message) key')); [reflexivity |].
    cbn [extractData]. unfold obj_get. cbn [assoc].
    destruct (String.eqb key key'); cbn [andb ToBoolean]; [| reflexivity].
    destruct (ToBoolean data); reflexivity.
  - cbn [extractData].
    destruct (ToBoolean (extractData (parts message) key')) eqn:E; [reflexivity |].
    destruct (extractData_null_or_truthy (parts message) key') as [H | H]; congruence.
Qed.

Lemma string_append_assoc (a b c : string) : (a +:+ b) +:+ c = a +:+ (b +:+ c).
Proof.
  induction a as [|x a IH]; [reflexivity |].
  change (String x ((a +:+ b) +:+ c) = String x (a +:+ (b +:+ c))). now rewrite IH.
Qed.

Lemma concat_snoc (sep : string) (l : list string) (t : string) :
  String.concat sep (l ++ [t]) =
  match l with
  | [] => t
  | _ :: _ => String.concat sep l +:+ sep +:+ t
  end.
Proof.
  induction l as [|x l IH]; [reflexivity |].
  destruct l as [|y l].
  - reflexivity.
  - change (String.concat sep ((x :: y :: l) ++ [t]))
      with (x +:+ sep +:+ String.concat sep ((y :: l) ++ [t])).
    rewrite IH.
    change (String.concat sep (x :: y :: l)) with (x +:+ sep +:+ String.concat sep (y :: l)).
    rewrite !string_append_assoc. reflexivity.
Qed.

Lemma extractTextFromMessage_texts (message : A2AMessage) :
  extractTextFromMessage message = String.concat " " (omap text_of_part (parts message)).
Proof. reflexivity. Qed.

(** X3. [extractTextFromMessage] on what the builder makes: data parts do
    not show in the text; the first text added to an envelope without parts
    is the text; each further text is appended after one space. *)
Theorem extractTextFromMessage_after_addText
    (message : A2AMessage) (text text' key : string) (data : value) :
  extractTextFromMessage (build (addData key data message)) = extractTextFromMessage message
  /\ (parts message = [] -> extractTextFromMessage (build (addText text message)) = text)
  /\ extractTextFromMessage (build (addText text' (addText text message)))
     = extractTextFromMessage (build (addText text message)) +:+ " " +:+ text'.
Proof.
  rewrite !extractTextFromMessage_texts. unfold build, addData, addText. cbn [parts].
  rewrite !omap_app. cbn [omap list_omap text_of_part]. rewrite app_nil_r.
  split; [reflexivity |]. split.
  - intros ->. reflexivity.
  - rewrite (concat_snoc " " (omap text_of_part (parts message) ++ [text]) text').
    destruct (omap text_of_part (parts message)); reflexivity.
Qed.

Lemma A2AMessageBuilder_runs (w : World) :
  A2AMessageBuilder w =
  (Ok (mkA2AMessage
         ("msg-" +:+ Z_to_string (clock w (clock_reads w)) +:+ "-"
          +:+ slice (Number_toString36 (random w (random_draws w))) 2 11)
         VUndefined VUndefined "agent" []
         (Date_toISOString (clock w (S (clock_reads w))))),
   mkWorld (clock w) (S (S (clock_reads w))) (random w) (S (random_draws w))
           (chat_model w) (selection_model w) (model_calls w) (OPENROUTER_API_KEY w) (sent w)
           (network w)).
Proof. reflexivity. Qed.

(** X4. The ids of two envelopes built by [new A2AMessageBuilder()] are
    equal exactly when the two constructions read the same millisecond from
    the clock and drew numbers with the same nine base-36 digits: nothing
    else enters the id. *)
Theorem A2AMessageBuilder_ids_differ
    (w1 w2 w1' w2' : World) (m1 m2 : A2AMessage) :
  A2AMessageBuilder w1 = (Ok m1, w1') ->
  A2AMessageBuilder w2 = (Ok m2, w2') ->
  (message_id m1 = message_id m2 <->
   clock w1 (clock_reads w1) = clock w2 (clock_reads w2) /\
   slice (Number_toString36 (random w1 (random_draws w1))) 2 11
   = slice (Number_toString36 (random w2 (random_draws w2))) 2 11).
Proof.
  rewrite !A2AMessageBuilder_runs. intros [= <- _] [= <- _]. cbn [message_id].
  split.
  - intros E.
    change ("msg-" +:+ ?x) with (String "m" (String "s" (String "g" (String "-" x)))) in E.
    injection E as E. now apply dashed_id_inj in E.
  - intros [-> ->]. reflexivity.
Qed.

(** ** The digest *)


Lemma assoc_set_field_value (fs : list (string * value)) (k P : string) (x : value) :
  assoc P (set_field fs k x) = if String.eqb k P then Some x else assoc P fs.
Proof.
  induction fs as [|[k' v] fs IH]; cbn [set_field assoc].
  - reflexivity.
  - destruct (String.eqb_spec k' k) as [-> | Hk]; cbn [assoc].
    + destruct (String.eqb k P); reflexivity.
    + rewrite IH. destruct (String.eqb_spec k' P) as [-> | HP]; [| reflexivity].
      destruct (String.eqb_spec k P); [congruence | reflexivity].
Qed.

Lemma map_fst_set_field (fs : list (string * value)) (k : string) (x : value) :
  In k (map fst fs) -> map fst (set_field fs k x) = map fst fs.
Proof.
  induction fs as [|[k' v] fs IH]; cbn [set_field map fst]; [intros [] |].
  intros [-> | H].
  - now rewrite String.eqb_refl.
  - destruct (String.eqb_spec k' k) as [-> | Hk]; [reflexivity |].
    cbn [map fst]. now rewrite IH.
Qed.

Lemma In_PropertyList (P : string) (replacer : list string) :
  In P (PropertyList replacer) -> In P replacer.
Proof.
  induction replacer as [|k ks IH]; cbn [PropertyList]; [tauto |].
  intros [-> | H]; [now left |]. right. apply IH.
  apply list_elem_of_In in H. apply list_elem_of_filter in H as [_ H].
  now apply list_elem_of_In.
Qed.

Lemma In_Array_sort (P : string) (keys : list string) : In P (Array_sort keys) <-> In P keys.
Proof.
  unfold Array_sort. rewrite <- !list_elem_of_In. now rewrite merge_sort_Permutation.
Qed.

(** The value of one top-level member does not reach the digest when it is
    an object none of whose keys is a top-level key. *)
Lemma hashObject_hidden_member (fields : list (string * value)) (key : string)
    (inner : list (string * value)) :
  In key (map fst fields) ->
  (forall k, In k (map fst fields) -> assoc k inner = None) ->
  hashObject (VObj (set_field fields key (VObj inner)))
  = hashObject (VObj (set_field fields key (VObj []))).
Proof.
  intros Hkey Hinner. unfold hashObject, JSON_stringify. cbn [Object_keys].
  rewrite !map_fst_set_field by exact Hkey.
  set (K := PropertyList (Array_sort (map fst fields))).
  assert (HK : forall P, In P K -> In P (map fst fields)).
  { intros P HP. apply In_Array_sort. now apply In_PropertyList. }
  rewrite !SerializeJSONProperty_VObj.
  match goal with
  | |- context [omap ?f K] =>
      match goal with
      | |- context [Ok (sha256_hex ("{" +:+ String.concat "," (omap ?g K) +:+ "}"))] =>
          lazymatch f with
          | g => fail
          | _ => assert (Hfg : forall P, f P = g P)
          end
      end
  end.
  { intros P. cbn beta. rewrite !assoc_map, !assoc_set_field_value.
    destruct (String.eqb key P); [| reflexivity]. cbn [option_map].
    rewrite !SerializeJSONProperty_hidden; [reflexivity | intros; reflexivity |].
    intros Q HQ. apply Hinner. now apply HK. }
  now rewrite (omap_pointwise _ _ K Hfg).
Qed.

(** X5. [hashObject] does not see inside a member that is an object with
    none of the top-level keys among its own keys: putting any other such
    object in its place leaves the digest as it was. *)
Theorem hashObject_ignores_nested_members
    (fields : list (string * value)) (key : string) (inner1 inner2 : list (string * value)) :
  In key (map fst fields) ->
  (forall k, In k (map fst fields) -> assoc k inner1 = None /\ assoc k inner2 = None) ->
  hashObject (VObj (set_field fields key (VObj inner1)))
  = hashObject (VObj (set_field fields key (VObj inner2))).
Proof.
  intros Hkey H.
  rewrite (hashObject_hidden_member fields key inner1), (hashObject_hidden_member fields key inner2);
    [reflexivity | exact Hkey | | exact Hkey |]; intros k Hk; now apply H.
Qed.

Lemma hashObject_defined (v : value) :
  v <> VUndefined -> v <> VNull -> exists digest, hashObject v = Ok digest.
Proof.
  intros Hu Hn. unfold hashObject, JSON_stringify.
  destruct v as [ | | [|] | x | s | items | fields]; try congruence; cbn; eauto.
Qed.

(** X6. [hashObject] throws for [undefined] and for [null] (which have no
    keys to list) and for nothing else; [signCartMandate] and
    [signPaymentMandate] then throw that TypeError before they read the
    clock. *)
Theorem hashObject_throws_only_for_undefined_and_null (v : value) (w : World) :
  (v = VUndefined \/ v = VNull ->
   hashObject v = Throw (TypeError "Cannot convert undefined or null to object") /\
   signCartMandate v w
     = (Throw (TypeError "Cannot convert undefined or null to object"), w) /\
   signPaymentMandate v w
     = (Throw (TypeError "Cannot convert undefined or null to object"), w))
  /\ (v <> VUndefined -> v <> VNull -> exists digest, hashObject v = Ok digest).
Proof.
  split; [| apply hashObject_defined].
  intros [-> | ->]; repeat split; reflexivity.
Qed.

(** ** Signing and verification *)

Lemma signCartMandate_jws_runs (cartContents : value) (w w1 : World) (jws : JWS) :
  signCartMandate_jws cartContents w = (Ok jws, w1) ->
  exists digest id,
    hashObject cartContents = Ok digest /\
    get_prop cartContents "id" = Ok id /\
    jws_header jws = mkHeader "HS256" "merchant-key-2024" /\
    jws_payload jws =
      CartPayload
        (mkCartPayload "tropical-paradise-vacations" "merchant-agent-001" "payment-processor"
           id digest
           (Some (epoch (clock w (clock_reads w))))
           (Some (epoch (clock w (S (clock_reads w))) + 15 * 60)%Z)
           (Some ("jwt-" +:+ ToString id))) /\
    jose_mac (jws_header jws) (jws_payload jws) = Some (jws_signature jws) /\
    w1 = snd (Date_now (snd (Date_now w))).
Proof.
  unfold signCartMandate_jws, bind, lift. intros H.
  destruct (hashObject cartContents) as [digest|] eqn:Hd; [| discriminate].
  destruct (get_prop cartContents "id") as [id|] eqn:Hid; [| discriminate].
  unfold Date_now, SignJWT_sign, jose_mac in H.
  cbn [clock clock_reads alg String.eqb Ascii.eqb Bool.eqb] in H.
  injection H as <- <-. exists digest, id.
  repeat split.
Qed.

Lemma signPaymentMandate_jws_runs (contents : value) (w w1 : World) (jws : JWS) :
  signPaymentMandate_jws contents w = (Ok jws, w1) ->
  exists digest id,
    hashObject contents = Ok digest /\
    get_prop contents "payment_mandate_id" = Ok id /\
    jws_header jws = mkHeader "HS256" "user-key-2024" /\
    jws_payload jws =
      PaymentPayload
        (mkPaymentPayload "did:example:user123" "user-credential" "merchant"
           id digest [digest]
           (Some (epoch (clock w (clock_reads w))))
           (Some (epoch (clock w (S (clock_reads w))) + 60 * 60)%Z)
           (Some ("user-sig-" +:+ ToString id))) /\
    jose_mac (jws_header jws) (jws_payload jws) = Some (jws_signature jws) /\
    w1 = snd (Date_now (snd (Date_now w))).
Proof.
  unfold signPaymentMandate_jws, bind, lift. intros H.
  destruct (hashObject contents) as [digest|] eqn:Hd; [| discriminate].
  destruct (get_prop contents "payment_mandate_id") as [id|] eqn:Hid; [| discriminate].
  unfold Date_now, SignJWT_sign, jose_mac in H.
  cbn [clock clock_reads alg String.eqb Ascii.eqb Bool.eqb] in H.
  injection H as <- <-. exists digest, id.
  repeat split.
Qed.

(** [verifyJWT] on a token that reads as a JWS with the key's signature. *)
Lemma verifyJWT_well_signed (token : string) (jws : JWS) (v : World) :
  JWS_parse token = Some jws ->
  jose_mac (jws_header jws) (jws_payload jws) = Some (jws_signature jws) ->
  verifyJWT token v =
  match payload_exp (jws_payload jws) with
  | Some exp =>
      if (exp <=? epoch (clock v (clock_reads v)))%Z
      then (Throw (verification_failed "JWTExpired"), snd (Date_now v))
      else (Ok (jws_payload jws), snd (Date_now v))
  | None => (Ok (jws_payload jws), snd (Date_now v))
  end.
Proof.
  intros Hparse Hmac. unfold verifyJWT, try_catch, jwtVerify.
  rewrite Hparse, Hmac, String.eqb_refl. cbn [negb]. unfold bind, Date_now. cbv beta iota.
  destruct (payload_exp (jws_payload jws)) as [exp|]; [| reflexivity].
  destruct (exp <=? _)%Z; reflexivity.
Qed.

(** X7. A cart token verifies until it is fifteen minutes old and not
    after: [verifyJWT] returns the claims [signCartMandate] signed, with the
    digest of the contents as cart_hash, while the clock (in whole seconds)
    is before the second of signing plus 900, and throws the JWTExpired
    error from then on. *)
Theorem cart_token_verifies_for_fifteen_minutes
    (cartContents : value) (w w1 v : World) (jws : JWS) :
  signCartMandate_jws cartContents w = (Ok jws, w1) ->
  JWS_parse (JWS_compact jws) = Some jws ->
  exists claims,
    jws_payload jws = CartPayload claims /\
    hashObject cartContents = Ok (cart_hash claims) /\
    get_prop cartContents "id" = Ok (cart_id claims) /\
    c_exp claims = Some (epoch (clock w (S (clock_reads w))) + 900)%Z /\
    ((epoch (clock v (clock_reads v)) < epoch (clock w (S (clock_reads w))) + 900)%Z ->
     verifyJWT (JWS_compact jws) v = (Ok (CartPayload claims), snd (Date_now v))) /\
    ((epoch (clock w (S (clock_reads w))) + 900 <= epoch (clock v (clock_reads v)))%Z ->
     verifyJWT (JWS_compact jws) v
     = (Throw (verification_failed "JWTExpired"), snd (Date_now v))).
Proof.
  intros Hsign Hparse.
  destruct (signCartMandate_jws_runs _ _ _ _ Hsign) as (digest & id & Hd & Hid & _ & Hp & Hmac & _).
  rewrite (verifyJWT_well_signed _ _ v Hparse Hmac), Hp. cbn [payload_exp c_exp].
  eexists. split; [reflexivity |]. cbn [cart_hash cart_id c_exp].
  split; [exact Hd |]. split; [exact Hid |]. split; [reflexivity |].
  change (15 * 60)%Z with 900%Z.
  split; intros H.
  - apply Z.leb_gt in H. now rewrite H.
  - apply Z.leb_le in H. now rewrite H.
Qed.

(** X8. A payment-mandate token verifies until it is one hour old and not
    after: [verifyJWT] returns the claims [signPaymentMandate] signed, with
    the digest of the contents as mandate_hash and as the one entry of
    transaction_data, while the clock (in whole seconds) is before the second
    of signing plus 3600, and throws the JWTExpired error from then on. *)
Theorem payment_token_verifies_for_one_hour
    (contents : value) (w w1 v : World) (jws : JWS) :
  signPaymentMandate_jws contents w = (Ok jws, w1) ->
  JWS_parse (JWS_compact jws) = Some jws ->
  exists claims,
    jws_payload jws = PaymentPayload claims /\
    hashObject contents = Ok (mandate_hash claims) /\
    transaction_data claims = [mandate_hash claims] /\
    get_prop contents "payment_mandate_id" = Ok (payment_mandate_id claims) /\
    p_exp claims = Some (epoch (clock w (S (clock_reads w))) + 3600)%Z /\
    ((epoch (clock v (clock_reads v)) < epoch (clock w (S (clock_reads w))) + 3600)%Z ->
     verifyJWT (JWS_compact jws) v = (Ok (PaymentPayload claims), snd (Date_now v))) /\
    ((epoch (clock w (S (clock_reads w))) + 3600 <= epoch (clock v (clock_reads v)))%Z ->
     verifyJWT (JWS_compact jws) v
     = (Throw (verification_failed "JWTExpired"), snd (Date_now v))).
Proof.
  intros Hsign Hparse.
  destruct (signPaymentMandate_jws_runs _ _ _ _ Hsign)
    as (digest & id & Hd & Hid & _ & Hp & Hmac & _).
  rewrite (verifyJWT_well_signed _ _ v Hparse Hmac), Hp. cbn [payload_exp p_exp].
  eexists. split; [reflexivity |]. cbn [mandate_hash transaction_data payment_mandate_id p_exp].
  split; [exact Hd |]. split; [reflexivity |]. split; [exact Hid |]. split; [reflexivity |].
  change (60 * 60)%Z with 3600%Z.
  split; intros H.
  - apply Z.leb_gt in H. now rewrite H.
  - apply Z.leb_le in H. now rewrite H.
Qed.

(** X9. [verifyJWT] returns claims only for a token that reads as a JWS
    whose signature is the one the secret key gives for its header and
    claims and whose exp, if it has one, is after the current second; the
    claims returned are the token's own, and the clock was read once. *)
Theorem verifyJWT_accepts_only_valid_tokens
    (token : string) (w w' : World) (payload : JWTPayload) :
  verifyJWT token w = (Ok payload, w') ->
  exists jws,
    JWS_parse token = Some jws /\
    jws_payload jws = payload /\
    jose_mac (jws_header jws) payload = Some (jws_signature jws) /\
    (forall exp, payload_exp payload = Some exp -> (epoch (clock w (clock_reads w)) < exp)%Z) /\
    w' = snd (Date_now w).
Proof.
  unfold verifyJWT, try_catch, jwtVerify, throw.
  destruct (JWS_parse token) as [jws|]; [| discriminate].
  destruct (jose_mac (jws_header jws) (jws_payload jws)) as [expected|] eqn:Hmac; [| discriminate].
  destruct (String.eqb_spec (jws_signature jws) expected) as [Hsig | Hsig]; cbn [negb];
    [| discriminate].
  unfold bind, Date_now, ret. cbv beta iota.
  destruct (payload_exp (jws_payload jws)) as [exp|] eqn:Hexp.
  - destruct (exp <=? epoch (clock w (clock_reads w)))%Z eqn:Hle; [discriminate |].
    intros [= <- <-]. exists jws. rewrite Hmac, Hsig, Hexp.
    repeat split. intros exp' [= <-]. now apply Z.leb_gt.
  - intros [= <- <-]. exists jws. rewrite Hmac, Hsig, Hexp.
    repeat split. discriminate.
Qed.

Lemma wire_property_list_eq :
  PropertyList
    (Array_sort ["id"; "user_cart_confirmation_required"; "merchant_name"; "cart_expiry";
                 "payment_request"])
  = ["cart_expiry"; "id"; "merchant_name"; "payment_request"; "user_cart_confirmation_required"].
Proof. vm_compute. reflexivity. Qed.

Lemma cart_digest_over_the_wire
    (product : VacationPackage) (id cart_expiry details_id : string) :
  hashObject (over_the_wire (cartContents_of product id cart_expiry details_id))
  = hashObject (cartContents_of product id cart_expiry details_id).
Proof.
  unfold hashObject, JSON_stringify, cartContents_of.
  destruct (pkg_image_url product) as [url|];
    cbn [over_the_wire flat_map app fst snd Object_keys map];
    rewrite ?cart_property_list_eq, ?wire_property_list_eq;
    rewrite !SerializeJSONProperty_VObj;
    cbn [map fst snd];
    rewrite !SerializeJSONProperty_hidden.
  all: try (intros P HP; cbn [In] in HP;
            repeat (destruct HP as [<- | HP]; [reflexivity |]); destruct HP).
  all: reflexivity.
Qed.

(** X10. The digest of a cart survives the transport as JSON: the copy a
    peer parses from the response body (a missing image_url gone, numbers
    re-read) has the digest of the object the merchant signed. *)
Theorem cart_digest_survives_transport
    (product : VacationPackage) (id cart_expiry details_id : string) :
  hashObject (over_the_wire (cartContents_of product id cart_expiry details_id))
  = hashObject (cartContents_of product id cart_expiry details_id).
Proof. apply cart_digest_over_the_wire. Qed.

(** X11. A cart mandate can be checked by the party that receives it: in
    the JSON copy of a cart mandate the merchant made, the digest recomputed
    from the contents is the cart_hash of the token beside them. *)
Theorem transported_cart_mandate_matches_its_token
    (product : VacationPackage) (mandate : value) :
  signed_cart_mandate product mandate ->
  exists (contents : value) (jws : JWS) (claims : CartMandateJWTPayload),
    over_the_wire mandate
    = VObj [("contents", contents); ("merchant_authorization", VStr (JWS_compact jws))] /\
    jws_payload jws = CartPayload claims /\
    hashObject contents = Ok (cart_hash claims).
Proof.
  intros (id & cart_expiry & details_id & jws & claims & -> & Hpayload & Hdigest & _).
  exists (over_the_wire (cartContents_of product id cart_expiry details_id)), jws, claims.
  split; [reflexivity |]. split; [exact Hpayload |].
  now rewrite cart_digest_over_the_wire.
Qed.

(** ** The merchant *)

Lemma In_take {A} (n : nat) (l : list A) (x : A) : In x (take n l) -> In x l.
Proof.
  revert n. induction l as [|y l IH]; intros [|n]; cbn [take In]; try tauto.
  intros [-> | H]; [now left | right; eauto].
Qed.

Lemma length_take_le {A} (n : nat) (l : list A) : length (take n l) <= n.
Proof. rewrite length_take. lia. Qed.

Lemma findMatchingProducts_eq (userIntent : value) (w : World) :
  findMatchingProducts userIntent w =
  if api_key_set w then
    match ToString_checked userIntent with
    | Throw e => (Throw e, w)
    | Ok _ =>
        match selection_model w (model_calls w) with
        | Ok selectedIds => (Ok (select_packages selectedIds), after_model_call w)
        | Throw _ => (Ok (take 3 VACATION_PACKAGES), after_model_call w)
        end
    end
  else (Ok (take 3 VACATION_PACKAGES), w).
Proof.
  unfold findMatchingProducts, api_key_set, bind at 1, getenv_OPENROUTER_API_KEY, ret.
  destruct (OPENROUTER_API_KEY w) as [[|k0 key]|]; [reflexivity | | reflexivity].
  change (String.eqb (String k0 key) EmptyString) with false. cbv iota.
  unfold bind at 1, lift.
  destruct (ToString_checked userIntent) as [text|e]; [| reflexivity].
  unfold try_catch, invoke_selection_model, bind, next_model_call. cbv beta iota.
  cbn [selection_model model_calls].
  destruct (selection_model w (model_calls w)); reflexivity.
Qed.

Lemma In_select_packages (selectedIds : list string) (product : VacationPackage) :
  In product (select_packages selectedIds) ->
  In product VACATION_PACKAGES /\ In (pkg_id product) selectedIds.
Proof.
  unfold select_packages. intros Hp. apply In_take in Hp. apply list_elem_of_In in Hp.
  apply list_elem_of_omap in Hp as (id & Hid & Hfind).
  apply List.find_some in Hfind as [Hin Heq]. apply String.eqb_eq in Heq. subst id.
  split; [exact Hin | now apply list_elem_of_In].
Qed.

Lemma findMatchingProducts_returns (userIntent : value) (w w' : World)
    (products : list VacationPackage) :
  findMatchingProducts userIntent w = (Ok products, w') ->
  length products <= 3 /\
  (forall product, In product products -> In product VACATION_PACKAGES).
Proof.
  rewrite findMatchingProducts_eq.
  assert (Hfallback : length (take 3 VACATION_PACKAGES) <= 3 /\
                      forall product, In product (take 3 VACATION_PACKAGES) ->
                                      In product VACATION_PACKAGES).
  { split; [apply length_take_le | intros product; apply In_take]. }
  assert (Hselect : forall ids, length (select_packages ids) <= 3 /\
                      forall product, In product (select_packages ids) ->
                                      In product VACATION_PACKAGES).
  { intros ids. split; [apply length_take_le | intros product Hp; now apply In_select_packages in Hp]. }
  destruct (api_key_set w); [| intros [= <- _]; exact Hfallback].
  destruct (ToString_checked userIntent) as [text|e]; [| discriminate].
  destruct (selection_model w (model_calls w)) as [ids|error]; intros [= <- _];
    [apply Hselect | exact Hfallback].
Qed.


(** X12. [findMatchingProducts] never offers anything but the catalog, and
    fails in one case only.  Whatever it returns is at most three products,
    each an entry of the catalog, and when the model answered, each with an
    id the model named.  Without an API key, or when the model call or the
    reading of its answer fails, it returns the first three entries of the
    catalog.  It throws exactly when the API key is set and the user intent
    cannot be converted to a string for the prompt (an object with a member
    toString of its own): the TypeError of the conversion leaves the
    function, before the model is called. *)
Theorem findMatchingProducts_selects_from_catalog (userIntent : value) (w : World) :
  (forall products w',
      findMatchingProducts userIntent w = (Ok products, w') ->
      length products <= 3 /\
      (forall product, In product products -> In product VACATION_PACKAGES)) /\
  (forall e w',
      findMatchingProducts userIntent w = (Throw e, w') <->
      api_key_set w = true /\ ToString_checked userIntent = Throw e /\ w' = w) /\
  (api_key_set w = false
   \/ ((exists text, ToString_checked userIntent = Ok text)
       /\ exists error, selection_model w (model_calls w) = Throw error) ->
   fst (findMatchingProducts userIntent w) = Ok (take 3 VACATION_PACKAGES)) /\
  (forall text selectedIds,
      api_key_set w = true ->
      ToString_checked userIntent = Ok text ->
      selection_model w (model_calls w) = Ok selectedIds ->
      exists products,
        fst (findMatchingProducts userIntent w) = Ok products /\
        forall product, In product products -> In (pkg_id product) selectedIds).
Proof.
  split; [intros products w'; apply findMatchingProducts_returns |].
  rewrite findMatchingProducts_eq. split; [| split].
  - intros e w'. destruct (api_key_set w).
    + destruct (ToString_checked userIntent) as [text|e'].
      * split; [| intros (_ & [=] & _)].
        destruct (selection_model w (model_calls w)); discriminate.
      * split; [intros [= -> <-]; auto | intros (_ & [= ->] & ->); reflexivity].
    + split; [discriminate | intros ([=] & _)].
  - intros [-> | [[text ->] [error ->]]]; [reflexivity |].
    destruct (api_key_set w); reflexivity.
  - intros text selectedIds -> -> ->.
    eexists. split; [reflexivity |]. intros product Hp. now apply In_select_packages in Hp.
Qed.

Lemma signCartMandate_jws_succeeds (fields : list (string * value)) (w : World) :
  exists jws w1, signCartMandate_jws (VObj fields) w = (Ok jws, w1).
Proof.
  unfold signCartMandate_jws, bind, lift. rewrite hashObject_VObj. cbv beta iota.
  cbn [get_prop]. unfold Date_now, SignJWT_sign, jose_mac.
  cbn [alg String.eqb Ascii.eqb Bool.eqb]. cbv beta iota. eexists _, _. reflexivity.
Qed.

Lemma cartContents_for_runs (product : VacationPackage) (w : World) :
  exists id cart_expiry details_id w1,
    cartContents_for product w
    = (Ok (cartContents_of product id cart_expiry details_id), w1).
Proof. eexists _, _, _, _. reflexivity. Qed.

Lemma cartMandate_for_runs (product : VacationPackage) (w : World) :
  exists mandate w',
    cartMandate_for product w = (Ok mandate, w') /\ signed_cart_mandate product mandate.
Proof.
  unfold cartMandate_for, bind at 1.
  destruct (cartContents_for_runs product w) as (id & cart_expiry & details_id & w1 & ->).
  unfold signCartMandate, bind, ret.
  destruct (signCartMandate_jws_succeeds
              match cartContents_of product id cart_expiry details_id with
              | VObj fields => fields
              | _ => []
              end w1) as (jws & w2 & Hsign).
  change (VObj _) with (cartContents_of product id cart_expiry details_id) in Hsign.
  rewrite Hsign.
  destruct (signCartMandate_jws_runs _ _ _ _ Hsign) as (digest & id' & Hd & Hid & _ & Hp & _).
  change (get_prop (cartContents_of product id cart_expiry details_id) "id") with (Ok (VStr id)) in Hid.
  injection Hid as <-.
  eexists _, _. split; [reflexivity |].
  exists id, cart_expiry, details_id, jws. eexists. split; [reflexivity |].
  split; [exact Hp |]. split; [exact Hd | reflexivity].
Qed.





(** ** The credentials provider *)

(** X14. Payment initiation at the credentials provider.  For an envelope
    of the trusted caller with action "initiate_payment" whose text does not
    mention "payment method": if no data part holds a truthy value under
    ap2.mandates.PaymentMandate the answer is 500 with the details
    "Payment mandate required for payment initiation", and neither the clock
    nor the generator is touched; otherwise the answer is 200 with the text
    "Payment mandate received and verified." and payment_status "ready",
    whatever that value is: nothing in it is looked at. *)
Theorem credentials_provider_initiate_payment (message : A2AMessage) (w : World) :
  extractDataFromMessage message "shopping_agent_id" = VStr "trusted_shopping_agent" ->
  extractDataFromMessage message "action" = VStr "initiate_payment" ->
  includes (toLowerCase (extractTextFromMessage message)) "payment method" = false ->
  (extractDataFromMessage message "ap2.mandates.PaymentMandate" = VNull ->
   credentials_provider_handler "POST" message w
   = (Ok (mkResponse 500
            (VObj [ ("error", VStr "Failed to process credentials provider request");
                    ("details", VStr "Payment mandate required for payment initiation") ])),
      w))
  /\ (extractDataFromMessage message "ap2.mandates.PaymentMandate" <> VNull ->
      exists id reply w',
        credentials_provider_handler "POST" message w
        = (Ok (mkResponse 200 (task_body id reply)), w') /\
        parts reply = [ TextPart "Payment mandate received and verified.";
                        DataPart [("payment_status", VStr "ready")] ] /\
        context_id reply = context_id message).
Proof.
  intros Hid Haction Htext. unfold credentials_provider_handler.
  change (negb (String.eqb "POST" "POST")) with false. cbv iota zeta.
  rewrite Hid, Haction, Htext.
  cbn [strict_eq_str String.eqb Ascii.eqb Bool.eqb negb orb]. cbv iota.
  split.
  - intros ->. reflexivity.
  - intros Hm.
    destruct (extractData_null_or_truthy (parts message) "ap2.mandates.PaymentMandate")
      as [H | H]; [contradiction |].
    unfold extractDataFromMessage. rewrite H. cbn [negb]. cbv iota.
    unfold try_catch, bind at 1. unfold bind at 1. rewrite A2AMessageBuilder_runs.
    unfold completed_task, bind, Date_now, ret. cbv beta iota.
    eexists _, _, _. split; [reflexivity |]. split; reflexivity.
Qed.

(** X15. Every other request of the trusted caller is answered 200 by the
    credentials provider: an envelope whose action is neither
    "get_payment_methods" nor "initiate_payment" and whose text does not
    mention "payment method" gets the one text part
    "Unknown action requested." and no data. *)
Theorem credentials_provider_unknown_action (message : A2AMessage) (w : World) :
  extractDataFromMessage message "shopping_agent_id" = VStr "trusted_shopping_agent" ->
  extractDataFromMessage message "action" <> VStr "get_payment_methods" ->
  extractDataFromMessage message "action" <> VStr "initiate_payment" ->
  includes (toLowerCase (extractTextFromMessage message)) "payment method" = false ->
  exists id reply w',
    credentials_provider_handler "POST" message w
    = (Ok (mkResponse 200 (task_body id reply)), w') /\
    parts reply = [TextPart "Unknown action requested."] /\
    context_id reply = context_id message.
Proof.
  intros Hid Hget Hinit Htext. unfold credentials_provider_handler.
  change (negb (String.eqb "POST" "POST")) with false. cbv iota zeta.
  apply strict_eq_str_false in Hget, Hinit.
  rewrite Hid, Hget, Hinit, Htext.
  cbn [strict_eq_str String.eqb Ascii.eqb Bool.eqb negb orb]. cbv iota.
  unfold try_catch, bind at 1. unfold bind at 1. rewrite A2AMessageBuilder_runs.
  unfold completed_task, bind, Date_now, ret. cbv beta iota.
  eexists _, _, _. split; [reflexivity |]. split; reflexivity.
Qed.

(** ** The orchestrator *)


Lemma credentials_provider_handler_returns (method : string) (message : A2AMessage) (w : World) :
  exists resp w', credentials_provider_handler method message w = (Ok resp, w').
Proof.
  unfold credentials_provider_handler.
  destruct (negb (String.eqb method "POST")); [eexists _, _; reflexivity |].
  unfold try_catch, ret.
  match goal with
  | |- context [match ?run with _ => _ end] => destruct run as [[resp|e] w1]
  end; eexists _, _; reflexivity.
Qed.


Lemma deployed_serves_credentials_provider (peer_world w : World) (n : nat) :
  served_by credentials_provider_handler "/api/agents/credentials-provider" n
    (deployed peer_world w).
Proof.
  intros envelope.
  destruct (credentials_provider_handler_returns "POST" (A2AMessage_over_the_wire envelope)
              peer_world) as (answer & peer_world' & Hrun).
  exists peer_world, answer, peer_world'. split; [exact Hrun |].
  unfold deployed, with_network, peers_in, answer_of. cbn [network]. rewrite Hrun. reflexivity.
Qed.

Lemma credentials_provider_lists_methods (message : A2AMessage) (w : World) :
  extractDataFromMessage message "shopping_agent_id" = VStr "trusted_shopping_agent" ->
  extractDataFromMessage message "action" = VStr "get_payment_methods" ->
  credentials_provider_handler "POST" message w
  = (Ok (mkResponse 200
           (task_body ("task-" +:+ Z_to_string (clock w (S (S (clock_reads w)))))
              (mkA2AMessage
                 ("msg-" +:+ Z_to_string (clock w (clock_reads w)) +:+ "-"
                  +:+ slice (Number_toString36 (random w (random_draws w))) 2 11)
                 (context_id message) VUndefined "agent"
                 [ TextPart "Here are your available payment methods from your wallet.";
                   DataPart [("payment_methods", USER_PAYMENT_METHODS)] ]
                 (Date_toISOString (clock w (S (clock_reads w))))))),
     world_after 3 1 [] w).
Proof.
  intros Hid Haction. unfold credentials_provider_handler.
  change (negb (String.eqb "POST" "POST")) with false. cbv iota zeta.
  rewrite Hid, Haction.
  cbn [strict_eq_str String.eqb Ascii.eqb Bool.eqb negb orb]. cbv iota.
  unfold try_catch, bind at 1. unfold bind at 1. rewrite A2AMessageBuilder_runs.
  unfold completed_task, bind, Date_now, ret, world_after. cbv beta iota.
  cbn [clock clock_reads random random_draws chat_model selection_model model_calls
       OPENROUTER_API_KEY sent Nat.add].
  rewrite app_nil_r. reflexivity.
Qed.

Lemma world_after_post (route : string) (envelope : A2AMessage) (w : World) :
  post route envelope w = (Ok tt, world_after 0 0 [(route, envelope)] w).
Proof. reflexivity. Qed.

Lemma world_after_A2AMessageBuilder (w : World) :
  snd (A2AMessageBuilder w) = world_after 2 1 [] w.
Proof.
  rewrite A2AMessageBuilder_runs. unfold world_after. cbn [snd Nat.add].
  now rewrite app_nil_r.
Qed.

Lemma world_after_world_after (r1 d1 r2 d2 : nat) (p1 p2 : list (string * A2AMessage)) (w : World) :
  world_after r2 d2 p2 (world_after r1 d1 p1 w) = world_after (r2 + r1) (d2 + d1) (p1 ++ p2) w.
Proof.
  unfold world_after.
  cbn [clock clock_reads random random_draws chat_model selection_model model_calls
       OPENROUTER_API_KEY sent].
  now rewrite <- !Nat.add_assoc, <- app_assoc.
Qed.

(** What the orchestrator reads from the answer of a peer: the value of the
    data part of the reply, as parsed from the response body. *)
Lemma data_of_answer (id text key : string) (data : value) (reply : A2AMessage) :
  parts reply = [TextPart text; DataPart [(key, data)]] ->
  data <> VUndefined ->
  ToBoolean (over_the_wire data) = true ->
  match get_path (over_the_wire (task_body id reply)) ["task"; "result"] with
  | Ok result => data_of_response result key
  | Throw e => Throw e
  end = Ok (over_the_wire data).
Proof.
  intros Hparts Hdata Htruthy. destruct reply as [mid cid tid r ps ts]. cbn [parts] in Hparts.
  subst ps. unfold task_body, A2AMessage_to_value, data_of_response.
  destruct data; try congruence; try discriminate Htruthy;
    cbn [over_the_wire flat_map app map fst snd message_id role parts timestamp context_id task_id
         Part_to_value] in Htruthy |- *;
    repeat first
      [ rewrite String.eqb_refl
      | rewrite Htruthy
      | progress cbn [assoc String.eqb Ascii.eqb Bool.eqb get_path get_prop strict_eq_str
                      find_data_part]
      | progress unfold obj_get, js_or
      | progress cbv beta iota ];
    reflexivity.
Qed.

(** The branch up to the answer of the network: one envelope is posted,
    and what comes back decides the rest. *)
Lemma get_payment_methods_eq (c : value) (w : World) :
  get_payment_methods c w
  = let envelope := payment_methods_request c w in
    let w1 := world_after 2 1 [("/api/agents/credentials-provider", envelope)] w in
    match network w (length (sent w)) "/api/agents/credentials-provider" envelope with
    | Throw e => (Throw e, w1)
    | Ok cpResult =>
        (match get_path cpResult ["task"; "result"] with
         | Throw e => Throw e
         | Ok cpA2AResponse =>
             match data_of_response cpA2AResponse "payment_methods" with
             | Throw e => Throw e
             | Ok paymentMethods =>
                 Ok (mkResponse 200 (VObj [("payment_methods", paymentMethods);
                                           ("context_id", c)]))
             end
         end, w1)
    end.
Proof.
  unfold get_payment_methods. unfold bind at 1.
  pose proof (world_after_A2AMessageBuilder w) as Hw. rewrite A2AMessageBuilder_runs in Hw |- *.
  cbn [snd] in Hw. rewrite Hw. cbv beta iota zeta.
  change (build _) with (payment_methods_request c w).
  unfold bind at 1. unfold fetch_json. unfold bind at 1. unfold posted at 1. cbv beta iota.
  unfold bind at 1. rewrite world_after_post. cbv beta iota.
  rewrite world_after_world_after. unfold receive.
  cbn [world_after sent network]. rewrite app_nil_r.
  destruct (network w (length (sent w)) "/api/agents/credentials-provider"
              (payment_methods_request c w)) as [cpResult|e]; [| reflexivity].
  cbv beta iota. unfold bind at 1, lift at 1.
  destruct (get_path cpResult ["task"; "result"]) as [cpA2AResponse|e]; [| reflexivity].
  cbv beta iota. unfold bind at 1, lift at 1.
  destruct (data_of_response cpA2AResponse "payment_methods"); reflexivity.
Qed.

Lemma get_payment_methods_runs (c : value) (w : World) :
  served_by credentials_provider_handler "/api/agents/credentials-provider"
    (length (sent w)) w ->
  get_payment_methods c w
  = (Ok (mkResponse 200 (VObj [("payment_methods", USER_PAYMENT_METHODS); ("context_id", c)])),
     world_after 2 1 [("/api/agents/credentials-provider", payment_methods_request c w)] w).
Proof.
  intros Hserved. rewrite get_payment_methods_eq. cbv zeta.
  destruct (Hserved (payment_methods_request c w))
    as (peer_world & answer & peer_world' & Hpeer & ->).
  rewrite credentials_provider_lists_methods in Hpeer by reflexivity.
  injection Hpeer as <- _. cbn [json].
  match goal with
  | |- context [get_path (over_the_wire (task_body ?id ?reply)) _] =>
      pose proof (data_of_answer id "Here are your available payment methods from your wallet."
                    "payment_methods" USER_PAYMENT_METHODS reply eq_refl
                    ltac:(discriminate) eq_refl) as Hdata
  end.
  destruct (get_path _ ["task"; "result"]) as [result | e]; [| discriminate Hdata].
  rewrite Hdata. reflexivity.
Qed.

(** X16. Asking the orchestrator for the payment methods.  With the API
    key set, a request with action "get_payment_methods" posts one envelope,
    to the route of the credentials provider: it carries the action, the
    trusted caller's identity and the context id of the session.  When that
    route is served by the credentials provider of this program, the answer
    is 200 with the three entries of the wallet, under that context id. *)
Theorem orchestrator_lists_payment_methods (body : ShoppingRequest) (w : World) :
  api_key_set w = true ->
  req_action body = VStr "get_payment_methods" ->
  served_by credentials_provider_handler "/api/agents/credentials-provider"
    (length (sent w)) w ->
  exists envelope w',
    shopping_agent_handler "POST" body w
    = (Ok (mkResponse 200
             (VObj [ ("payment_methods", USER_PAYMENT_METHODS);
                     ("context_id", session_context_id (req_contextId body) w) ])), w') /\
    sent w' = sent w ++ [("/api/agents/credentials-provider", envelope)] /\
    parts envelope
    = [ TextPart "Get available payment methods for user";
        DataPart [("action", VStr "get_payment_methods")];
        DataPart [("shopping_agent_id", VStr "trusted_shopping_agent")] ] /\
    context_id envelope = session_context_id (req_contextId body) w.
Proof.
  intros Hkey Hact Hserved.
  rewrite shopping_agent_handler_POST. unfold api_key_set in Hkey.
  destruct (OPENROUTER_API_KEY w) as [[|k0 key]|]; try discriminate Hkey.
  rewrite Hact. cbn [ToBoolean String.eqb negb]. rewrite andb_false_r. cbv zeta.
  set (c := session_context_id (req_contextId body) w).
  set (w0 := if ToBoolean (req_contextId body) then w else snd (Date_now w)).
  assert (Hd : dispatch body c = get_payment_methods c).
  { unfold dispatch. rewrite Hact. reflexivity. }
  assert (Hsent : sent w0 = sent w).
  { unfold w0. destruct (ToBoolean (req_contextId body)); reflexivity. }
  assert (Hnet : network w0 = network w).
  { unfold w0. destruct (ToBoolean (req_contextId body)); reflexivity. }
  rewrite Hd, get_payment_methods_runs.
  - eexists _, _. split; [reflexivity |]. cbn [world_after sent].
    rewrite Hsent. split; [reflexivity |]. split; reflexivity.
  - unfold served_by. rewrite Hsent, Hnet. exact Hserved.
Qed.

(** X29. When the peer is not reached, or does not answer as a peer does,
    the orchestrator answers 500.  With the API key set and the action
    "get_payment_methods": if the [fetch] fails, the answer carries the
    message of its error; if what comes back is the body of a rejection
    ({ error: ... }, as a peer answers an unauthorized or failed request),
    the answer carries the message of the TypeError of reading the task of
    that body.  One envelope was posted in either case. *)
Theorem orchestrator_reports_unanswered_request
    (body : ShoppingRequest) (w : World) :
  api_key_set w = true ->
  req_action body = VStr "get_payment_methods" ->
  let c := session_context_id (req_contextId body) w in
  let w0 := if ToBoolean (req_contextId body) then w else snd (Date_now w) in
  let envelope := payment_methods_request c w0 in
  let answer := network w (length (sent w)) "/api/agents/credentials-provider" envelope in
  (forall e, answer = Throw e ->
     exists w',
       shopping_agent_handler "POST" body w = (Ok (request_failed e), w') /\
       sent w' = sent w ++ [("/api/agents/credentials-provider", envelope)]) /\
  (forall fields, answer = Ok (VObj fields) -> assoc "task" fields = None ->
     exists w',
       shopping_agent_handler "POST" body w
       = (Ok (request_failed
                (TypeError "Cannot read properties of undefined (reading 'result')")), w') /\
       sent w' = sent w ++ [("/api/agents/credentials-provider", envelope)]).
Proof.
  intros Hkey Hact c w0 envelope answer.
  assert (Hrun : shopping_agent_handler "POST" body w
                 = match get_payment_methods c w0 with
                   | (Ok resp, w1) => (Ok resp, w1)
                   | (Throw error, w1) => (Ok (request_failed error), w1)
                   end).
  { rewrite shopping_agent_handler_POST. unfold api_key_set in Hkey.
    destruct (OPENROUTER_API_KEY w) as [[|k0 key]|]; try discriminate Hkey.
    rewrite Hact. cbn [ToBoolean String.eqb negb]. rewrite andb_false_r. cbv zeta.
    unfold dispatch. rewrite Hact. reflexivity. }
  assert (Hsent : sent w0 = sent w).
  { unfold w0. destruct (ToBoolean (req_contextId body)); reflexivity. }
  assert (Hnet : network w0 = network w).
  { unfold w0. destruct (ToBoolean (req_contextId body)); reflexivity. }
  rewrite Hrun, get_payment_methods_eq. cbv zeta. rewrite Hsent, Hnet.
  fold envelope. fold answer. split.
  - intros e ->. eexists. split; [reflexivity |]. cbn [world_after sent]. now rewrite Hsent.
  - intros fields -> Htask. cbn [get_path get_prop]. unfold obj_get. rewrite Htask.
    cbn [get_prop]. eexists. split; [reflexivity |]. cbn [world_after sent]. now rewrite Hsent.
Qed.

(** ** The chat agent *)

Lemma deserializeMessages_serialized (history : list ChatMessage) :
  Forall plain_message history ->
  deserializeMessages
    (map (fun msg => VObj [("type", VStr (msg_type msg)); ("content", msg_content msg)]) history)
  = Ok history
  /\ deserializeMessages
       (map over_the_wire
          (map (fun msg => VObj [("type", VStr (msg_type msg)); ("content", msg_content msg)])
               history))
     = Ok history.
Proof.
  induction 1 as [|[ty content] history [Hty [text Hcontent]] Hrest [IH1 IH2]];
    [split; reflexivity |].
  cbn [msg_type msg_content] in Hty, Hcontent. subst content.
  cbn [map deserializeMessages over_the_wire flat_map app fst snd get_prop obj_get assoc
       String.eqb Ascii.eqb Bool.eqb strict_eq_str msg_type msg_content optional_get ToString].
  rewrite IH1, IH2.
  destruct Hty as [-> | [-> | ->]]; split; reflexivity.
Qed.

(** X17. The conversation history survives its way to the client and back:
    for messages of the kinds system, human and ai with text contents,
    [deserializeHistory] gives back the very history [serializeHistory] was
    applied to, whether it reads the serialized array itself or its copy
    parsed from JSON. *)
Theorem deserializeHistory_inverts_serializeHistory (history : list ChatMessage) :
  Forall plain_message history ->
  deserializeHistory (serializeHistory history) = Ok history
  /\ deserializeHistory (over_the_wire (serializeHistory history)) = Ok history.
Proof.
  intros H. unfold serializeHistory. cbn [over_the_wire deserializeHistory].
  now apply deserializeMessages_serialized.
Qed.

Lemma deserializeMessages_app (before after : list value) (history : list ChatMessage) :
  deserializeMessages before = Ok history ->
  deserializeMessages (before ++ after)
  = match deserializeMessages after with
    | Ok rest => Ok (history ++ rest)
    | Throw e => Throw e
    end.
Proof.
  revert history. induction before as [|msg before IH]; intros history H.
  - injection H as <-. cbn [app]. destruct (deserializeMessages after); reflexivity.
  - cbn [app deserializeMessages] in H |- *.
    destruct (get_prop msg "type") as [ty|]; [| discriminate].
    destruct (strict_eq_str ty "system" || strict_eq_str ty "human" || strict_eq_str ty "ai");
      [| destruct (ToString_checked ty); discriminate].
    destruct (deserializeMessages before) as [ms|]; [| discriminate].
    injection H as <-. rewrite (IH ms eq_refl).
    destruct (deserializeMessages after); reflexivity.
Qed.

(** X18. [deserializeHistory] stops at the first message whose type is none
    of "system", "human" and "ai".  After messages of the three kinds with
    text contents, as [serializeHistory] writes them, such a message makes it
    throw the Error "Unknown message type: " followed by that type as a
    string, whatever follows; or, if the type is an object that cannot be
    converted to a string, the TypeError of that conversion. *)
Theorem deserializeHistory_rejects_unknown_type
    (history : list ChatMessage) (before after : list value) (msg ty : value) :
  Forall plain_message history ->
  serializeHistory history = VArr before ->
  get_prop msg "type" = Ok ty ->
  ty <> VStr "system" -> ty <> VStr "human" -> ty <> VStr "ai" ->
  deserializeHistory (VArr (before ++ msg :: after))
  = match ToString_checked ty with
    | Ok text => Throw (Error ("Unknown message type: " +:+ text))
    | Throw e => Throw e
    end.
Proof.
  intros Hplain Hbefore Hty Hs Hh Ha. unfold serializeHistory in Hbefore.
  injection Hbefore as <-. cbn [deserializeHistory].
  rewrite (deserializeMessages_app _ _ _ (proj1 (deserializeMessages_serialized _ Hplain))).
  cbn [deserializeMessages].
  apply strict_eq_str_false in Hs, Hh, Ha. rewrite Hty, Hs, Hh, Ha. cbn [orb].
  destruct (ToString_checked ty); reflexivity.
Qed.

Lemma chat_runs (history : list ChatMessage) (userMessage : value) (w : World) (reply : string) :
  chat_model w (model_calls w) = Ok reply ->
  exists response w',
    chat history userMessage w
    = (Ok (response, (history ++ [HumanMessage userMessage]) ++ [AIMessage (VStr reply)]), w') /\
    model_calls w' = S (model_calls w) /\
    sent w' = sent w /\
    OPENROUTER_API_KEY w' = OPENROUTER_API_KEY w /\
    network w' = network w.
Proof.
  intros Hreply. unfold chat, bind at 1. unfold invoke_chat_model, bind at 1.
  unfold next_model_call. cbv beta iota. cbn [chat_model model_calls]. rewrite Hreply.
  cbv beta iota zeta. unfold bind at 1.
  destruct (includes reply "CREATE_INTENT_MANDATE").
  - unfold extractIntentFromConversation, bind, Date_now, ret. cbv beta iota zeta.
    eexists _, _. split; [reflexivity |]. repeat split.
  - unfold ret. eexists _, _. split; [reflexivity |]. repeat split.
Qed.

Lemma chat_fails (history : list ChatMessage) (userMessage : value) (w : World) (e : Exception) :
  chat_model w (model_calls w) = Throw e ->
  chat history userMessage w = (Throw e, after_model_call w).
Proof.
  intros Hreply. unfold chat, bind at 1. unfold invoke_chat_model, bind at 1.
  unfold next_model_call. cbv beta iota. cbn [chat_model model_calls]. rewrite Hreply.
  reflexivity.
Qed.

(** X19. One call of [chat] with a text message, on a history of messages
    with text contents, adds two messages to the history, in this order: the
    user's message as a human message and the reply of the model, as
    received, as an ai message; the model is called once and no envelope is
    posted.  If the call of the model fails, [chat] fails with the same
    error. *)
Theorem chat_appends_question_and_reply
    (history : list ChatMessage) (text : string) (w : World) :
  Forall plain_message history ->
  (forall reply, chat_model w (model_calls w) = Ok reply ->
     exists response w',
       chat history (VStr text) w
       = (Ok (response, (history ++ [HumanMessage (VStr text)]) ++ [AIMessage (VStr reply)]),
          w') /\
       model_calls w' = S (model_calls w) /\ sent w' = sent w)
  /\ (forall error, chat_model w (model_calls w) = Throw error ->
        chat history (VStr text) w = (Throw error, after_model_call w)).
Proof.
  intros _. split.
  - intros reply Hreply.
    destruct (chat_runs history (VStr text) w reply Hreply)
      as (response & w' & E & Hc & Hs & _).
    eauto 6.
  - intros error. apply chat_fails.
Qed.

Lemma last_n_app {A} (n : nat) (older recent : list A) :
  length recent = n -> last_n n (older ++ recent) = recent.
Proof.
  intros <-. unfold last_n. rewrite length_app.
  replace (length older + length recent - length recent) with (length older) by lia.
  apply drop_app_length.
Qed.

Lemma last_n_all {A} (n : nat) (l : list A) : length l = n -> last_n n l = l.
Proof. intros <-. unfold last_n. now rewrite Nat.sub_diag. Qed.

(** X20. [extractIntentFromConversation] never looks further back than
    five messages: whatever precedes the last five messages of the history
    has no part in the intent it builds. *)
Theorem extractIntentFromConversation_reads_last_five
    (older recent : list ChatMessage) (w : World) :
  length recent = 5 ->
  extractIntentFromConversation (older ++ recent) w = extractIntentFromConversation recent w.
Proof.
  intros H. unfold extractIntentFromConversation. cbv zeta.
  now rewrite (last_n_app 5 older recent H), (last_n_all 5 recent H).
Qed.

Lemma agent_of_request_new (conversationHistory : value) (w : World) (k0 : ascii) (key : string) :
  OPENROUTER_API_KEY w = Some (String k0 key) ->
  ToBoolean conversationHistory = false ->
  agent_of_request conversationHistory w = (Ok [SystemMessage (VStr system_prompt)], w).
Proof.
  intros Hkey Hfalsy. unfold agent_of_request. rewrite Hfalsy. unfold bind at 1, ret at 1.
  cbv beta iota. unfold VacationBookingAgent, bind, getenv_OPENROUTER_API_KEY. rewrite Hkey.
  reflexivity.
Qed.

Lemma agent_of_request_restored
    (conversationHistory : value) (w : World) (k0 : ascii) (key : string)
    (first : ChatMessage) (rest : list ChatMessage) :
  OPENROUTER_API_KEY w = Some (String k0 key) ->
  ToBoolean conversationHistory = true ->
  deserializeHistory conversationHistory = Ok (first :: rest) ->
  agent_of_request conversationHistory w = (Ok (first :: rest), w).
Proof.
  intros Hkey Htruthy Hhistory. unfold agent_of_request. rewrite Htruthy, Hhistory.
  unfold bind at 1. unfold bind at 1, lift at 1, ret at 1. cbv beta iota.
  unfold VacationBookingAgent, bind, getenv_OPENROUTER_API_KEY. rewrite Hkey.
  reflexivity.
Qed.

Lemma chat_only_runs (message conversationHistory c : value) (w : World)
    (history : list ChatMessage) (reply : string) :
  agent_of_request conversationHistory w = (Ok history, w) ->
  chat_model w (model_calls w) = Ok reply ->
  exists response w',
    chat_only message conversationHistory c w
    = (Ok (mkResponse 200
             (VObj [ ("response", VStr response);
                     ("context_id", c);
                     ("conversationHistory",
                      serializeHistory
                        ((history ++ [HumanMessage message]) ++ [AIMessage (VStr reply)])) ])),
       w').
Proof.
  intros Hagent Hreply. unfold chat_only, bind at 1. rewrite Hagent. cbv beta iota.
  unfold bind at 1.
  destruct (chat_runs history message w reply Hreply) as (response & w' & -> & _).
  cbv beta iota. unfold ret. cbn [fst snd]. eauto.
Qed.

(** The world in which the branch of the action runs: the clock has been
    read for the context id when the request brought none. *)
Lemma chat_model_after_context_id (contextId : value) (w : World) :
  let w0 := if ToBoolean contextId then w else snd (Date_now w) in
  chat_model w0 = chat_model w /\ model_calls w0 = model_calls w
  /\ OPENROUTER_API_KEY w0 = OPENROUTER_API_KEY w.
Proof. cbv zeta. destruct (ToBoolean contextId); repeat split. Qed.

(** X21. A conversation continues across requests.  With the API key set,
    a request with a text message and an action that is none of the three
    the orchestrator knows is answered 200 with a conversationHistory that
    is the history the request brought (messages of the known kinds with
    text contents, at least one), followed by the message as a human message
    and the model's reply as an ai message; the system prompt is not added
    to a history the client supplies.  A request that brings no history
    starts from the system prompt. *)
Theorem chat_request_extends_conversation
    (body : ShoppingRequest) (w : World) (key text reply : string) (history : list ChatMessage) :
  OPENROUTER_API_KEY w = Some key -> key <> EmptyString ->
  req_message body = VStr text -> text <> EmptyString ->
  req_action body <> VStr "search_vacations" ->
  req_action body <> VStr "get_payment_methods" ->
  req_action body <> VStr "create_payment_mandate" ->
  chat_model w (model_calls w) = Ok reply ->
  (ToBoolean (req_conversationHistory body) = false /\ history = [SystemMessage (VStr system_prompt)])
  \/ (req_conversationHistory body = serializeHistory history /\ history <> []
      /\ Forall plain_message history) ->
  exists response w',
    shopping_agent_handler "POST" body w
    = (Ok (mkResponse 200
             (VObj [ ("response", VStr response);
                     ("context_id", session_context_id (req_contextId body) w);
                     ("conversationHistory",
                      serializeHistory
                        ((history ++ [HumanMessage (VStr text)]) ++ [AIMessage (VStr reply)])) ])),
       w').
Proof.
  intros Hkey Hne Hmsg Htext Hs Hg Hc Hreply Hhistory.
  rewrite shopping_agent_handler_POST, Hkey.
  destruct key as [|k0 key]; [congruence |].
  rewrite Hmsg. destruct text as [|t0 text]; [congruence |].
  cbn [ToBoolean String.eqb negb andb]. cbv zeta.
  set (c := session_context_id (req_contextId body) w).
  destruct (chat_model_after_context_id (req_contextId body) w) as (Hm & Hn & Hk).
  set (w0 := if ToBoolean (req_contextId body) then w else snd (Date_now w)) in *.
  assert (Hd : dispatch body c
               = chat_only (VStr (String t0 text)) (req_conversationHistory body) c).
  { unfold dispatch. apply strict_eq_str_false in Hs, Hg, Hc. rewrite Hs, Hg, Hc, Hmsg.
    reflexivity. }
  rewrite Hd. rewrite <- Hk in Hkey. rewrite <- Hm, <- Hn in Hreply.
  assert (Hagent : agent_of_request (req_conversationHistory body) w0 = (Ok history, w0)).
  { destruct Hhistory as [[Hfalsy ->] | (Hser & Hnonempty & Hplain)].
    - now apply (agent_of_request_new _ _ k0 key).
    - destruct history as [|first rest]; [congruence |].
      apply (agent_of_request_restored _ _ k0 key); [exact Hkey | now rewrite Hser |].
      rewrite Hser. now apply deserializeMessages_serialized. }
  destruct (chat_only_runs (VStr (String t0 text)) _ c w0 history reply Hagent Hreply)
    as (response & w' & ->).
  eauto.
Qed.




(** ** The payment mandate *)

(** X23. A create_payment_mandate request is refused before anything is
    signed when the cart mandate or the payment method is missing: with the
    API key set, the answer is 400 "Cart mandate and payment method
    required" if either of data.cartMandate and data.paymentMethod is falsy,
    and 500 "Failed to process request" if the request has no data at all;
    in both cases no number is drawn, no envelope is posted and the clock is
    read at most once, for the context id. *)
Theorem payment_mandate_request_needs_cart_and_method
    (body : ShoppingRequest) (w : World) (key : string) :
  OPENROUTER_API_KEY w = Some key -> key <> EmptyString ->
  req_action body = VStr "create_payment_mandate" ->
  let w0 := if ToBoolean (req_contextId body) then w else snd (Date_now w) in
  (forall cartMandate paymentMethod,
      get_prop (req_data body) "cartMandate" = Ok cartMandate ->
      get_prop (req_data body) "paymentMethod" = Ok paymentMethod ->
      ToBoolean cartMandate = false \/ ToBoolean paymentMethod = false ->
      shopping_agent_handler "POST" body w
      = (Ok (mkResponse 400 (VObj [("error", VStr "Cart mandate and payment method required")])),
         w0))
  /\ (req_data body = VUndefined \/ req_data body = VNull ->
      exists details,
        shopping_agent_handler "POST" body w
        = (Ok (mkResponse 500 (VObj [ ("error", VStr "Failed to process request");
                                      ("details", VStr details) ])), w0)).
Proof.
  intros Hkey Hne Hact w0.
  rewrite shopping_agent_handler_POST, Hkey.
  destruct key as [|k0 key]; [congruence |].
  rewrite Hact. cbn [ToBoolean String.eqb negb]. rewrite andb_false_r. cbv zeta.
  fold w0.
  set (c := session_context_id (req_contextId body) w).
  assert (Hd : dispatch body c = create_payment_mandate (req_data body) c).
  { unfold dispatch. rewrite Hact. reflexivity. }
  rewrite Hd. unfold create_payment_mandate. split.
  - intros cartMandate paymentMethod Hcart Hmethod Hfalsy.
    unfold bind at 1. unfold lift at 1. rewrite Hcart. cbv beta iota.
    unfold bind at 1. unfold lift at 1. rewrite Hmethod. cbv beta iota.
    destruct Hfalsy as [-> | ->]; rewrite ?orb_true_r; reflexivity.
  - intros [-> | ->]; eexists; reflexivity.
Qed.

Lemma create_payment_mandate_shape (data context : value) (w w1 : World) (resp : Response) :
  create_payment_mandate data context w = (Ok resp, w1) ->
  status resp = 200%Z ->
  exists (fields : list (string * value)) (total : value) (response : list (string * value))
         (jws : JWS) (claims : PaymentMandateJWTPayload),
    json resp = payment_mandate_body (VObj fields) (JWS_compact jws) context /\
    jws_payload jws = PaymentPayload claims /\
    hashObject (VObj fields) = Ok (mandate_hash claims) /\
    get_path data ["cartMandate"; "contents"; "payment_request"; "details"; "total"] = Ok total /\
    map fst fields = payment_mandate_keys /\
    fields = set_field (set_field fields "payment_details_total" total)
                       "payment_response" (VObj response) /\
    (forall k, In k payment_mandate_keys -> assoc k response = None).
Proof.
  unfold create_payment_mandate, bind, lift, ret.
  intros H Hs.
  destruct (get_prop data "cartMandate") as [cartMandate|] eqn:E1; [| discriminate].
  destruct (get_prop data "paymentMethod") as [paymentMethod|] eqn:E2; [| discriminate].
  destruct (negb (ToBoolean cartMandate) || negb (ToBoolean paymentMethod)).
  { injection H as <- _. discriminate. }
  unfold Date_now, Math_random in H. cbn [clock clock_reads random random_draws fst snd] in H.
  repeat case_result.
  unfold signPaymentMandate, signPaymentMandate_jws, bind, lift, ret, Date_now in H.
  rewrite hashObject_VObj in H.
  cbn -[canonicalJson Z_to_string Z.div Z.add Z.mul slice] in H.
  injection H as <- <-.
  eexists _, _, _, _, _. split; [reflexivity |]. split; [reflexivity |].
  split; [apply hashObject_VObj |].
  split; [rewrite get_path_cons, E1; eassumption |].
  split; [reflexivity |]. split; [reflexivity |].
  intros k Hk. cbn [payment_mandate_keys In] in Hk.
  repeat (destruct Hk as [<- | Hk]; [reflexivity |]). destruct Hk.
Qed.

Lemma set_field_swap (fields : list (string * value)) (k1 k2 : string) (x y : value) :
  k1 <> k2 -> In k1 (map fst fields) -> In k2 (map fst fields) ->
  set_field (set_field fields k1 x) k2 y = set_field (set_field fields k2 y) k1 x.
Proof.
  intros Hne. induction fields as [|[k' v] fields IH]; cbn [map fst In]; [tauto |].
  intros H1 H2. cbn [set_field].
  destruct (String.eqb k' k1) eqn:E1, (String.eqb k' k2) eqn:E2; cbn [set_field];
    rewrite ?E1, ?E2; try reflexivity.
  - apply String.eqb_eq in E1, E2. congruence.
  - apply String.eqb_neq in E1, E2.
    destruct H1 as [H1 | H1], H2 as [H2 | H2]; try congruence.
    now rewrite IH.
Qed.

Lemma In_map_fst_set_field (fields : list (string * value)) (k k' : string) (x : value) :
  In k (map fst fields) -> In k' (map fst fields) -> In k' (map fst (set_field fields k x)).
Proof. intros Hk Hk'. now rewrite map_fst_set_field. Qed.

(** X24. The token of a payment mandate does not protect the total or the
    payment response.  When the total copied from the cart is an object
    with keys of its own (label, amount, ...), the mandate_hash in the token
    is also the digest of the mandate with any other such total and any
    other payment response in their place: only payment_mandate_id,
    payment_details_id, merchant_agent and timestamp enter the digest. *)
Theorem payment_mandate_digest_ignores_total_and_method
    (data context : value) (w w1 : World) (resp : Response) (total : list (string * value)) :
  create_payment_mandate data context w = (Ok resp, w1) ->
  status resp = 200%Z ->
  get_path data ["cartMandate"; "contents"; "payment_request"; "details"; "total"]
  = Ok (VObj total) ->
  (forall k, In k payment_mandate_keys -> assoc k total = None) ->
  exists (contents : value) (jws : JWS) (claims : PaymentMandateJWTPayload),
    json resp = payment_mandate_body contents (JWS_compact jws) context /\
    jws_payload jws = PaymentPayload claims /\
    get_prop contents "payment_details_total" = Ok (VObj total) /\
    hashObject contents = Ok (mandate_hash claims) /\
    forall total' response' : list (string * value),
      (forall k, In k payment_mandate_keys ->
                 assoc k total' = None /\ assoc k response' = None) ->
      hashObject
        (set_path (set_path contents ["payment_details_total"] (VObj total'))
                  ["payment_response"] (VObj response'))
      = Ok (mandate_hash claims).
Proof.
  intros Hrun Hstatus Htotal Hhidden.
  destruct (create_payment_mandate_shape _ _ _ _ _ Hrun Hstatus)
    as (fields & total0 & response & jws & claims & Hjson & Hpayload & Hhash & Htotal0 & Hkeys
        & Hfields & Hresponse).
  rewrite Htotal in Htotal0. injection Htotal0 as <-.
  assert (Hin : forall k, In k payment_mandate_keys -> In k (map fst fields))
    by (intros k; now rewrite Hkeys).
  assert (Ht : In "payment_details_total" (map fst fields)) by (apply Hin; cbn; tauto).
  assert (Hr : In "payment_response" (map fst fields)) by (apply Hin; cbn; tauto).
  assert (Hne : "payment_details_total" <> "payment_response") by discriminate.
  assert (Hinner : forall (T R : list (string * value)),
             (forall k, In k payment_mandate_keys -> assoc k T = None /\ assoc k R = None) ->
             hashObject (VObj (set_field (set_field fields "payment_details_total" (VObj T))
                                         "payment_response" (VObj R)))
             = hashObject (VObj (set_field (set_field fields "payment_details_total" (VObj []))
                                           "payment_response" (VObj [])))).
  { intros T R HTR.
    rewrite (hashObject_hidden_member _ "payment_response" R);
      [| now apply In_map_fst_set_field
       | intros k Hk; rewrite map_fst_set_field, Hkeys in Hk by exact Ht; now apply HTR].
    rewrite !(set_field_swap fields "payment_details_total" "payment_response")
      by assumption.
    rewrite (hashObject_hidden_member _ "payment_details_total" T);
      [reflexivity
      | now apply In_map_fst_set_field
      | intros k Hk; rewrite map_fst_set_field, Hkeys in Hk by exact Hr; now apply HTR]. }
  exists (VObj fields), jws, claims.
  split; [exact Hjson |]. split; [exact Hpayload |].
  split.
  { rewrite Hfields. cbn [get_prop]. unfold obj_get.
    rewrite !assoc_set_field_value. reflexivity. }
  split; [exact Hhash |].
  intros total' response' H'.
  cbn [set_path].
  rewrite (Hinner total' response' H').
  rewrite <- Hhash.
  transitivity (hashObject (VObj (set_field (set_field fields "payment_details_total" (VObj total))
                                            "payment_response" (VObj response))));
    [| now rewrite <- Hfields].
  symmetry. apply Hinner. intros k Hk. split; [now apply Hhidden | now apply Hresponse].
Qed.

(** ** Inspection of a token *)

Lemma length_split (sep : ascii) (s : string) :
  length (String_split sep s) = S (occurrences sep s).
Proof.
  induction s as [|c s IH]; [reflexivity |]. cbn [String_split occurrences].
  destruct (Ascii.eqb c sep); cbn [length Nat.add]; [now rewrite IH |].
  destruct (String_split sep s) as [|piece pieces]; [discriminate IH | exact IH].
Qed.

Lemma split_no_occurrence (sep : ascii) (s : string) :
  occurrences sep s = 0 -> String_split sep s = [s].
Proof.
  induction s as [|c s IH]; [reflexivity |]. cbn [String_split occurrences].
  destruct (Ascii.eqb c sep); [discriminate |]. cbn [Nat.add]. intros H. now rewrite IH.
Qed.

Lemma split_append (sep : ascii) (piece rest : string) :
  occurrences sep piece = 0 ->
  String_split sep (piece +:+ String sep rest) = piece :: String_split sep rest.
Proof.
  induction piece as [|c piece IH].
  - intros _. change (EmptyString +:+ String sep rest) with (String sep rest).
    cbn [String_split]. now rewrite Ascii.eqb_refl.
  - cbn [occurrences].
    change (String c piece +:+ String sep rest) with (String c (piece +:+ String sep rest)).
    cbn [String_split]. destruct (Ascii.eqb c sep); [discriminate |]. cbn [Nat.add].
    intros H. now rewrite IH.
Qed.

(** X25. [decodeJWT] asks for exactly three segments and reads two of
    them.  A token without exactly two dots is refused with the Error
    "Invalid JWT format".  For a token header.payload.signature the result
    is made of the decoded header and payload alone (the header is decoded
    first, and its error wins): the signature segment is not looked at, so
    any token with the same two first segments decodes alike. *)
Theorem decodeJWT_reads_header_and_payload_only
    (parse_segment : string -> Result value) (token : string) :
  (occurrences "." token <> 2 ->
   decodeJWT parse_segment token = Throw (Error "Invalid JWT format"))
  /\ (forall header payload signature : string,
        occurrences "." header = 0 -> occurrences "." payload = 0 ->
        occurrences "." signature = 0 ->
        token = header +:+ "." +:+ payload +:+ "." +:+ signature ->
        decodeJWT parse_segment token
        = match parse_segment header with
          | Throw e => Throw e
          | Ok h =>
              match parse_segment payload with
              | Throw e => Throw e
              | Ok p => Ok (VObj [("header", h); ("payload", p)])
              end
          end).
Proof.
  unfold decodeJWT. cbv zeta. split.
  - intros H. rewrite length_split.
    destruct (Nat.eqb_spec (S (occurrences "." token)) 3) as [E | E]; [| reflexivity].
    exfalso. apply H. now injection E.
  - intros header payload signature Hh Hp Hs ->.
    change (header +:+ "." +:+ payload +:+ "." +:+ signature)
      with (header +:+ String "." (payload +:+ String "." signature)).
    rewrite (split_append "." header _ Hh), (split_append "." payload _ Hp),
      (split_no_occurrence "." signature Hs).
    reflexivity.
Qed.

(** ** The payment processor *)

Lemma all_from_spec (f : Z -> bool) (count : nat) :
  forall n, all_from f n count = true ->
            forall i, (n <= i < n + Z.of_nat count)%Z -> f i = true.
Proof.
  induction count as [|k IH]; intros n H i Hi; [lia |].
  cbn [all_from] in H. apply andb_true_iff in H as [Hn Hrest].
  destruct (Z.eq_dec i n) as [-> | Hne]; [exact Hn |].
  apply (IH (n + 1)%Z Hrest). lia.
Qed.

Lemma cents_recovered_checked :
  all_from cents_recovered 1 (Z.to_nat 100000) = true.
Proof. vm_cast_no_check (eq_refl true). Qed.

Lemma whole_amounts_checked :
  all_from whole_amount_in_cents 1 (Z.to_nat 10000) = true.
Proof. vm_cast_no_check (eq_refl true). Qed.

Lemma payment_intent_params_number
    (StringToNumber : string -> float) (lower : string -> string)
    (amount : float) (currency name : string) (packageName cartId : value) :
  ToString_checked (js_or packageName (VStr "Package")) = Ok name ->
  payment_intent_params StringToNumber lower
    (mkPaymentIntentRequest (VNum amount) (VStr currency) packageName cartId)
  = Ok (VObj
          [ ("amount", VNum (Math_round (amount * 100)%float));
            ("currency",
             VStr (if all_ascii currency then toLowerCase currency else lower currency));
            ("automatic_payment_methods", VObj [("enabled", VBool true)]);
            ("metadata",
             VObj [ ("package_name", js_or packageName (VStr "Vacation Package"));
                    ("cart_id", js_or cartId (VStr "unknown"));
                    ("ap2_transaction", VStr "true") ]);
            ("description", VStr ("AP2 Vacation Booking: " +:+ name)) ]).
Proof.
  intros Hname. unfold payment_intent_params.
  cbn [req_amount req_currency req_packageName req_cartId ToNumber call_toLowerCase].
  now rewrite Hname.
Qed.

Lemma create_payment_intent_requests
    (StringToNumber : string -> float) (lower : string -> string)
    (amount : float) (currency name : string) (packageName cartId : value) (stripe : Stripe) :
  ToBoolean (VNum amount) = true ->
  currency <> EmptyString ->
  ToString_checked (js_or packageName (VStr "Package")) = Ok name ->
  exists params,
    stripe_requests
      (snd (create_payment_intent_handler StringToNumber lower "POST"
              (payment_intent_body (VNum amount) (VStr currency) packageName cartId) stripe))
    = stripe_requests stripe ++ [("paymentIntents.create", params)] /\
    get_prop params "amount" = Ok (VNum (Math_round (amount * 100)%float)) /\
    get_prop params "currency"
    = Ok (VStr (if all_ascii currency then toLowerCase currency else lower currency)).
Proof.
  intros Hamount Hcurrency Hname. unfold create_payment_intent_handler.
  change (negb (String.eqb "POST" "POST")) with false. cbv iota.
  change (PaymentIntentRequest_of (payment_intent_body (VNum amount) (VStr currency)
                                     packageName cartId))
    with (Ok (mkPaymentIntentRequest (VNum amount) (VStr currency) packageName cartId)).
  cbv iota. cbn [req_amount req_currency]. rewrite Hamount.
  destruct currency as [|c0 currency]; [congruence |].
  cbn [ToBoolean String.eqb negb orb]. cbv iota.
  rewrite (payment_intent_params_number _ _ _ _ name) by exact Hname.
  eexists. unfold stripe_request.
  destruct (stripe_answers stripe _ _ _) as [intent | error]; cbn [fst snd].
  - destruct (get_prop intent "client_secret"); [destruct (get_prop intent "id") |];
      cbn [snd stripe_requests]; (split; [reflexivity |]; split; reflexivity).
  - cbn [snd stripe_requests]. split; [reflexivity |]. split; reflexivity.
Qed.

(** X26. The amount Stripe is asked for.  For an amount of n cents
    (n from 1 to 100000, sent as the number n/100) and for an amount of n
    whole units (n from 1 to 10000), with a currency string, the handler
    makes one request, paymentIntents.create, whose amount is exactly n,
    respectively 100 n: the product with 100 in double precision is rounded
    back to the whole number of cents.  The currency is passed in lower
    case. *)
Theorem payment_intent_asks_for_exact_cents
    (StringToNumber : string -> float) (lower : string -> string)
    (n : Z) (currency name : string) (packageName cartId : value) (stripe : Stripe) :
  currency <> EmptyString ->
  ToString_checked (js_or packageName (VStr "Package")) = Ok name ->
  ((1 <= n <= 100000)%Z ->
   exists params cents,
     stripe_requests
       (snd (create_payment_intent_handler StringToNumber lower "POST"
               (payment_intent_body (VNum (amount_of_cents n)) (VStr currency)
                  packageName cartId) stripe))
     = stripe_requests stripe ++ [("paymentIntents.create", params)] /\
     get_prop params "amount" = Ok (VNum cents) /\
     PrimFloat.eqb cents (Z_to_float n) = true /\
     get_prop params "currency"
     = Ok (VStr (if all_ascii currency then toLowerCase currency else lower currency)))
  /\ ((1 <= n <= 10000)%Z ->
      exists params cents,
        stripe_requests
          (snd (create_payment_intent_handler StringToNumber lower "POST"
                  (payment_intent_body (VNum (Z_to_float n)) (VStr currency)
                     packageName cartId) stripe))
        = stripe_requests stripe ++ [("paymentIntents.create", params)] /\
        get_prop params "amount" = Ok (VNum cents) /\
        PrimFloat.eqb cents (Z_to_float (100 * n)) = true /\
        get_prop params "currency"
        = Ok (VStr (if all_ascii currency then toLowerCase currency else lower currency))).
Proof.
  intros Hcurrency Hname. split; intros Hn.
  - pose proof (all_from_spec _ _ _ cents_recovered_checked n ltac:(lia)) as Hchecked.
    unfold cents_recovered in Hchecked. apply andb_true_iff in Hchecked as [Htruthy Hcents].
    destruct (create_payment_intent_requests StringToNumber lower _ _ _ packageName cartId stripe
                Htruthy Hcurrency Hname) as (params & Hrequests & Hamount & Hlower).
    eauto 8.
  - pose proof (all_from_spec _ _ _ whole_amounts_checked n ltac:(lia)) as Hchecked.
    unfold whole_amount_in_cents in Hchecked.
    apply andb_true_iff in Hchecked as [Htruthy Hcents].
    destruct (create_payment_intent_requests StringToNumber lower _ _ _ packageName cartId stripe
                Htruthy Hcurrency Hname) as (params & Hrequests & Hamount & Hlower).
    eauto 8.
Qed.

(** X27. Stripe is contacted at most once for a request to create a
    payment intent, and only for a POST whose body has a truthy amount and a
    truthy currency from which the argument of paymentIntents.create can be
    built; in every other case the handler answers 405, 400 or 500 without a
    request to Stripe.  The answer is 200 only when Stripe returned an
    intent, and then carries its client_secret and id. *)
Theorem create_payment_intent_contacts_stripe_at_most_once
    (StringToNumber : string -> float) (lower : string -> string)
    (method : string) (body : value) (stripe : Stripe) :
  let answer := create_payment_intent_handler StringToNumber lower method body stripe in
  ((snd answer = stripe /\
    (status (fst answer) = 405 \/ status (fst answer) = 400 \/ status (fst answer) = 500)%Z)
   \/ (exists request params,
         method = "POST" /\
         PaymentIntentRequest_of body = Ok request /\
         ToBoolean (req_amount request) = true /\ ToBoolean (req_currency request) = true /\
         payment_intent_params StringToNumber lower request = Ok params /\
         snd answer = snd (stripe_request "paymentIntents.create" params stripe) /\
         (status (fst answer) = 200 \/ status (fst answer) = 500)%Z))
  /\ (status (fst answer) = 200%Z ->
      exists params intent,
        fst (stripe_request "paymentIntents.create" params stripe) = Ok intent /\
        json (fst answer) = VObj [ ("clientSecret", optional_get intent "client_secret");
                                   ("paymentIntentId", optional_get intent "id") ]).
Proof.
  cbv zeta. unfold create_payment_intent_handler.
  destruct (String.eqb_spec method "POST") as [-> | Hmethod]; cbn [negb].
  2: { cbn [fst snd status]. split; [left; split; [reflexivity | now left] | discriminate]. }
  destruct (PaymentIntentRequest_of body) as [request | error] eqn:Hbody.
  2: { cbn [fst snd status create_payment_intent_failed].
       split; [left; split; [reflexivity | right; now right] | discriminate]. }
  destruct (ToBoolean (req_amount request)) eqn:Hamount; cbn [negb orb].
  2: { cbn [fst snd status]. split; [left; split; [reflexivity | right; now left] | discriminate]. }
  destruct (ToBoolean (req_currency request)) eqn:Hcurrency; cbn [negb].
  2: { cbn [fst snd status]. split; [left; split; [reflexivity | right; now left] | discriminate]. }
  destruct (payment_intent_params StringToNumber lower request) as [params | error] eqn:Hparams.
  2: { cbn [fst snd status create_payment_intent_failed].
       split; [left; split; [reflexivity | right; now right] | discriminate]. }
  destruct (stripe_request "paymentIntents.create" params stripe) as [[intent | error] stripe']
    eqn:Hrequest.
  2: { cbn [fst snd status create_payment_intent_failed].
       split; [| discriminate]. right. exists request, params. rewrite Hrequest. cbn [snd].
       auto 10. }
  assert (Hget : forall p, get_prop intent p = Ok (optional_get intent p)
                           \/ exists e, get_prop intent p = Throw e).
  { intros p. destruct intent; cbn [get_prop optional_get]; eauto. }
  destruct (Hget "client_secret") as [-> | [e ->]].
  2: { cbn [fst snd status create_payment_intent_failed].
       split; [| discriminate]. right. exists request, params. rewrite Hrequest. cbn [snd].
       auto 10. }
  destruct (Hget "id") as [-> | [e ->]].
  2: { cbn [fst snd status create_payment_intent_failed].
       split; [| discriminate]. right. exists request, params. rewrite Hrequest. cbn [snd].
       auto 10. }
  cbn [fst snd status json]. split.
  - right. exists request, params. rewrite Hrequest. cbn [snd]. auto 10.
  - intros _. exists params, intent. rewrite Hrequest. split; reflexivity.
Qed.

(** X28. The confirmation reports a success only for a succeeded intent.
    If the answer says success: true, then the body named a payment intent,
    Stripe answered the paymentIntents.retrieve request for it with an intent
    whose status is "succeeded", and the amount reported is the amount of
    that intent divided by 100.  An intent in any other status is answered
    with success: false and "Payment not yet completed", still with HTTP
    status 200. *)
Theorem confirm_payment_success_only_when_succeeded
    (StringToNumber : string -> float) (method : string) (body : value) (stripe : Stripe) :
  let answer := confirm_payment_handler StringToNumber method body stripe in
  (get_prop (json (fst answer)) "success" = Ok (VBool true) ->
   exists paymentIntentId intent cents amount,
     destructure body "paymentIntentId" = Ok paymentIntentId /\
     stripe_answers stripe (length (stripe_requests stripe)) "paymentIntents.retrieve"
       paymentIntentId = Ok intent /\
     get_prop intent "status" = Ok (VStr "succeeded") /\
     get_prop intent "amount" = Ok cents /\
     ToNumber StringToNumber cents = Ok amount /\
     fst answer
     = mkResponse 200 (VObj [ ("success", VBool true);
                              ("status", VStr "succeeded");
                              ("amount", VNum (amount / 100)%float);
                              ("currency", optional_get intent "currency") ]))
  /\ (forall paymentIntentId intent intent_status,
        method = "POST" ->
        destructure body "paymentIntentId" = Ok paymentIntentId ->
        ToBoolean paymentIntentId = true ->
        stripe_answers stripe (length (stripe_requests stripe)) "paymentIntents.retrieve"
          paymentIntentId = Ok intent ->
        get_prop intent "status" = Ok intent_status ->
        intent_status <> VStr "succeeded" ->
        fst answer
        = mkResponse 200 (VObj [ ("success", VBool false);
                                 ("status", intent_status);
                                 ("error", VStr "Payment not yet completed") ])).
Proof.
  cbv zeta. unfold confirm_payment_handler, stripe_request. split.
  - destruct (negb (String.eqb method "POST")); [discriminate |].
    destruct (destructure body "paymentIntentId") as [paymentIntentId | error]; [| discriminate].
    destruct (negb (ToBoolean paymentIntentId)); [discriminate |].
    destruct (stripe_answers stripe _ _ _) as [intent | error] eqn:Hanswer; [| discriminate].
    destruct (get_prop intent "status") as [intent_status | error] eqn:Hstatus; [| discriminate].
    destruct (strict_eq_str intent_status "succeeded") eqn:Hsucceeded; [| discriminate].
    apply strict_eq_str_true in Hsucceeded. subst intent_status.
    destruct intent as [ | | | | | | fields]; try discriminate Hstatus;
      try (cbn [get_prop] in Hstatus; discriminate Hstatus).
    cbn [get_prop optional_get].
    destruct (ToNumber StringToNumber (obj_get fields "amount")) as [amount | error] eqn:Hamount;
      [| discriminate].
    intros _. exists paymentIntentId, (VObj fields), (obj_get fields "amount"), amount.
    cbn [get_prop fst]. repeat split; assumption.
  - intros paymentIntentId intent intent_status -> Hbody Hid Hanswer Hstatus Hother.
    change (negb (String.eqb "POST" "POST")) with false. cbv iota.
    rewrite Hbody, Hid. cbn [negb]. cbv iota. rewrite Hanswer, Hstatus.
    apply strict_eq_str_false in Hother. rewrite Hother. reflexivity.
Qed.

End Program.

(** * The statements at concrete inputs *)

Lemma run_eq {A} (m : M A) (w : World) (a : A) :
  fst (m w) = Ok a -> m w = (Ok a, snd (m w)).
Proof. destruct (m w) as [r w']. cbn [fst snd]. intros ->. reflexivity. Qed.

(** Runs [m] in [w] and records the equation of the run as [E]. *)
Ltac run_at m w E :=
  let r := eval vm_compute in (fst (m w)) in
  lazymatch r with
  | Ok ?a => assert (E : m w = (Ok a, snd (m w))) by (apply run_eq; vm_compute; reflexivity)
  end.

(** C6, as stated, fails: in a world whose clock reads the same millisecond
    and whose generator gives the same number for both attempts, the retry
    is answered with the very same payment mandate, id and token included. *)
Lemma C6_counterexample :
  exists (body : ShoppingRequest) (w : World),
    body = confirm_payment_request /\ w = frozen_world /\
    forall pf : Platform,
    exists resp w1 w2,
      shopping_agent_handler "POST" body w = (Ok resp, w1) /\
      shopping_agent_handler "POST" body w1 = (Ok resp, w2) /\
      status resp = 200%Z /\
      get_path (json resp) ["payment_mandate"; "payment_mandate_contents"; "payment_mandate_id"]
        = Ok (VStr ("pm-1762077600000-" +:+ slice (Number_toString36 0.5%float) 2 11)).
Proof.
  exists confirm_payment_request, frozen_world.
  split; [reflexivity |]. split; [reflexivity |].
  intros pf.
  lazymatch eval vm_compute in
    (get_path selected_cart_mandate ["contents"; "payment_request"; "details"]) with
  | Ok (VObj ?details) =>
      apply (retry_repeats_mandate_in_still_world
               confirm_payment_request frozen_world "sk-or-example"
               selected_cart_mandate primary_visa details)
  end; try reflexivity.
  discriminate.
Qed.

(** C7, as stated, fails: for a price of 4999 the three amounts, added in
    the order of the items, do not give the total; for a price of 9.53 they
    do not in any order. *)
Lemma C7_counterexample :
  total_value (cart_priced 4999) = Some 4999%float /\
  display_item_amounts (cart_priced 4999)
    = Some [4999 * 0.85; 4999 * 0.05; 4999 * 0.10]%float /\
  amounts_sum_to_total (cart_priced 4999) = false /\
  amounts_sum_to_total_in_some_order (cart_priced 9.53) = false.
Proof. repeat split; vm_compute; reflexivity. Qed.

#[local] Existing Instance example_platform.

Lemma C2_witness :
  unique_keys contents_written_one_way = true /\
  same_up_to_key_order contents_written_one_way contents_written_another_way /\
  hashObject contents_written_one_way = hashObject contents_written_another_way.
Proof.
  assert (Hu : unique_keys contents_written_one_way = true) by (vm_compute; reflexivity).
  assert (Hs : same_up_to_key_order contents_written_one_way contents_written_another_way).
  { unfold contents_written_one_way, contents_written_another_way.
    eapply same_object.
    - etransitivity; [apply perm_skip, perm_swap | apply perm_swap].
    - constructor; [split; [reflexivity |] | repeat constructor].
      eapply same_object; [apply perm_swap | repeat constructor]. }
  split; [exact Hu |]. split; [exact Hs |].
  exact (C2_digest_ignores_key_order _ _ Hu Hs).
Defined.

Lemma C4_witness :
  spec_first_match (parts empty_identity_envelope) "shopping_agent_id" = Some (VStr EmptyString) /\
  VStr EmptyString <> VStr "trusted_shopping_agent" /\
  (exists resp w',
      merchant_handler "POST" empty_identity_envelope ticking_world = (Ok resp, w') /\
      status resp = 200%Z) /\
  (exists resp w',
      credentials_provider_handler "POST" empty_identity_envelope ticking_world
      = (Ok resp, w') /\
      status resp = 200%Z /\
      get_path (json resp) ["task"; "result"; "parts"]
      = Ok (VArr [ VObj [ ("type", VStr "text");
                          ("text",
                           VStr "Here are your available payment methods from your wallet.") ];
                   VObj [ ("type", VStr "data");
                          ("data", VObj [("payment_methods", USER_PAYMENT_METHODS)]) ] ])).
Proof.
  destruct (C4_falsy_identity_is_passed_over
              empty_identity_envelope (VStr EmptyString)
              [ TextPart "Get available payment methods for user";
                DataPart [("action", VStr "get_payment_methods")] ]
              ticking_world eq_refl eq_refl)
    as (Hfirst & Hdiffers & (r1 & w1 & E1 & _) & (r2 & w2 & E2 & _)).
  split; [exact Hfirst |]. split; [exact Hdiffers |]. split.
  - exists r1, w1. split; [exact E1 |].
    apply (f_equal (fun run => match fst run with Ok r => status r | Throw _ => 0%Z end)) in E1.
    cbn [fst] in E1. rewrite <- E1. vm_compute. reflexivity.
  - exists r2, w2. split; [exact E2 |].
    assert (E : fst (credentials_provider_handler "POST" empty_identity_envelope ticking_world)
                = Ok r2) by now rewrite E2.
    vm_compute in E. injection E as <-. split; reflexivity.
Defined.

Lemma C10_witness :
  extractDataFromMessage initiate_payment_envelope "action" = VStr "initiate_payment" /\
  exists id reply w',
    credentials_provider_handler "POST" initiate_payment_envelope ticking_world
      = (Ok (mkResponse 200 (task_body id reply)), w') /\
    parts reply = [ TextPart "Here are your available payment methods from your wallet.";
                    DataPart [("payment_methods", USER_PAYMENT_METHODS)] ] /\
    context_id reply = context_id initiate_payment_envelope.
Proof.
  split; [reflexivity |].
  apply (C10_text_dispatch_precedes_initiate_payment initiate_payment_envelope ticking_world).
  - reflexivity.
  - reflexivity.
  - exists "pay with the chosen ", EmptyString. reflexivity.
Defined.

Lemma C3_witness :
  exists contents authorization context w',
    shopping_agent_handler "POST" confirm_payment_request ticking_world
      = (Ok (mkResponse 200 (payment_mandate_body contents authorization context)), w') /\
    get_prop contents "payment_details_total"
      = Ok (VObj [ ("label", VStr "Total Amount");
                   ("amount", VObj [("currency", VStr "USD"); ("value", VNum 4999%float)]);
                   ("refund_period", VNum 30%float) ]) /\
    get_prop contents "payment_details_id" = Ok (VStr "payment-1762077600000").
Proof.
  destruct (C3_payment_mandate_copies_cart_total
              confirm_payment_request ticking_world "sk-or-example"
              selected_cart_mandate primary_visa
              [ ("id", VStr "payment-1762077600000");
                ("display_items", VArr
                   [ VObj [ ("label", VStr "Island Retreat");
                            ("amount", VObj [ ("currency", VStr "USD");
                                              ("value", VNum (4999 * 0.85)%float) ]);
                            ("refund_period", VNum 30%float) ];
                     VObj [ ("label", VStr "Travel Insurance");
                            ("amount", VObj [ ("currency", VStr "USD");
                                              ("value", VNum (4999 * 0.05)%float) ]) ];
                     VObj [ ("label", VStr "Service Fee");
                            ("amount", VObj [ ("currency", VStr "USD");
                                              ("value", VNum (4999 * 0.10)%float) ]) ] ]);
                ("total", VObj
                   [ ("label", VStr "Total Amount");
                     ("amount", VObj [("currency", VStr "USD"); ("value", VNum 4999%float)]);
                     ("refund_period", VNum 30%float) ]) ])
    as (contents & authorization & context & w' & Hrun & Htotal & Hid);
    try reflexivity; try discriminate.
  exists contents, authorization, context, w'.
  split; [exact Hrun |]. split; [rewrite Htotal | rewrite Hid]; reflexivity.
Defined.

Lemma C5_witness :
  JWS_parse (example_compact forged_jws) = Some forged_jws /\
  JWS_parse (example_compact expired_jws) = Some expired_jws /\
  verifyJWT (example_compact forged_jws) ticking_world
    = (Throw (verification_failed "JWSSignatureVerificationFailed"), ticking_world) /\
  verifyJWT (example_compact expired_jws) ticking_world
    = (Throw (verification_failed "JWTExpired"), snd (Date_now ticking_world)).
Proof.
  assert (Hf : JWS_parse (example_compact forged_jws) = Some forged_jws) by reflexivity.
  assert (He : JWS_parse (example_compact expired_jws) = Some expired_jws) by reflexivity.
  split; [exact Hf |]. split; [exact He |]. split.
  - refine (proj1 (C5_verifyJWT_failures_differ_in_message_only
                     (example_compact forged_jws) forged_jws _ ticking_world Hf eq_refl) _).
    vm_compute. discriminate.
  - refine (proj1 (proj2 (C5_verifyJWT_failures_differ_in_message_only
                     (example_compact expired_jws) expired_jws _ ticking_world He eq_refl))
              1000%Z eq_refl eq_refl _).
    vm_compute. discriminate.
Defined.

(** C5, as stated, fails: whatever makes the verification fail, the error
    thrown is the generic [Error]; a forged signature and a passed expiry
    give two errors of that one class. *)
Lemma C5_counterexample :
  (exists e1 e2 w1 w2,
      verifyJWT (example_compact forged_jws) ticking_world = (Throw e1, w1) /\
      verifyJWT (example_compact expired_jws) ticking_world = (Throw e2, w2) /\
      exn_name e1 = "Error" /\ exn_name e2 = "Error") /\
  (forall (pf : Platform) (token : string) (w : World) (e : Exception),
      fst (verifyJWT token w) = Throw e -> exn_name e = "Error").
Proof.
  split.
  - eexists _, _, _, _. split; [reflexivity |].
    split; [reflexivity |]. split; reflexivity.
  - intros pf token w e. apply verifyJWT_throws_only_Error.
Qed.

Lemma C6_witness :
  exists (tokens : list JWS) resp1 resp2 w1 w2 token1 token2,
    create_payment_mandate (pf := platform_with_tokens tokens)
      (req_data confirm_payment_request) (VStr "ctx-1") ticking_world = (Ok resp1, w1) /\
    create_payment_mandate (pf := platform_with_tokens tokens)
      (req_data confirm_payment_request) (VStr "ctx-1") w1 = (Ok resp2, w2) /\
    clock ticking_world (clock_reads ticking_world) <> clock w1 (clock_reads w1) /\
    get_path (json resp1) ["payment_mandate"; "user_authorization"] = Ok (VStr token1) /\
    get_path (json resp2) ["payment_mandate"; "user_authorization"] = Ok (VStr token2) /\
    get_path (json resp1) ["payment_mandate"; "payment_mandate_contents"; "payment_mandate_id"]
    <> get_path (json resp2)
         ["payment_mandate"; "payment_mandate_contents"; "payment_mandate_id"] /\
    token1 <> token2.
Proof.
  pose (run0 := create_payment_mandate (pf := platform_with_tokens [])
                  (req_data confirm_payment_request) (VStr "ctx-1")).
  pose (v1 := snd (run0 ticking_world)).
  pose (sign := fun contents => signPaymentMandate_jws (pf := platform_with_tokens []) contents).
  lazymatch eval vm_compute in
    (get_path (match fst (run0 ticking_world) with Ok r => json r | Throw _ => VNull end)
       ["payment_mandate"; "payment_mandate_contents"],
     get_path (match fst (run0 v1) with Ok r => json r | Throw _ => VNull end)
       ["payment_mandate"; "payment_mandate_contents"]) with
  | (Ok ?c1, Ok ?c2) =>
      lazymatch eval vm_compute in
        (fst (sign c1 (at_signing ticking_world)), fst (sign c2 (at_signing v1))) with
      | (Ok ?j1, Ok ?j2) => pose (tokens := [j1; j2])
      end
  end.
  pose (run := create_payment_mandate (pf := platform_with_tokens tokens)
                 (req_data confirm_payment_request) (VStr "ctx-1")).
  run_at run ticking_world E1.
  pose (w1 := snd (run ticking_world)).
  run_at run w1 E2.
  assert (Hclock : clock ticking_world (clock_reads ticking_world) <> clock w1 (clock_reads w1))
    by (vm_compute; discriminate).
  destruct (C6_retry_differs_when_clock_or_draw_differs (pf := platform_with_tokens tokens)
              _ _ _ _ _ _ _ E1 E2 eq_refl eq_refl (or_introl Hclock))
    as (c1 & c2 & j1 & j2 & id1 & id2 & Hj1 & Hj2 & Hid1 & Hid2 & Hids & _ & Hs1 & Hs2 & Htokens).
  cbn [json] in Hj1, Hj2. unfold payment_mandate_body in Hj1, Hj2.
  injection Hj1 as Hc1 Ht1. injection Hj2 as Hc2 Ht2. subst c1 c2.
  vm_compute in Hs1. vm_compute in Hs2. injection Hs1 as <-. injection Hs2 as <-.
  lazymatch type of E1 with _ = (Ok ?r1, _) =>
    lazymatch type of E2 with _ = (Ok ?r2, _) =>
      exists tokens, r1, r2, w1, (snd (run w1)) end end.
  eexists _, _.
  split; [exact E1 |]. split; [exact E2 |]. split; [exact Hclock |].
  split; [reflexivity |]. split; [reflexivity |].
  split; [vm_compute; discriminate |].
  apply Htokens; vm_compute; reflexivity.
Defined.

Lemma C9_witness :
  exists resp1 w1 resp2 w2,
    shopping_agent_handler "POST" (search_request (VStr EmptyString))
      (deployed ticking_world ticking_world)
      = (Ok resp1, w1) /\
    status resp1 = 200%Z /\
    get_prop (json resp1) "context_id" = Ok (VStr "ctx-1762077600000") /\
    shopping_agent_handler "POST" (search_request (VStr "ctx-1762077600000")) w1
      = (Ok resp2, w2) /\
    length (sent w2) = 2%nat /\
    Forall (fun e => context_id (snd e) = VStr "ctx-1762077600000") (sent w2).
Proof.
  pose (body1 := search_request (VStr EmptyString)).
  pose (body2 := search_request (VStr "ctx-1762077600000")).
  pose (first_request := shopping_agent_handler "POST" body1).
  pose (second_request := shopping_agent_handler "POST" body2).
  pose (w0 := deployed ticking_world ticking_world).
  run_at first_request w0 E1.
  pose (w1 := snd (first_request w0)).
  run_at second_request w1 E2.
  pose (w2 := snd (second_request w1)).
  lazymatch type of E1 with _ = (Ok ?r1, _) =>
    lazymatch type of E2 with _ = (Ok ?r2, _) =>
      pose (resp1 := r1); pose (resp2 := r2) end end.
  exists resp1, w1, resp2, w2.
  split; [exact E1 |]. split; [reflexivity |]. split; [reflexivity |]. split; [exact E2 |].
  split; [vm_compute; reflexivity |].
  lazymatch eval vm_compute in (sent w1, drop 1 (sent w2)) with
  | (?n1, ?n2) => pose (new1 := n1); pose (new2 := n2) end.
  assert (H1 : sent w1 = sent w0 ++ new1) by (vm_compute; reflexivity).
  assert (H2 : sent w2 = sent w1 ++ new2) by (vm_compute; reflexivity).
  assert (H : sent w2 = new1 ++ new2) by (vm_compute; reflexivity).
  assert (A1 : status resp1 = 200%Z) by reflexivity.
  assert (A2 : get_prop (json resp1) "context_id" = Ok (VStr "ctx-1762077600000"))
    by reflexivity.
  assert (A3 : req_contextId body2 = VStr "ctx-1762077600000") by reflexivity.
  assert (B1 : shopping_agent_handler "POST" body1 w0 = (Ok resp1, w1)) by exact E1.
  assert (B2 : shopping_agent_handler "POST" body2 w1 = (Ok resp2, w2)) by exact E2.
  pose proof (proj2 (proj2 (proj2 (proj2 C9_context_id_is_threaded)))
               body1 body2 w0 w1 w2 resp1 resp2 (VStr "ctx-1762077600000")
               new1 new2 B1 A1 A2 A3 B2 H1 H2) as F.
  exact (eq_ind_r (Forall _) F H).
Defined.

Lemma C7_witness :
  exists gap,
    rounding_gap (cart_priced 4999) = Some gap /\
    PrimFloat.leb gap (ulp_bound 4999) = true /\
    PrimFloat.ltb 0 gap = true.
Proof.
  destruct (proj2 (proj2 (proj2 (proj2 (proj2
              (C7_cart_line_items (package_priced 4999) "cart-1762077600000-k3j2h1g0f"
                 "2026-11-02T12:00:00.000Z" "payment-1762077600000")))))
              4999%Z ltac:(lia) eq_refl) as (gap & Hgap & Hle).
  exists gap. split; [exact Hgap |]. split; [exact Hle |].
  vm_compute in Hgap. injection Hgap as <-. vm_compute. reflexivity.
Defined.

(** ** The further properties at concrete inputs *)

Lemma first_truthy_part_witness :
  ~ In "flag" Object_prototype_names /\
  exists before data after,
    parts falsy_then_truthy = before ++ DataPart data :: after /\
    (forall d, In (DataPart d) before -> ToBoolean (obj_get d "flag") = false) /\
    ToBoolean (obj_get data "flag") = true /\
    extractDataFromMessage falsy_then_truthy "flag" = obj_get data "flag".
Proof.
  assert (Hkey : ~ In "flag" Object_prototype_names).
  { cbn [Object_prototype_names In]. intuition discriminate. }
  split; [exact Hkey |].
  destruct (proj1 (extractDataFromMessage_first_truthy_part falsy_then_truthy "flag" Hkey))
    as [[Hnull _] | Hfound]; [discriminate Hnull | exact Hfound].
Defined.

Lemma lookup_after_addData_witness :
  ~ In "cart_mandates" Object_prototype_names /\
  extractDataFromMessage
    (build (addData "cart_mandates" (VArr []) anonymous_envelope)) "cart_mandates"
  = VArr [] /\
  extractDataFromMessage
    (build (addData "action" (VStr "initiate_payment") anonymous_envelope)) "action"
  = VStr "get_payment_methods".
Proof.
  assert (Hkey : ~ In "cart_mandates" Object_prototype_names).
  { cbn [Object_prototype_names In]. intuition discriminate. }
  assert (Hkey' : ~ In "action" Object_prototype_names).
  { cbn [Object_prototype_names In]. intuition discriminate. }
  split; [exact Hkey |]. split.
  - exact (proj1 (extractDataFromMessage_after_addData anonymous_envelope
                    "cart_mandates" "cart_mandates" (VArr []) EmptyString
                    ltac:(discriminate) Hkey)).
  - exact (proj1 (extractDataFromMessage_after_addData anonymous_envelope
                    "action" "action" (VStr "initiate_payment") EmptyString
                    ltac:(discriminate) Hkey')).
Defined.

Lemma builder_ids_witness :
  exists m1 m2 w1 w2,
    A2AMessageBuilder ticking_world = (Ok m1, w1) /\
    A2AMessageBuilder w1 = (Ok m2, w2) /\
    message_id m1 <> message_id m2.
Proof.
  run_at A2AMessageBuilder ticking_world E1.
  pose (w1 := snd (A2AMessageBuilder ticking_world)).
  run_at A2AMessageBuilder w1 E2.
  lazymatch type of E1 with _ = (Ok ?m1, _) =>
    lazymatch type of E2 with _ = (Ok ?m2, _) => exists m1, m2, w1, (snd (A2AMessageBuilder w1)) end end.
  split; [exact E1 |]. split; [exact E2 |].
  intros Heq. apply (A2AMessageBuilder_ids_differ _ _ _ _ _ _ E1 E2) in Heq as [Hclock _].
  vm_compute in Hclock. discriminate Hclock.
Defined.

Lemma nested_members_witness :
  exists fields inner1 inner2,
    cart_priced 4999 = VObj (set_field fields "payment_request" (VObj inner1)) /\
    get_path (VObj inner1) ["details"; "total"; "amount"; "value"] = Ok (VNum 4999%float) /\
    get_path (VObj inner2) ["details"; "total"; "amount"; "value"] = Ok (VNum 1%float) /\
    hashObject (VObj (set_field fields "payment_request" (VObj inner1)))
    = hashObject (VObj (set_field fields "payment_request" (VObj inner2))).
Proof.
  lazymatch eval cbv [cart_priced cartContents_of package_priced pkg_image_url pkg_name
                      pkg_currency pkg_price] in (cart_priced 4999) with
  | VObj ?fields =>
      lazymatch eval cbv in (assoc "payment_request" fields) with
      | Some (VObj ?inner1) =>
          exists fields, inner1,
            [("details", VObj [("total", VObj [("amount", VObj [("value", VNum 1%float)])])])]
      end
  end.
  split; [reflexivity |]. split; [reflexivity |]. split; [reflexivity |].
  apply hashObject_ignores_nested_members.
  - cbn. tauto.
  - intros k Hk. cbn [map fst In] in Hk.
    repeat (destruct Hk as [<- | Hk]; [split; reflexivity |]). destruct Hk.
Defined.

Lemma cart_token_witness :
  exists (tokens : list JWS) (jws : JWS) (w1 : World) (claims : CartMandateJWTPayload),
    signCartMandate_jws (pf := platform_with_tokens tokens) (cart_priced 4999) ticking_world
    = (Ok jws, w1) /\
    JWS_parse (Platform := platform_with_tokens tokens) (example_compact jws) = Some jws /\
    jws_payload jws = CartPayload claims /\
    c_exp claims = Some 1762078500%Z /\
    verifyJWT (pf := platform_with_tokens tokens) (example_compact jws) w1
    = (Ok (CartPayload claims), snd (Date_now w1)) /\
    verifyJWT (pf := platform_with_tokens tokens) (example_compact jws)
      (mkWorld (fun _ => 1762078500000%Z) 0 (random w1) 0 (chat_model w1) (selection_model w1) 0
               None [] unreachable)
    = (Throw (verification_failed (pf := platform_with_tokens tokens) "JWTExpired"),
       snd (Date_now (mkWorld (fun _ => 1762078500000%Z) 0 (random w1) 0 (chat_model w1)
                              (selection_model w1) 0 None [] unreachable))).
Proof.
  pose (sign := signCartMandate_jws (pf := platform_with_tokens []) (cart_priced 4999)).
  run_at sign ticking_world E.
  lazymatch type of E with
  | _ = (Ok ?jws, _) =>
      exists [jws], jws, (snd (sign ticking_world));
      assert (Hparse : JWS_parse (Platform := platform_with_tokens [jws]) (example_compact jws)
                       = Some jws) by (vm_compute; reflexivity);
      assert (Hsign : signCartMandate_jws (pf := platform_with_tokens [jws]) (cart_priced 4999)
                        ticking_world = (Ok jws, snd (sign ticking_world))) by exact E
  end.
  set (w1 := snd (sign ticking_world)) in *.
  set (later := mkWorld (fun _ => 1762078500000%Z) 0 (random w1) 0 (chat_model w1)
                        (selection_model w1) 0 None [] unreachable).
  destruct (cart_token_verifies_for_fifteen_minutes _ _ _ w1 _ Hsign Hparse)
    as (claims & Hpayload & _ & _ & Hexp & Hvalid & _).
  destruct (cart_token_verifies_for_fifteen_minutes _ _ _ later _ Hsign Hparse)
    as (claims' & Hpayload' & _ & _ & _ & _ & Hexpired).
  exists claims.
  split; [exact Hsign |]. split; [exact Hparse |]. split; [exact Hpayload |].
  split; [rewrite Hexp; vm_compute; reflexivity |].
  split.
  - apply Hvalid. vm_compute. reflexivity.
  - apply Hexpired. vm_compute. discriminate.
Defined.

Lemma payment_token_witness :
  exists (tokens : list JWS) (jws : JWS) (w1 : World) (claims : PaymentMandateJWTPayload),
    signPaymentMandate_jws (pf := platform_with_tokens tokens) example_payment_mandate_contents
      ticking_world = (Ok jws, w1) /\
    JWS_parse (Platform := platform_with_tokens tokens) (example_compact jws) = Some jws /\
    jws_payload jws = PaymentPayload claims /\
    p_exp claims = Some 1762081200%Z /\
    verifyJWT (pf := platform_with_tokens tokens) (example_compact jws) w1
    = (Ok (PaymentPayload claims), snd (Date_now w1)).
Proof.
  pose (sign := signPaymentMandate_jws (pf := platform_with_tokens [])
                  example_payment_mandate_contents).
  run_at sign ticking_world E.
  lazymatch type of E with
  | _ = (Ok ?jws, _) =>
      exists [jws], jws, (snd (sign ticking_world));
      assert (Hparse : JWS_parse (Platform := platform_with_tokens [jws]) (example_compact jws)
                       = Some jws) by (vm_compute; reflexivity);
      assert (Hsign : signPaymentMandate_jws (pf := platform_with_tokens [jws])
                        example_payment_mandate_contents ticking_world
                      = (Ok jws, snd (sign ticking_world))) by exact E
  end.
  set (w1 := snd (sign ticking_world)) in *.
  destruct (payment_token_verifies_for_one_hour _ _ _ w1 _ Hsign Hparse)
    as (claims & Hpayload & _ & _ & _ & Hexp & Hvalid & _).
  exists claims.
  split; [exact Hsign |]. split; [exact Hparse |]. split; [exact Hpayload |].
  split; [rewrite Hexp; vm_compute; reflexivity |].
  apply Hvalid. vm_compute. reflexivity.
Defined.

Lemma verifyJWT_accepts_witness :
  exists (tokens : list JWS) (token : string) (payload : JWTPayload) (w' : World) (jws : JWS),
    verifyJWT (pf := platform_with_tokens tokens) token ticking_world = (Ok payload, w') /\
    JWS_parse (Platform := platform_with_tokens tokens) token = Some jws /\
    jws_payload jws = payload /\
    jose_mac (pf := platform_with_tokens tokens) (jws_header jws) payload
    = Some (jws_signature jws).
Proof.
  pose (genuine := mkJWS example_header (example_claims 1762078500)
                     (example_HS256 "example-secret" example_header (example_claims 1762078500))).
  pose (verify := verifyJWT (pf := platform_with_tokens [genuine]) (example_compact genuine)).
  run_at verify ticking_world E.
  destruct (verifyJWT_accepts_only_valid_tokens (pf := platform_with_tokens [genuine])
              _ _ _ _ E) as (jws & Hparse & Hpayload & Hmac & _ & _).
  lazymatch type of E with
  | _ = (Ok ?payload, ?w') => exists [genuine], (example_compact genuine), payload, w', jws
  end.
  split; [exact E |]. split; [exact Hparse |]. split; [exact Hpayload | exact Hmac].
Defined.


Lemma initiate_payment_witness :
  (credentials_provider_handler "POST" pay_envelope_without_mandate ticking_world
   = (Ok (mkResponse 500
            (VObj [ ("error", VStr "Failed to process credentials provider request");
                    ("details", VStr "Payment mandate required for payment initiation") ])),
      ticking_world))
  /\ exists id reply w',
       credentials_provider_handler "POST" pay_envelope ticking_world
       = (Ok (mkResponse 200 (task_body id reply)), w') /\
       parts reply = [ TextPart "Payment mandate received and verified.";
                       DataPart [("payment_status", VStr "ready")] ] /\
       context_id reply = context_id pay_envelope.
Proof.
  split.
  - apply (credentials_provider_initiate_payment pay_envelope_without_mandate ticking_world);
      reflexivity.
  - apply (credentials_provider_initiate_payment pay_envelope ticking_world);
      try reflexivity. discriminate.
Defined.

Lemma unknown_action_witness :
  exists id reply w',
    credentials_provider_handler "POST" refund_envelope ticking_world
    = (Ok (mkResponse 200 (task_body id reply)), w') /\
    parts reply = [TextPart "Unknown action requested."] /\
    context_id reply = context_id refund_envelope.
Proof.
  apply (credentials_provider_unknown_action refund_envelope ticking_world);
    try reflexivity; discriminate.
Defined.

Lemma payment_methods_witness :
  exists envelope w',
    shopping_agent_handler "POST" payment_methods_request_body
      (deployed ticking_world ticking_world)
    = (Ok (mkResponse 200
             (VObj [ ("payment_methods", USER_PAYMENT_METHODS);
                     ("context_id", VStr "ctx-1762077000000") ])), w') /\
    sent w' = [("/api/agents/credentials-provider", envelope)] /\
    parts envelope
    = [ TextPart "Get available payment methods for user";
        DataPart [("action", VStr "get_payment_methods")];
        DataPart [("shopping_agent_id", VStr "trusted_shopping_agent")] ] /\
    context_id envelope = VStr "ctx-1762077000000".
Proof.
  apply (orchestrator_lists_payment_methods payment_methods_request_body
           (deployed ticking_world ticking_world)); [reflexivity | reflexivity |].
  apply deployed_serves_credentials_provider.
Defined.

Lemma unanswered_request_witness :
  (exists w',
      shopping_agent_handler "POST" payment_methods_request_body ticking_world
      = (Ok (mkResponse 500 (VObj [ ("error", VStr "Failed to process request");
                                    ("details", VStr "fetch failed") ])), w') /\
      length (sent w') = 1) /\
  (exists w',
      shopping_agent_handler "POST" payment_methods_request_body
        (with_network rejecting ticking_world)
      = (Ok (mkResponse 500
               (VObj [ ("error", VStr "Failed to process request");
                       ("details",
                        VStr "Cannot read properties of undefined (reading 'result')") ])),
         w') /\
      length (sent w') = 1).
Proof.
  split.
  - destruct (proj1 (orchestrator_reports_unanswered_request payment_methods_request_body
                       ticking_world eq_refl eq_refl)
                (TypeError "fetch failed") eq_refl) as (w' & Hrun & Hsent).
    exists w'. split; [exact Hrun | now rewrite Hsent].
  - destruct (proj2 (orchestrator_reports_unanswered_request payment_methods_request_body
                       (with_network rejecting ticking_world) eq_refl eq_refl)
                [("error", VStr "Unauthorized shopping agent")] eq_refl eq_refl)
      as (w' & Hrun & Hsent).
    exists w'. split; [exact Hrun | now rewrite Hsent].
Defined.

Lemma earlier_conversation_plain : Forall plain_message earlier_conversation.
Proof.
  unfold earlier_conversation.
  repeat (apply List.Forall_cons;
          [split; [unfold SystemMessage, HumanMessage, AIMessage; cbn [msg_type]; tauto
                  | unfold SystemMessage, HumanMessage, AIMessage; cbn [msg_content]; eauto] |]).
  apply List.Forall_nil.
Qed.

Lemma history_round_trip_witness :
  Forall plain_message earlier_conversation /\
  deserializeHistory (serializeHistory earlier_conversation) = Ok earlier_conversation /\
  deserializeHistory (over_the_wire (serializeHistory earlier_conversation))
  = Ok earlier_conversation.
Proof.
  split; [exact earlier_conversation_plain |].
  exact (deserializeHistory_inverts_serializeHistory _ earlier_conversation_plain).
Defined.

Lemma unknown_type_witness :
  deserializeHistory
    (VArr [ VObj [("type", VStr "human"); ("content", VStr "somewhere warm")];
            VObj [("type", VStr "tool"); ("content", VStr "42")];
            VObj [("type", VStr "ai"); ("content", VStr "How about the Maldives?")] ])
  = Throw (Error "Unknown message type: tool").
Proof.
  apply (deserializeHistory_rejects_unknown_type
           [HumanMessage (VStr "somewhere warm")]
           [VObj [("type", VStr "human"); ("content", VStr "somewhere warm")]]
           [VObj [("type", VStr "ai"); ("content", VStr "How about the Maldives?")]]
           (VObj [("type", VStr "tool"); ("content", VStr "42")]) (VStr "tool"));
    try reflexivity; try discriminate.
  apply List.Forall_cons; [| apply List.Forall_nil].
  split; [right; left; reflexivity | eexists; reflexivity].
Defined.

Lemma chat_witness :
  exists response w',
    chat earlier_conversation (VStr "what does it cost?") ticking_world
    = (Ok (response,
           (earlier_conversation ++ [HumanMessage (VStr "what does it cost?")])
           ++ [AIMessage (VStr "Here are some ideas.")]), w') /\
    model_calls w' = 1 /\ sent w' = [].
Proof.
  exact (proj1 (chat_appends_question_and_reply earlier_conversation "what does it cost?"
                  ticking_world earlier_conversation_plain)
           "Here are some ideas." eq_refl).
Defined.

Lemma conversation_witness :
  exists response w',
    shopping_agent_handler "POST" follow_up_request ticking_world
    = (Ok (mkResponse 200
             (VObj [ ("response", VStr response);
                     ("context_id", VStr "ctx-1762077000000");
                     ("conversationHistory",
                      serializeHistory
                        ((earlier_conversation ++ [HumanMessage (VStr "what does it cost?")])
                         ++ [AIMessage (VStr "Here are some ideas.")])) ])),
       w').
Proof.
  apply (chat_request_extends_conversation follow_up_request ticking_world "sk-or-example"
           "what does it cost?" "Here are some ideas." earlier_conversation);
    try reflexivity; try discriminate.
  right. split; [reflexivity |]. split; [discriminate |].
  exact earlier_conversation_plain.
Defined.


Lemma request_without_method_witness :
  shopping_agent_handler "POST" request_without_method ticking_world
  = (Ok (mkResponse 400 (VObj [("error", VStr "Cart mandate and payment method required")])),
     ticking_world).
Proof.
  apply (proj1 (payment_mandate_request_needs_cart_and_method request_without_method
                  ticking_world "sk-or-example" eq_refl ltac:(discriminate) eq_refl)
           selected_cart_mandate VUndefined); [reflexivity | reflexivity | now right].
Defined.

Lemma mandate_digest_witness :
  exists resp w1 contents jws claims,
    create_payment_mandate (req_data confirm_payment_request) (VStr "ctx-1") ticking_world
    = (Ok resp, w1) /\
    json resp = payment_mandate_body contents (JWS_compact jws) (VStr "ctx-1") /\
    jws_payload jws = PaymentPayload claims /\
    get_path contents ["payment_details_total"; "amount"; "value"] = Ok (VNum 4999%float) /\
    hashObject
      (set_path
         (set_path contents ["payment_details_total"]
            (VObj [("amount", VObj [("currency", VStr "USD"); ("value", VNum 1%float)])]))
         ["payment_response"] (VObj [("method_name", VStr "wallet")]))
    = Ok (mandate_hash claims).
Proof.
  pose (run := create_payment_mandate (req_data confirm_payment_request) (VStr "ctx-1")).
  run_at run ticking_world E.
  lazymatch eval vm_compute in
    (get_path (req_data confirm_payment_request)
       ["cartMandate"; "contents"; "payment_request"; "details"; "total"]) with
  | Ok (VObj ?total) =>
      destruct (payment_mandate_digest_ignores_total_and_method _ _ _ _ _ total E eq_refl)
        as (contents & jws & claims & Hjson & Hpayload & Htotal & _ & Hdigest)
  end.
  - reflexivity.
  - intros k Hk. cbn [payment_mandate_keys In] in Hk.
    repeat (destruct Hk as [<- | Hk]; [reflexivity |]). destruct Hk.
  - lazymatch type of E with _ = (Ok ?resp, _) => exists resp, (snd (run ticking_world)) end.
    exists contents, jws, claims.
    split; [exact E |]. split; [exact Hjson |]. split; [exact Hpayload |].
    split.
    + change ["payment_details_total"; "amount"; "value"]
        with (["payment_details_total"] ++ ["amount"; "value"]).
      rewrite get_path_app. cbn [get_path]. rewrite Htotal. reflexivity.
    + apply Hdigest. intros k Hk. cbn [payment_mandate_keys In] in Hk.
      repeat (destruct Hk as [<- | Hk]; [split; reflexivity |]). destruct Hk.
Defined.

Lemma exact_cents_witness :
  exists params cents,
    stripe_requests
      (snd (create_payment_intent_handler (fun _ => PrimFloat.nan) (fun s => s) "POST"
              (payment_intent_body (VNum (Z_to_float 4999)) (VStr "USD")
                 (VStr "Island Retreat") (VStr "cart-1")) example_stripe))
    = stripe_requests example_stripe ++ [("paymentIntents.create", params)] /\
    get_prop params "amount" = Ok (VNum cents) /\
    PrimFloat.eqb cents (Z_to_float (100 * 4999)) = true /\
    get_prop params "currency" = Ok (VStr "usd").
Proof.
  apply (proj2 (payment_intent_asks_for_exact_cents (fun _ => PrimFloat.nan) (fun s => s)
                  4999 "USD" "Island Retreat" (VStr "Island Retreat") (VStr "cart-1")
                  example_stripe ltac:(discriminate) eq_refl)).
  lia.
Defined.

Lemma transported_cart_mandate_witness :
  exists (mandate contents : value) (jws : JWS) (claims : CartMandateJWTPayload) (w' : World),
    cartMandate_for (package_priced 4999) ticking_world = (Ok mandate, w') /\
    over_the_wire mandate
    = VObj [("contents", contents); ("merchant_authorization", VStr (JWS_compact jws))] /\
    jws_payload jws = CartPayload claims /\
    hashObject contents = Ok (cart_hash claims).
Proof.
  destruct (cartMandate_for_runs (package_priced 4999) ticking_world)
    as (mandate & w' & Hrun & Hsigned).
  destruct (transported_cart_mandate_matches_its_token _ _ Hsigned)
    as (contents & jws & claims & Hwire & Hpayload & Hdigest).
  exists mandate, contents, jws, claims, w'. auto.
Defined.

Lemma last_five_witness :
  extractIntentFromConversation
    ([SystemMessage (VStr "You are a booking assistant.")]
     ++ earlier_conversation ++ [HumanMessage (VStr "what does it cost?");
                                 AIMessage (VStr "CREATE_INTENT_MANDATE")]) ticking_world
  = extractIntentFromConversation
      (earlier_conversation ++ [HumanMessage (VStr "what does it cost?");
                                AIMessage (VStr "CREATE_INTENT_MANDATE")]) ticking_world.
Proof.
  apply (extractIntentFromConversation_reads_last_five
           [SystemMessage (VStr "You are a booking assistant.")]).
  reflexivity.
Defined.
